(** * INGInious task problems: a shallow embedding of
      [inginious/common/tasks_problems.py] and the properties of its
      construction, consistency and grading code.

    The Python objects handled by the module are embedded as follows.
    - A Python value is a [pyval]; a [str] is a Rocq [string] (one
      character per code point below 256), an [int] is a [Z], a [float] is
      a binary64 [float], a [dict] with string keys is an association list
      in insertion order (the keys of a Python dict are distinct; nothing
      below needs it).
    - An exception is a value of [exn]; code that may raise returns a
      [result].
    - The submitted input of a task is a [gmap string pyval]. *)

From Stdlib Require Import ZArith Ascii String List Bool Lia.
From Stdlib Require Import Decimal DecimalString DecimalPos DecimalZ.
From Stdlib Require Import Floats.
From Stdlib Require Import Permutation.
From stdpp Require Import base option list sorting gmap strings.

Set Warnings "-register-all".

Local Open Scope string_scope.
Local Open Scope list_scope.
Local Open Scope Z_scope.

(** ** Python values *)

Inductive pyval : Type :=
| PNone
| PBool (b : bool)
| PInt (z : Z)
| PFloat (f : float)
| PStr (s : string)
| PList (l : list pyval)
| PDict (d : list (string * pyval)).

(** ** Exceptions and results *)

Inductive exn : Type :=
| Exception (msg : string)
| TypeError
| ValueError
| OverflowError
| AttributeError
| KeyError (key : string).

Inductive result (A : Type) : Type :=
| OK (a : A)
| Raise (e : exn).
Arguments OK {A} a.
Arguments Raise {A} e.

#[global] Instance result_ret : MRet result := fun A a => OK a.
#[global] Instance result_bind : MBind result := fun A B f m =>
  match m with
  | OK a => f a
  | Raise e => Raise e
  end.

Definition is_OK {A} (r : result A) : bool :=
  match r with OK _ => true | Raise _ => false end.

(** [try: ... except ValueError: handler] *)
Definition except_ValueError {A} (body : result A) (handler : result A) : result A :=
  match body with
  | Raise ValueError => handler
  | r => r
  end.

(** ** Dictionaries: [key in d], [d[key]], [d.get(key, default)] *)

Fixpoint dict_lookup (k : string) (d : list (string * pyval)) : option pyval :=
  match d with
  | [] => None
  | (k', v) :: d' => if String.eqb k k' then Some v else dict_lookup k d'
  end.

Definition dict_has (k : string) (d : list (string * pyval)) : bool :=
  match dict_lookup k d with Some _ => true | None => false end.

Definition dict_get (k : string) (d : list (string * pyval)) (dflt : pyval) : pyval :=
  match dict_lookup k d with Some v => v | None => dflt end.

Definition dict_item (k : string) (d : list (string * pyval)) : result pyval :=
  match dict_lookup k d with Some v => OK v | None => Raise (KeyError k) end.

(** ** Truth value, [isinstance(v, int)] *)

Definition py_truthy (v : pyval) : bool :=
  match v with
  | PNone => false
  | PBool b => b
  | PInt z => negb (z =? 0)
  | PFloat f => negb (PrimFloat.eqb f 0%float)
  | PStr s => negb (String.eqb s "")
  | PList l => match l with [] => false | _ => true end
  | PDict d => match d with [] => false | _ => true end
  end.

(** [bool] is a subclass of [int]: [isinstance(True, int)] holds. *)
Definition py_isinstance_int (v : pyval) : bool :=
  match v with
  | PInt _ | PBool _ => true
  | _ => false
  end.

(** The value of an [int] instance ([True] is 1, [False] is 0). *)
Definition int_value (v : pyval) : Z :=
  match v with
  | PInt z => z
  | PBool true => 1
  | _ => 0
  end.

(** ** Strings: whitespace, [str.strip()], [sub in s] *)

(** [str.isspace] on code points below 256. *)
Definition is_space (c : ascii) : bool :=
  let n := N_of_ascii c in
  ((9 <=? n) && (n <=? 13) || (28 <=? n) && (n <=? 32) || (n =? 133) || (n =? 160))%N.

Fixpoint lstrip (s : string) : string :=
  match s with
  | "" => ""
  | String c s' => if is_space c then lstrip s' else s
  end.

(** Removes trailing whitespace: a character is kept when it is not
    whitespace or when something is kept after it. *)
Fixpoint rstrip (s : string) : string :=
  match s with
  | "" => ""
  | String c s' =>
      match rstrip s' with
      | "" => if is_space c then "" else String c ""
      | r => String c r
      end
  end.

Definition strip (s : string) : string := rstrip (lstrip s).

Fixpoint is_prefix (p s : string) : bool :=
  match p, s with
  | "", _ => true
  | String a p', String b s' => Ascii.eqb a b && is_prefix p' s'
  | String _ _, "" => false
  end.

(** [sub in s] for two strings. *)
Fixpoint str_contains (sub s : string) : bool :=
  is_prefix sub s ||
  match s with
  | "" => false
  | String _ s' => str_contains sub s'
  end.

(** ** [str(i)] and [int(v)] *)

Definition str_of_int (z : Z) : string := NilZero.string_of_int (Z.to_int z).

(** [sys.get_int_max_str_digits()], at the interpreter's default: the most
    digits an integer may have when [str()] converts it. *)
Definition int_max_str_digits : Z := 4300.

Definition digit_of (c : ascii) : option Z :=
  let n := N_of_ascii c in
  if ((48 <=? n) && (n <=? 57))%N then Some (Z.of_N n - 48) else None.

(** Digits of a decimal literal, a single underscore allowed between two
    digits; [prev] tells whether the previous character was a digit. *)
Fixpoint int_body (s : string) (acc : Z) (prev : bool) : option Z :=
  match s with
  | "" => if prev then Some acc else None
  | String c s' =>
      match digit_of c with
      | Some d => int_body s' (10 * acc + d) true
      | None =>
          if Ascii.eqb c "_" then (if prev then int_body s' acc false else None)
          else None
      end
  end.

(** Whitespace skipped by [int()] around the literal: the ASCII blanks, and
    the two non-ASCII blanks below 256. *)
Definition is_int_space (c : ascii) : bool :=
  let n := N_of_ascii c in
  ((9 <=? n) && (n <=? 13) || (n =? 32) || (n =? 133) || (n =? 160))%N.

Fixpoint int_lstrip (s : string) : string :=
  match s with
  | "" => ""
  | String c s' => if is_int_space c then int_lstrip s' else s
  end.

Fixpoint int_rstrip (s : string) : string :=
  match s with
  | "" => ""
  | String c s' =>
      match int_rstrip s' with
      | "" => if is_int_space c then "" else String c ""
      | r => String c r
      end
  end.

(** [int(s)] for a string, in base 10; [None] stands for [ValueError]. The
    interpreter's bound on the number of digits is left out. *)
Definition int_of_string (s : string) : option Z :=
  match int_rstrip (int_lstrip s) with
  | String "-" s' => Z.opp <$> int_body s' 0 false
  | String "+" s' => int_body s' 0 false
  | s' => int_body s' 0 false
  end.

(** [int(f)] for a float: truncation towards zero; [nan] and the
    infinities have no integer value. *)
Definition int_of_float (f : float) : result Z :=
  match Prim2SF f with
  | S754_zero _ => OK 0
  | S754_infinity _ => Raise OverflowError
  | S754_nan => Raise ValueError
  | S754_finite s m e =>
      let v := if 0 <=? e then Z.pos m * 2 ^ e else Z.pos m / 2 ^ (- e) in
      OK (if s then - v else v)
  end.

Definition py_int (v : pyval) : result Z :=
  match v with
  | PInt z => OK z
  | PBool b => OK (if b then 1 else 0)
  | PFloat f => int_of_float f
  | PStr s => match int_of_string s with Some z => OK z | None => Raise ValueError end
  | PNone | PList _ | PDict _ => Raise TypeError
  end.

(** ** Equality with an [int] or a [str], membership, iteration *)

(** [f == z] for a float and an integer: exact comparison of the values. *)
Definition float_eq_int (f : float) (z : Z) : bool :=
  match Prim2SF f with
  | S754_zero _ => z =? 0
  | S754_finite s m e =>
      let a := if s then - z else z in
      if 0 <=? e then a =? Z.pos m * 2 ^ e
      else a * 2 ^ (- e) =? Z.pos m
  | _ => false
  end.

Definition py_eq_int (i : Z) (v : pyval) : bool :=
  match v with
  | PInt z => i =? z
  | PBool b => i =? (if b then 1 else 0)
  | PFloat f => float_eq_int f i
  | _ => false
  end.

Definition py_eq_str (s : string) (v : pyval) : bool :=
  match v with
  | PStr t => String.eqb s t
  | _ => false
  end.

(** [i in c] for an integer [i]. *)
Definition py_contains_int (i : Z) (c : pyval) : result bool :=
  match c with
  | PList l => OK (existsb (py_eq_int i) l)
  | PDict _ => OK false
  | _ => Raise TypeError
  end.

(** [s in c] for a string [s]. *)
Definition py_contains_str (s : string) (c : pyval) : result bool :=
  match c with
  | PList l => OK (existsb (py_eq_str s) l)
  | PDict d => OK (dict_has s d)
  | PStr t => OK (str_contains s t)
  | _ => Raise TypeError
  end.

Fixpoint chars_of (s : string) : list pyval :=
  match s with
  | "" => []
  | String c s' => PStr (String c "") :: chars_of s'
  end.

(** [for x in c]: the elements visited. *)
Definition py_iter (c : pyval) : result (list pyval) :=
  match c with
  | PList l => OK l
  | PDict d => OK (map (fun kv => PStr (fst kv)) d)
  | PStr s => OK (chars_of s)
  | _ => Raise TypeError
  end.

(** [isinstance(v, list)] *)
Definition py_is_list (v : pyval) : bool :=
  match v with PList _ => true | _ => false end.

(** ** Collaborators *)

(** The task owning a problem; only its environment is read here. *)
Record Task : Type := { get_environment : option string }.

(** The classes a box descriptor's [type] may name. *)
Inductive box_class : Type := InputBox | MultilineBox | TextBox | FileBox.

(** [BasicCodeProblem._box_types] *)
Definition _box_types (ty : string) : option box_class :=
  if String.eqb ty "input-text" then Some InputBox
  else if String.eqb ty "input-decimal" then Some InputBox
  else if String.eqb ty "input-integer" then Some InputBox
  else if String.eqb ty "multiline" then Some MultilineBox
  else if String.eqb ty "text" then Some TextBox
  else if String.eqb ty "file" then Some FileBox
  else None.

(** A message catalog of [gettext.GNUTranslations]. *)
Definition catalog_gettext (cat : gmap string string) (m : pyval) : result pyval :=
  match m with
  | PStr s => OK (PStr (default s (cat !! s)))
  | PList _ | PDict _ => Raise TypeError
  | _ => OK m
  end.

(** ** Problems *)

Record BasicProblem : Type := {
  _translations : option (gmap string (gmap string string));
  _id : string;
  _task : Task;
  _name : pyval;
  _header : pyval;
  _original_content : list (string * pyval)
}.

Definition get_id (b : BasicProblem) : string := _id b.

(** [dict(self._original_content)]: a copy with the same items. *)
Definition get_original_content (b : BasicProblem) : list (string * pyval) :=
  _original_content b.

(** [BasicProblem.gettext]: the catalog of the language, or the identity of
    [NullTranslations] when the language has none. *)
Definition gettext (b : BasicProblem) (language : string) (m : pyval) : result pyval :=
  match _translations b with
  | None => Raise AttributeError
  | Some trs =>
      match trs !! language with
      | Some cat => catalog_gettext cat m
      | None => OK m
      end
  end.

(** [task_input[self.get_id()]] *)
Definition input_item (b : BasicProblem) (task_input : gmap string pyval) : result pyval :=
  match task_input !! get_id b with
  | Some v => OK v
  | None => Raise (KeyError (get_id b))
  end.

(** The grading contract: correctness ([None] defers to the grader), the
    unused task message, the problem's messages, the number of errors. *)
Definition answer : Type := (option bool * option pyval * option (list pyval) * Z)%type.

Record MatchProblem : Type := {
  match_base : BasicProblem;
  _answer : string
}.

Record Choice : Type := {
  index : Z;
  text : pyval;
  feedback : pyval;
  valid : bool
}.

Record MultipleChoiceProblem : Type := {
  mcq_base : BasicProblem;
  _multiple : pyval;
  _limit : pyval;
  _centralize : pyval;
  _error_message : pyval;
  _success_message : pyval;
  _choices : list Choice
}.

Section Problems.

Set Default Proof Using "Type".

(** What this module takes from elsewhere: the identifier check of
    [inginious.common.base]; the box classes of
    [inginious.common.tasks_code_boxes] (construction from the owning
    problem's id, its task, the box id and the box descriptor, and the
    boxes' own consistency check); what Python's [str()] does on a float
    or a container: the text it gives or the exception it raises. *)
Variable id_checker : string -> bool.
Variable Box : Type.
Variable box_new : box_class -> string -> Task -> string -> pyval -> result Box.
Variable box_input_is_consistent : Box -> gmap string pyval -> pyval -> pyval -> result bool.
Variable py_repr : pyval -> result string.

(** [str(v)]: an integer of more than [int_max_str_digits] digits has no
    text, the conversion raises [ValueError]. *)
Definition py_str (v : pyval) : result string :=
  match v with
  | PStr s => OK s
  | PInt z =>
      if Z.abs z <? 10 ^ int_max_str_digits then OK (str_of_int z) else Raise ValueError
  | PBool true => OK "True"
  | PBool false => OK "False"
  | PNone => OK "None"
  | _ => py_repr v
  end.

(** *** BasicProblem *)

Definition BasicProblem_init (task : Task) (problemid : string)
    (content : list (string * pyval))
    (translations : option (gmap string (gmap string string))) : result BasicProblem :=
  if negb (id_checker problemid) then
    Raise (Exception ("Invalid problem _id: " +:+ problemid))
  else
    OK {| _translations := translations;
          _id := problemid;
          _task := task;
          _name := if dict_has "name" content then dict_get "name" content PNone else PStr "";
          _header := if dict_has "header" content then dict_get "header" content PNone else PStr "";
          _original_content := content |}.

(** *** MatchProblem *)

Definition MatchProblem_init (task : Task) (problemid : string)
    (content : list (string * pyval))
    (translations : option (gmap string (gmap string string))) : result MatchProblem :=
  b ← BasicProblem_init task problemid content translations;
  if negb (dict_has "answer" content) then
    Raise (Exception "There is no answer in this problem with type==match")
  else
    a ← dict_item "answer" content;
    answer ← py_str a;
    OK {| match_base := b; _answer := answer |}.

Definition MatchProblem_input_is_consistent (p : MatchProblem)
    (task_input : gmap string pyval) : result bool :=
  OK (bool_decide (is_Some (task_input !! get_id (match_base p)))).

(** [v.strip()] for the submitted value: only a [str] has the method. *)
Definition py_strip (v : pyval) : result string :=
  match v with
  | PStr s => OK (strip s)
  | _ => Raise AttributeError
  end.

Definition MatchProblem_check_answer (p : MatchProblem)
    (task_input : gmap string pyval) (language : string) : result answer :=
  v ← input_item (match_base p) task_input;
  s ← py_strip v;
  if String.eqb s (_answer p) then
    OK (Some true, None, Some [PStr "_correct_answer"], 0)
  else
    OK (Some false, None, Some [PStr "_wrong_answer"], 0).

(** *** BasicCodeProblem and its three shapes *)

Record BasicCodeProblem : Type := {
  code_base : BasicProblem;
  _boxes : list Box
}.

Definition BasicCodeProblem_init (task : Task) (problemid : string)
    (content : list (string * pyval))
    (translations : option (gmap string (gmap string string))) : result BasicCodeProblem :=
  b ← BasicProblem_init task problemid content translations;
  match get_environment task with
  | None =>
      Raise (Exception
        "Environment undefined, but there is a problem with type=code or type=code-single-line")
  | Some _ => OK {| code_base := b; _boxes := [] |}
  end.

(** [box_content["type"]]: subscripting by a string is defined on a dict. *)
Definition py_item_str (k : string) (v : pyval) : result pyval :=
  match v with
  | PDict d => dict_item k d
  | _ => Raise TypeError
  end.

Definition _create_box (self : BasicCodeProblem) (boxid : string) (box_content : pyval)
    : result Box :=
  if negb (id_checker boxid) && negb (String.eqb boxid "") then
    Raise (Exception ("Invalid box _id " +:+ boxid))
  else
    has_type ← py_contains_str "type" box_content;
    if negb has_type then
      Raise (Exception ("Box " +:+ boxid +:+ " does not have a type"))
    else
      ty ← py_item_str "type" box_content;
      match ty with
      | PStr t =>
          match _box_types t with
          | None =>
              Raise (Exception ("Unknown box type " +:+ t +:+ "for box _id " +:+ boxid))
          | Some cls =>
              box_new cls (get_id (code_base self)) (_task (code_base self)) boxid box_content
          end
      | _ => Raise TypeError
      end.

Fixpoint BasicCodeProblem_input_is_consistent_loop (boxes : list Box)
    (task_input : gmap string pyval) (default_allowed_extension default_max_size : pyval)
    : result bool :=
  match boxes with
  | [] => OK true
  | box :: rest =>
      c ← box_input_is_consistent box task_input default_allowed_extension default_max_size;
      if negb c then OK false
      else BasicCodeProblem_input_is_consistent_loop rest task_input
             default_allowed_extension default_max_size
  end.

Definition BasicCodeProblem_input_is_consistent (p : BasicCodeProblem)
    (task_input : gmap string pyval) (default_allowed_extension default_max_size : pyval)
    : result bool :=
  BasicCodeProblem_input_is_consistent_loop (_boxes p) task_input
    default_allowed_extension default_max_size.

Definition BasicCodeProblem_check_answer (p : BasicCodeProblem)
    (task_input : gmap string pyval) (language : string) : result answer :=
  OK (None, None, None, 0).

Definition CodeSingleLineProblem_init (task : Task) (problemid : string)
    (content : list (string * pyval))
    (translations : option (gmap string (gmap string string))) : result BasicCodeProblem :=
  self ← BasicCodeProblem_init task problemid content translations;
  box ← _create_box self ""
          (PDict [("type", PStr "input-text");
                  ("optional", dict_get "optional" content (PBool false))]);
  OK {| code_base := code_base self; _boxes := [box] |}.

Definition CodeFileProblem_init (task : Task) (problemid : string)
    (content : list (string * pyval))
    (translations : option (gmap string (gmap string string))) : result BasicCodeProblem :=
  self ← BasicCodeProblem_init task problemid content translations;
  box ← _create_box self ""
          (PDict [("type", PStr "file");
                  ("max_size", dict_get "max_size" content PNone);
                  ("allowed_exts", dict_get "allowed_exts" content PNone)]);
  OK {| code_base := code_base self; _boxes := [box] |}.

(** The loop over [content['boxes'].items()], appending to [self._boxes]. *)
Fixpoint CodeProblem_boxes_loop (self : BasicCodeProblem) (items : list (string * pyval))
    : result BasicCodeProblem :=
  match items with
  | [] => OK self
  | (boxid, box_content) :: rest =>
      if String.eqb boxid "" then Raise (Exception "Empty box ids are not allowed")
      else
        box ← _create_box self boxid box_content;
        CodeProblem_boxes_loop
          {| code_base := code_base self; _boxes := _boxes self ++ [box] |} rest
  end.

(** [v.items()]: only a dict has the method. *)
Definition py_items (v : pyval) : result (list (string * pyval)) :=
  match v with
  | PDict d => OK d
  | _ => Raise AttributeError
  end.

Definition CodeProblem_init (task : Task) (problemid : string)
    (content : list (string * pyval))
    (translations : option (gmap string (gmap string string))) : result BasicCodeProblem :=
  self ← BasicCodeProblem_init task problemid content translations;
  if dict_has "boxes" content then
    boxes ← dict_item "boxes" content;
    items ← py_items boxes;
    CodeProblem_boxes_loop {| code_base := code_base self; _boxes := [] |} items
  else if dict_has "language" content then
    language ← dict_item "language" content;
    box ← _create_box self ""
            (PDict [("type", PStr "multiline");
                    ("language", language);
                    ("optional", dict_get "optional" content (PBool false))]);
    OK {| code_base := code_base self; _boxes := [box] |}
  else
    box ← _create_box self ""
            (PDict [("type", PStr "multiline");
                    ("optional", dict_get "optional" content (PBool false))]);
    OK {| code_base := code_base self; _boxes := [box] |}.

(** *** MultipleChoiceProblem *)

(** The body of the loop over [enumerate(content["choices"])] up to the
    append: the [data] dict built for one declared choice. *)
Definition choice_data (problemid : string) (i : Z) (choice : pyval) : result Choice :=
  has_text ← py_contains_str "text" choice;
  if negb has_text then
    Raise (Exception ("A choice in " +:+ problemid +:+ " does not have text"))
  else
    t ← py_item_str "text" choice;
    match choice with
    | PDict d =>
        OK {| index := i;
              text := t;
              feedback := dict_get "feedback" d PNone;
              valid := py_truthy (dict_get "valid" d (PBool false)) |}
    | _ => Raise AttributeError
    end.

(** The loop itself, with its two accumulators. *)
Fixpoint choices_loop (problemid : string) (i : Z) (choices : list pyval)
    (good_choices bad_choices : list Choice) : result (list Choice * list Choice) :=
  match choices with
  | [] => OK (good_choices, bad_choices)
  | choice :: rest =>
      data ← choice_data problemid i choice;
      if valid data then
        choices_loop problemid (i + 1) rest (good_choices ++ [data]) bad_choices
      else
        choices_loop problemid (i + 1) rest good_choices (bad_choices ++ [data])
  end.

(** The condition under which a declared limit is stored. *)
Definition limit_ok (multiple limit : pyval) (n_good : Z) : bool :=
  py_isinstance_int limit && (0 <=? int_value limit) &&
  (negb (py_truthy multiple) || (n_good <=? int_value limit) || (int_value limit =? 0)).

Definition MultipleChoiceProblem_init (task : Task) (problemid : string)
    (content : list (string * pyval))
    (translations : option (gmap string (gmap string string)))
    : result MultipleChoiceProblem :=
  b ← BasicProblem_init task problemid content translations;
  let multiple := dict_get "multiple" content (PBool false) in
  if negb (dict_has "choices" content)
     || negb (py_is_list (dict_get "choices" content PNone)) then
    Raise (Exception ("Multiple choice problem " +:+ problemid
                      +:+ " does not have choices or choices are not an array"))
  else
    choices ← py_iter (dict_get "choices" content PNone);
    parts ← choices_loop problemid 0 choices [] [];
    let good_choices := fst parts in
    let bad_choices := snd parts in
    if (Z.of_nat (length good_choices) =? 0) then
      Raise (Exception ("Problem " +:+ problemid +:+ " does not have any valid answer"))
    else
      limit ←
        (if dict_has "limit" content
            && limit_ok multiple (dict_get "limit" content PNone)
                 (Z.of_nat (length good_choices))
         then OK (dict_get "limit" content PNone)
         else if dict_has "limit" content then
           Raise (Exception ("Invalid limit in problem " +:+ problemid))
         else OK (PInt 0));
      OK {| mcq_base := b;
            _multiple := multiple;
            _limit := limit;
            _centralize := dict_get "centralize" content (PBool false);
            _error_message := dict_get "error_message" content PNone;
            _success_message := dict_get "success_message" content PNone;
            _choices := good_choices ++ bad_choices |}.

Definition allow_multiple (p : MultipleChoiceProblem) : pyval := _multiple p.

Fixpoint find_choice (i : Z) (choices : list Choice) : option Choice :=
  match choices with
  | [] => None
  | entry :: rest => if index entry =? i then Some entry else find_choice i rest
  end.

Definition get_choice_with_index (p : MultipleChoiceProblem) (i : Z) : option Choice :=
  find_choice i (_choices p).

(** The loop of the multi-select branch of [input_is_consistent]. *)
Fixpoint entries_known (p : MultipleChoiceProblem) (entries : list pyval) : result bool :=
  match entries with
  | [] => OK true
  | entry :: rest =>
      i ← py_int entry;
      match get_choice_with_index p i with
      | None => OK false
      | Some _ => entries_known p rest
      end
  end.

Definition MultipleChoiceProblem_input_is_consistent (p : MultipleChoiceProblem)
    (task_input : gmap string pyval) : result bool :=
  if negb (bool_decide (is_Some (task_input !! get_id (mcq_base p)))) then OK false
  else if py_truthy (_multiple p) then
    v ← input_item (mcq_base p) task_input;
    if negb (py_is_list v) then OK false
    else
      except_ValueError
        (v' ← input_item (mcq_base p) task_input;
         entries ← py_iter v';
         entries_known p entries)
        (OK false)
  else
    except_ValueError
      (v ← input_item (mcq_base p) task_input;
       i ← py_int v;
       match get_choice_with_index p i with
       | None => OK false
       | Some _ => OK true
       end)
      (OK false).

(** One iteration of the loop over [self._choices] in [check_answer]; the
    state is [(valid, invalid_count)]. *)
Definition grade_choice (p : MultipleChoiceProblem) (task_input : gmap string pyval)
    (choice : Choice) (st : bool * Z) : result (bool * Z) :=
  let wrong := (false, snd st + 1) in
  if valid choice then
    v ← input_item (mcq_base p) task_input;
    as_int ← py_contains_int (index choice) v;
    if (as_int : bool) then OK st
    else
      v' ← input_item (mcq_base p) task_input;
      as_str ← py_contains_str (str_of_int (index choice)) v';
      if (as_str : bool) then OK st else OK wrong
  else
    v ← input_item (mcq_base p) task_input;
    as_int ← py_contains_int (index choice) v;
    if (as_int : bool) then OK wrong
    else
      v' ← input_item (mcq_base p) task_input;
      as_str ← py_contains_str (str_of_int (index choice)) v';
      if (as_str : bool) then OK wrong else OK st.

Fixpoint grade_choices (p : MultipleChoiceProblem) (task_input : gmap string pyval)
    (choices : list Choice) (st : bool * Z) : result (bool * Z) :=
  match choices with
  | [] => OK st
  | choice :: rest =>
      st' ← grade_choice p task_input choice st;
      grade_choices p task_input rest st'
  end.

(** [choice["feedback"]] for the result of [get_choice_with_index]: [None]
    cannot be subscripted. *)
Definition choice_item {A} (f : Choice -> A) (c : option Choice) : result A :=
  match c with
  | Some c => OK (f c)
  | None => Raise TypeError
  end.

(** The loop over the submitted entries collecting the feedback texts. *)
Fixpoint collect_feedback (p : MultipleChoiceProblem) (language : string)
    (entries : list pyval) (msgs : list pyval) : result (list pyval) :=
  match entries with
  | [] => OK msgs
  | i :: rest =>
      n ← py_int i;
      fb ← choice_item feedback (get_choice_with_index p n);
      match fb with
      | PNone => collect_feedback p language rest msgs
      | _ =>
          m ← gettext (mcq_base p) language fb;
          collect_feedback p language rest (msgs ++ [m])
      end
  end.

(** [msgs if len(msgs) != 0 else None] *)
Definition msgs_or_None (msgs : list pyval) : option (list pyval) :=
  match msgs with [] => None | _ => Some msgs end.

(** The multi-select branch of [check_answer]: [(valid, invalid_count, msgs)]. *)
Definition check_multiple (p : MultipleChoiceProblem) (task_input : gmap string pyval)
    (language : string) : result (bool * Z * list pyval) :=
  st ← grade_choices p task_input (_choices p) (true, 0);
  v ← input_item (mcq_base p) task_input;
  entries ← py_iter v;
  msgs ← collect_feedback p language entries [];
  OK (fst st, snd st, msgs).

(** The single-select branch. *)
Definition check_single (p : MultipleChoiceProblem) (task_input : gmap string pyval)
    (language : string) : result (bool * Z * list pyval) :=
  v ← input_item (mcq_base p) task_input;
  i ← py_int v;
  let choice := get_choice_with_index p i in
  is_valid ← choice_item valid choice;
  let invalid_count := if negb is_valid then 1 else 0 in
  fb ← choice_item feedback choice;
  match fb with
  | PNone => OK (is_valid, invalid_count, [])
  | _ =>
      m ← gettext (mcq_base p) language fb;
      OK (is_valid, invalid_count, [m])
  end.

(** The composition of the messages once the answer is graded. *)
Definition compose_answer (p : MultipleChoiceProblem) (language : string)
    (is_valid : bool) (invalid_count : Z) (msgs : list pyval) : result answer :=
  if negb is_valid then
    msgs' ←
      (match _error_message p with
       | PNone =>
           if negb (py_truthy (_centralize p)) then
             OK (PStr (if py_truthy (_multiple p) then "_wrong_answer_multiple"
                       else "_wrong_answer") :: msgs)
           else OK msgs
       | em => m ← gettext (mcq_base p) language em; OK (m :: msgs)
       end);
    OK (Some false, None, msgs_or_None msgs', invalid_count)
  else
    msgs' ←
      (match _success_message p with
       | PNone => OK msgs
       | sm => m ← gettext (mcq_base p) language sm; OK (m :: msgs)
       end);
    OK (Some true, None, msgs_or_None msgs', 0).

Definition MultipleChoiceProblem_check_answer (p : MultipleChoiceProblem)
    (task_input : gmap string pyval) (language : string) : result answer :=
  graded ← (if py_truthy (_multiple p) then check_multiple p task_input language
            else check_single p task_input language);
  compose_answer p language (fst (fst graded)) (snd (fst graded)) (snd graded).

(** ** Facts on the builtins: [int(str(z))] *)

(** No character of the string is skipped by [int()]. *)

Fixpoint no_space (s : string) : bool :=
  match s with
  | "" => true
  | String c s' => negb (is_int_space c) && no_space s'
  end.

Lemma int_rstrip_no_space s : no_space s = true -> int_rstrip s = s.
Proof.
  induction s as [|c s IH]; simpl; [done|].
  intros [Hc Hs]%andb_prop. rewrite (IH Hs).
  destruct s; [|done]. by destruct (is_int_space c).
Qed.

Lemma int_lstrip_no_space s : no_space s = true -> int_lstrip s = s.
Proof.
  destruct s as [|c s]; simpl; [done|].
  intros [Hc _]%andb_prop. by destruct (is_int_space c).
Qed.

Lemma no_space_uint d : no_space (NilEmpty.string_of_uint d) = true.
Proof. induction d; simpl; auto. Qed.

Lemma int_body_uint_acc d acc :
  int_body (NilEmpty.string_of_uint d) (Z.pos acc) true = Some (Z.pos (Pos.of_uint_acc d acc)).
Proof.
  revert acc. induction d; intros acc; simpl; [done|..];
    rewrite <- IHd; f_equal; lia.
Qed.

Lemma int_body_uint d :
  int_body (NilEmpty.string_of_uint d) 0 true = Some (Z.of_N (Pos.of_uint d)).
Proof.
  induction d; simpl; [done|done|..]; by rewrite <- int_body_uint_acc.
Qed.

Lemma int_body_uint_start d :
  d <> Nil ->
  int_body (NilEmpty.string_of_uint d) 0 false = Some (Z.of_N (Pos.of_uint d)).
Proof.
  intros Hd. rewrite <- int_body_uint. by destruct d.
Qed.

Lemma int_of_string_uint d :
  d <> Nil ->
  int_of_string (NilEmpty.string_of_uint d) = Some (Z.of_N (Pos.of_uint d)).
Proof.
  intros Hd. unfold int_of_string.
  rewrite int_lstrip_no_space, int_rstrip_no_space by apply no_space_uint.
  rewrite <- (int_body_uint_start d Hd). by destruct d.
Qed.

Lemma int_of_string_neg_uint d :
  d <> Nil ->
  int_of_string (String "-" (NilEmpty.string_of_uint d)) = Some (- Z.of_N (Pos.of_uint d)).
Proof.
  intros Hd. unfold int_of_string.
  assert (Hn : no_space (String "-" (NilEmpty.string_of_uint d)) = true)
    by (simpl; apply no_space_uint).
  rewrite int_lstrip_no_space, int_rstrip_no_space by exact Hn.
  by rewrite (int_body_uint_start d Hd).
Qed.

(** [int(str(z)) == z] *)
Lemma int_of_string_str_of_int z : int_of_string (str_of_int z) = Some z.
Proof.
  unfold str_of_int. destruct z as [|p|p]; simpl.
  - done.
  - pose proof (Unsigned.to_uint_nonnil p) as Hn.
    replace (NilZero.string_of_uint (Pos.to_uint p))
      with (NilEmpty.string_of_uint (Pos.to_uint p))
      by (by destruct (Pos.to_uint p)).
    rewrite int_of_string_uint by done. by rewrite Unsigned.of_to.
  - pose proof (Unsigned.to_uint_nonnil p) as Hn.
    replace (NilZero.string_of_uint (Pos.to_uint p))
      with (NilEmpty.string_of_uint (Pos.to_uint p))
      by (by destruct (Pos.to_uint p)).
    rewrite int_of_string_neg_uint by done. by rewrite Unsigned.of_to.
Qed.

Lemma py_int_str_of_int z : py_int (PStr (str_of_int z)) = OK z.
Proof. simpl. by rewrite int_of_string_str_of_int. Qed.

(** ** Facts on the builtins: [str.strip()] *)

Fixpoint all_space (s : string) : bool :=
  match s with
  | "" => true
  | String c s' => is_space c && all_space s'
  end.

Definition starts_with_space (s : string) : bool :=
  match s with
  | "" => false
  | String c _ => is_space c
  end.

Fixpoint ends_with_space (s : string) : bool :=
  match s with
  | "" => false
  | String c "" => is_space c
  | String _ s' => ends_with_space s'
  end.

(** [t] is [s] without its leading and trailing whitespace. *)
Definition trimmed (s t : string) : Prop :=
  exists l r, s = l +:+ t +:+ r /\ all_space l = true /\ all_space r = true
    /\ starts_with_space t = false /\ ends_with_space t = false.

Lemma append_cons c (a b : string) : String c a +:+ b = String c (a +:+ b).
Proof. reflexivity. Qed.

Lemma append_nil (b : string) : "" +:+ b = b.
Proof. reflexivity. Qed.

Lemma append_assoc (a b c : string) : (a +:+ b) +:+ c = a +:+ b +:+ c.
Proof. induction a as [|x a IH]; [done|]. by rewrite !append_cons, IH. Qed.

Lemma lstrip_spec s :
  exists l, s = l +:+ lstrip s /\ all_space l = true /\ starts_with_space (lstrip s) = false.
Proof.
  induction s as [|c s (l & Hs & Hl & Hn)]; simpl.
  - by exists "".
  - destruct (is_space c) eqn:Hc.
    + exists (String c l). rewrite append_cons, <- Hs. simpl. by rewrite Hc, Hl.
    + exists "". simpl. by rewrite Hc.
Qed.

Lemma rstrip_spec s :
  exists r, s = rstrip s +:+ r /\ all_space r = true /\ ends_with_space (rstrip s) = false.
Proof.
  induction s as [|c s (r & Hs & Hr & Hn)]; simpl.
  - by exists "".
  - destruct (rstrip s) as [|c' t] eqn:Ht.
    + rewrite append_nil in Hs. subst r. destruct (is_space c) eqn:Hc.
      * exists (String c s). rewrite append_nil. simpl. by rewrite Hc, Hr.
      * exists s. rewrite append_cons, append_nil. simpl. by rewrite Hc.
    + exists r. by rewrite append_cons, <- Hs.
Qed.

Lemma rstrip_starts s : starts_with_space s = false -> starts_with_space (rstrip s) = false.
Proof.
  destruct s as [|c s]; simpl; [done|].
  intros Hc. destruct (rstrip s); simpl; [by rewrite Hc|done].
Qed.

Lemma strip_trimmed s : trimmed s (strip s).
Proof.
  unfold strip. destruct (lstrip_spec s) as (l & Hs & Hl & Hn).
  destruct (rstrip_spec (lstrip s)) as (r & Hs' & Hr & Hn').
  exists l, r. repeat split; auto using rstrip_starts. congruence.
Qed.

Lemma lstrip_all_space l u : all_space l = true -> lstrip (l +:+ u) = lstrip u.
Proof.
  induction l as [|c l IH]; [done|].
  intros H. rewrite append_cons. simpl in *.
  apply andb_prop in H as [Hc Hl]. rewrite Hc. auto.
Qed.

Lemma lstrip_no_start u : starts_with_space u = false -> lstrip u = u.
Proof. destruct u; simpl; [done|]. by intros ->. Qed.

Lemma rstrip_all_space r : all_space r = true -> rstrip r = "".
Proof.
  induction r as [|c r IH]; simpl; [done|].
  intros [Hc Hr]%andb_prop. by rewrite (IH Hr), Hc.
Qed.

Lemma lstrip_only_space r : all_space r = true -> lstrip r = "".
Proof.
  induction r as [|c r IH]; simpl; [done|].
  intros [Hc Hr]%andb_prop. rewrite Hc. auto.
Qed.

Lemma rstrip_cons c s :
  rstrip (String c s) =
  match rstrip s with
  | "" => if is_space c then "" else String c ""
  | r => String c r
  end.
Proof. reflexivity. Qed.

Lemma rstrip_append t r :
  all_space r = true -> ends_with_space t = false -> rstrip (t +:+ r) = t.
Proof.
  intros Hr. induction t as [|c t IH].
  - intros _. by apply rstrip_all_space.
  - rewrite append_cons. destruct t as [|c' t].
    + intros Hc. simpl in *. rewrite append_nil. by rewrite (rstrip_all_space r Hr), Hc.
    + intros Hn. rewrite rstrip_cons, (IH Hn). done.
Qed.

Lemma trimmed_strip s t : trimmed s t -> t = strip s.
Proof.
  intros (l & r & -> & Hl & Hr & Hn & Hn'). unfold strip.
  rewrite lstrip_all_space by done.
  destruct t as [|c t].
  - rewrite append_nil. by rewrite lstrip_only_space.
  - rewrite lstrip_no_start by done.
    by rewrite rstrip_append.
Qed.

(** ** MatchProblem: consistency and grading *)

(** C2. For a submitted string, [MatchProblem.check_answer] returns without
    raising; it is correct exactly when the submission without its leading
    and trailing whitespace equals the stored answer, character for
    character. The feedback is the single key [_correct_answer] when
    correct and [_wrong_answer] otherwise, and the error count is 0. The
    trimmed submission is the unique string [t] with [trimmed s t]. *)
Theorem MatchProblem_check_answer_exact
    (p : MatchProblem) (task_input : gmap string pyval) (language s : string) :
  task_input !! get_id (match_base p) = Some (PStr s) ->
  exists correct : bool,
    MatchProblem_check_answer p task_input language
      = OK (Some correct, None,
            Some [PStr (if correct then "_correct_answer" else "_wrong_answer")], 0)
    /\ (correct = true <-> strip s = _answer p)
    /\ trimmed s (strip s)
    /\ (forall t, trimmed s t -> (correct = true <-> t = _answer p)).
Proof.
  intros Hin. exists (String.eqb (strip s) (_answer p)).
  unfold MatchProblem_check_answer, input_item. rewrite Hin. simpl.
  split; [by destruct (String.eqb (strip s) (_answer p))|].
  split; [apply String.eqb_eq|].
  split; [apply strip_trimmed|].
  intros t Ht. rewrite (trimmed_strip s t Ht). apply String.eqb_eq.
Qed.

(** C10. [MatchProblem.input_is_consistent] never raises and holds exactly
    when the problem's id is a key of the submitted input, whatever the
    value is; a value that is not a string is accepted as consistent
    although [check_answer] then raises on it. *)
Theorem MatchProblem_input_is_consistent_key_only
    (p : MatchProblem) (task_input : gmap string pyval) :
  MatchProblem_input_is_consistent p task_input
    = OK (bool_decide (is_Some (task_input !! get_id (match_base p))))
  /\ (MatchProblem_input_is_consistent p task_input = OK true
      <-> is_Some (task_input !! get_id (match_base p)))
  /\ (forall v language,
        task_input !! get_id (match_base p) = Some v ->
        (forall s, v <> PStr s) ->
        MatchProblem_input_is_consistent p task_input = OK true
        /\ MatchProblem_check_answer p task_input language = Raise AttributeError).
Proof.
  unfold MatchProblem_input_is_consistent. split; [done|]. split.
  - split.
    + intros [= H]. by apply bool_decide_eq_true in H.
    + intros H. by rewrite bool_decide_eq_true_2.
  - intros v language Hv Hns. split.
    + rewrite bool_decide_eq_true_2; [done|]. by exists v.
    + unfold MatchProblem_check_answer, input_item. rewrite Hv. simpl.
      destruct v; try done. by destruct (Hns s).
Qed.

(** ** MultipleChoiceProblem: construction *)

(** The choices a descriptor declares, and whether a declared choice
    carries a true validity flag. *)
Definition declared_choices (content : list (string * pyval)) : list pyval :=
  match dict_lookup "choices" content with
  | Some (PList l) => l
  | _ => []
  end.

Definition declares_valid (choice : pyval) : bool :=
  match choice with
  | PDict d => py_truthy (dict_get "valid" d (PBool false))
  | _ => false
  end.

Definition n_valid_choices (content : list (string * pyval)) : Z :=
  Z.of_nat (length (filter (fun c => declares_valid c = true) (declared_choices content))).

(** The [data] dicts of the declared choices, in declaration order, the
    first one numbered [i]. *)
Fixpoint declared_data (problemid : string) (i : Z) (choices : list pyval)
    : result (list Choice) :=
  match choices with
  | [] => OK []
  | choice :: rest =>
      data ← choice_data problemid i choice;
      datas ← declared_data problemid (i + 1) rest;
      OK (data :: datas)
  end.

Definition is_valid (c : Choice) : Prop := valid c = true.

#[local] Instance is_valid_dec c : Decision (is_valid c).
Proof. unfold is_valid. apply _. Defined.

(** A descriptor without one of its keys. *)
Definition dict_remove (k : string) (d : list (string * pyval)) : list (string * pyval) :=
  List.filter (fun kv => negb (String.eqb k (fst kv))) d.

Lemma dict_lookup_remove_eq k d : dict_lookup k (dict_remove k d) = None.
Proof.
  induction d as [|[k' v] d IH]; simpl; [done|].
  destruct (String.eqb k k') eqn:E; simpl; [done|]. by rewrite E.
Qed.

Lemma dict_lookup_remove_ne k k' d :
  k <> k' -> dict_lookup k (dict_remove k' d) = dict_lookup k d.
Proof.
  intros Hne. induction d as [|[k'' v] d IH]; simpl; [done|].
  destruct (String.eqb k' k'') eqn:E; simpl.
  - apply String.eqb_eq in E as <-.
    by rewrite (proj2 (String.eqb_neq k k') Hne).
  - by rewrite IH.
Qed.

Lemma choices_loop_spec problemid choices : forall i good bad,
  choices_loop problemid i choices good bad =
  match declared_data problemid i choices with
  | OK datas =>
      OK (good ++ filter is_valid datas, bad ++ filter (fun c => ~ is_valid c) datas)
  | Raise e => Raise e
  end.
Proof.
  induction choices as [|c cs IH]; intros i good bad; simpl.
  - by rewrite !app_nil_r.
  - destruct (choice_data problemid i c) as [d|e]; simpl; [|done].
    destruct (valid d) eqn:Hv; rewrite IH;
      destruct (declared_data problemid (i + 1) cs) as [ds|e]; simpl; try done.
    + rewrite filter_cons_True, filter_cons_False by (unfold is_valid; congruence).
      by rewrite <- app_assoc.
    + rewrite filter_cons_False, filter_cons_True by (unfold is_valid; congruence).
      by rewrite <- app_assoc.
Qed.

Lemma choice_data_valid problemid i c d :
  choice_data problemid i c = OK d -> valid d = declares_valid c /\ index d = i.
Proof.
  unfold choice_data. destruct (py_contains_str "text" c) as [[]|]; simpl; try done.
  destruct (py_item_str "text" c); simpl; try done.
  destruct c; try done. by intros [= <-].
Qed.

Lemma declared_data_length problemid choices : forall i datas,
  declared_data problemid i choices = OK datas -> length datas = length choices.
Proof.
  induction choices as [|c cs IH]; intros i datas; simpl.
  - by intros [= <-].
  - destruct (choice_data problemid i c) as [d|]; simpl; [|done].
    destruct (declared_data problemid (i + 1) cs) as [ds|] eqn:E; simpl; [|done].
    intros [= <-]. simpl. by rewrite (IH _ _ E).
Qed.

Lemma declared_data_lookup problemid choices : forall i datas (n : nat) d,
  declared_data problemid i choices = OK datas ->
  datas !! n = Some d ->
  exists c, choices !! n = Some c /\ choice_data problemid (i + Z.of_nat n) c = OK d.
Proof.
  induction choices as [|c cs IH]; intros i datas n d; simpl.
  - by intros [= <-].
  - destruct (choice_data problemid i c) as [d0|] eqn:E0; simpl; [|done].
    destruct (declared_data problemid (i + 1) cs) as [ds|] eqn:E; simpl; [|done].
    intros [= <-]. destruct n as [|n]; simpl.
    + intros [= <-]. exists c. by rewrite Z.add_0_r.
    + intros Hn. destruct (IH _ _ _ _ E Hn) as (c' & Hc' & Hd).
      exists c'. split; [done|].
      replace (i + Z.of_nat (S n)) with (i + 1 + Z.of_nat n) by lia.
      exact Hd.
Qed.

Lemma declared_data_n_valid problemid choices : forall i datas,
  declared_data problemid i choices = OK datas ->
  length (filter is_valid datas)
  = length (filter (fun c => declares_valid c = true) choices).
Proof.
  induction choices as [|c cs IH]; intros i datas; simpl.
  - by intros [= <-].
  - destruct (choice_data problemid i c) as [d|] eqn:E0; simpl; [|done].
    destruct (declared_data problemid (i + 1) cs) as [ds|] eqn:E; simpl; [|done].
    intros [= <-]. apply choice_data_valid in E0 as [Hv _].
    destruct (declares_valid c) eqn:Hc.
    + rewrite !filter_cons_True by (unfold is_valid; congruence).
      simpl. by rewrite (IH _ _ E).
    + rewrite !filter_cons_False by (unfold is_valid; congruence).
      by rewrite (IH _ _ E).
Qed.

(** The problem built from a descriptor whose choices yield [datas] and
    whose stored limit is [limit]. *)
Definition mcq_of (task : Task) (problemid : string) (content : list (string * pyval))
    (translations : option (gmap string (gmap string string)))
    (datas : list Choice) (limit : pyval) : MultipleChoiceProblem :=
  {| mcq_base :=
       {| _translations := translations;
          _id := problemid;
          _task := task;
          _name := if dict_has "name" content then dict_get "name" content PNone
                   else PStr "";
          _header := if dict_has "header" content then dict_get "header" content PNone
                     else PStr "";
          _original_content := content |};
     _multiple := dict_get "multiple" content (PBool false);
     _limit := limit;
     _centralize := dict_get "centralize" content (PBool false);
     _error_message := dict_get "error_message" content PNone;
     _success_message := dict_get "success_message" content PNone;
     _choices := filter is_valid datas ++ filter (fun c => ~ is_valid c) datas |}.

(** What the constructor requires of the limit, and the limit it stores. *)
Definition limit_stored (content : list (string * pyval)) (n_good : Z) (limit : pyval)
    : Prop :=
  match dict_lookup "limit" content with
  | None => limit = PInt 0
  | Some v =>
      limit_ok (dict_get "multiple" content (PBool false)) v n_good = true /\ limit = v
  end.

Lemma MultipleChoiceProblem_init_OK task problemid content translations p :
  MultipleChoiceProblem_init task problemid content translations = OK p <->
  id_checker problemid = true /\
  exists choices datas limit,
    dict_lookup "choices" content = Some (PList choices)
    /\ declared_data problemid 0 choices = OK datas
    /\ filter is_valid datas <> []
    /\ limit_stored content (Z.of_nat (length (filter is_valid datas))) limit
    /\ p = mcq_of task problemid content translations datas limit.
Proof.
  assert (Hlen : forall l : list Choice, (Z.of_nat (length l) =? 0) = false <-> l <> []).
  { intros [|x l]; simpl; (split; [done|]); [intros H; by destruct H|done]. }
  unfold MultipleChoiceProblem_init, BasicProblem_init, limit_stored, dict_has, dict_get.
  split.
  - destruct (id_checker problemid); simpl; [|done].
    destruct (dict_lookup "choices" content) as [[| | | | |choices|]|] eqn:Hc;
      simpl; try done.
    rewrite choices_loop_spec.
    destruct (declared_data problemid 0 choices) as [datas|e] eqn:Hd; simpl; [|done].
    destruct (Z.of_nat (length (filter is_valid datas)) =? 0) eqn:Hg; [done|].
    apply Hlen in Hg.
    destruct (dict_lookup "limit" content) as [lim|] eqn:Hl; simpl.
    + destruct (limit_ok _ lim _) eqn:Hok; simpl; [|done].
      intros [= <-]. split; [done|]. exists choices, datas, lim.
      repeat split; try done; unfold mcq_of, dict_has, dict_get; by rewrite ?Hc.
    + intros [= <-]. split; [done|]. exists choices, datas, (PInt 0).
      repeat split; try done; unfold mcq_of, dict_has, dict_get; by rewrite ?Hc.
  - intros (-> & choices & datas & limit & Hc & Hd & Hg & Hl & ->). simpl.
    rewrite Hc. simpl. rewrite choices_loop_spec, Hd. simpl.
    apply Hlen in Hg. rewrite Hg.
    unfold mcq_of, dict_has, dict_get. rewrite ?Hc.
    destruct (dict_lookup "limit" content) as [lim|]; simpl.
    + destruct Hl as [-> ->]. done.
    + by rewrite Hl.
Qed.

Definition index_lt (a b : Choice) : Prop := index a < index b.

Lemma declared_data_index problemid choices i datas (n : nat) d :
  declared_data problemid i choices = OK datas ->
  datas !! n = Some d -> index d = i + Z.of_nat n.
Proof.
  intros Hd Hn. destruct (declared_data_lookup _ _ _ _ _ _ Hd Hn) as (c & _ & Hc).
  by apply choice_data_valid in Hc as [_ ?].
Qed.

Lemma index_lt_sorted (l : list Choice) : forall i,
  (forall (n : nat) d, l !! n = Some d -> index d = i + Z.of_nat n) ->
  StronglySorted index_lt l.
Proof.
  induction l as [|a l IH]; intros i Hl; constructor.
  - apply (IH (i + 1)). intros n d Hn.
    rewrite (Hl (S n) d Hn). lia.
  - apply Forall_forall. intros b Hb.
    apply list_elem_of_lookup in Hb as [n Hn].
    unfold index_lt. rewrite (Hl 0%nat a eq_refl), (Hl (S n) b Hn). lia.
Qed.

Lemma StronglySorted_filter_index (P : Choice -> Prop) `{!forall c, Decision (P c)}
    (l : list Choice) :
  StronglySorted index_lt l -> StronglySorted index_lt (filter P l).
Proof.
  induction 1 as [|a l Hs IH Ha]; [constructor|].
  rewrite filter_cons. destruct (decide (P a)); [|done].
  constructor; [done|].
  apply Forall_forall. intros b Hb%list_elem_of_filter.
  rewrite Forall_forall in Ha. apply Ha. by destruct Hb.
Qed.

Lemma StronglySorted_lookup_lt (l : list Choice) : forall (i j : nat) a b,
  StronglySorted index_lt l ->
  l !! i = Some a -> l !! j = Some b -> (i < j)%nat -> index_lt a b.
Proof.
  induction l as [|x l IH]; intros i j a b Hs Hi Hj Hij; [done|].
  apply StronglySorted_inv in Hs as [Hs Hx].
  destruct j as [|j]; [lia|]. simpl in Hj.
  destruct i as [|i]; simpl in Hi.
  - injection Hi as <-. rewrite Forall_forall in Hx. apply Hx.
    by eapply list_elem_of_lookup_2.
  - apply (IH i j); [done..|lia].
Qed.

Lemma find_choice_Some i choices c :
  find_choice i choices = Some c -> c ∈ choices /\ index c = i.
Proof.
  induction choices as [|x l IH]; simpl; [done|].
  destruct (Z.eqb_spec (index x) i).
  - intros [= <-]. split; [left|done].
  - intros H. destruct (IH H). split; [by right|done].
Qed.

Lemma find_choice_elem i choices c :
  c ∈ choices -> index c = i -> is_Some (find_choice i choices).
Proof.
  intros Hc Hi. induction choices as [|x l IH]; [by apply elem_of_nil in Hc|].
  simpl. destruct (Z.eqb_spec (index x) i); [by eexists|].
  apply elem_of_cons in Hc as [->|Hc]; [done|auto].
Qed.

(** C5. A descriptor none of whose declared choices carries a true
    validity flag (an empty or absent list of choices included) cannot
    be constructed, and a constructed problem always stores at least one
    valid choice. *)
Theorem MultipleChoiceProblem_init_needs_valid_choice
    (task : Task) (problemid : string) (content : list (string * pyval))
    (translations : option (gmap string (gmap string string))) :
  (n_valid_choices content = 0 ->
   exists e, MultipleChoiceProblem_init task problemid content translations = Raise e)
  /\ (forall p,
        MultipleChoiceProblem_init task problemid content translations = OK p ->
        0 < n_valid_choices content
        /\ exists c, c ∈ _choices p /\ valid c = true).
Proof.
  assert (Hpos : forall p,
    MultipleChoiceProblem_init task problemid content translations = OK p ->
    0 < n_valid_choices content /\ exists c, c ∈ _choices p /\ valid c = true).
  { intros p Hp. apply MultipleChoiceProblem_init_OK in Hp
      as (_ & choices & datas & limit & Hc & Hd & Hg & _ & ->).
    unfold n_valid_choices, declared_choices. rewrite Hc.
    rewrite <- (declared_data_n_valid _ _ _ _ Hd). simpl.
    destruct (filter is_valid datas) as [|g good] eqn:E; [done|]. split.
    - simpl. lia.
    - exists g. split; [by left|].
      assert (Hin : g ∈ filter is_valid datas) by (rewrite E; left).
      by apply list_elem_of_filter in Hin as [? _]. }
  split; [|exact Hpos].
  intros Hn. destruct (MultipleChoiceProblem_init _ _ _ _) as [p|e] eqn:Hp; [|by exists e].
  destruct (Hpos p eq_refl) as [? _]. lia.
Qed.

(** C6. The choice list of a constructed problem is the list of the
    declared choices, each numbered by its position in the declaration,
    reordered so that the valid ones come first: it is a permutation of
    them, every valid choice precedes every invalid one, and inside each
    group the declaration order is kept. [get_choice_with_index] returns
    a stored choice; the operations on a problem only read the list. *)
Theorem MultipleChoiceProblem_choices_partition
    (task : Task) (problemid : string) (content : list (string * pyval))
    (translations : option (gmap string (gmap string string)))
    (p : MultipleChoiceProblem) :
  MultipleChoiceProblem_init task problemid content translations = OK p ->
  exists datas,
    declared_data problemid 0 (declared_choices content) = OK datas
    /\ length datas = length (declared_choices content)
    /\ (forall (n : nat) d, datas !! n = Some d ->
          index d = Z.of_nat n
          /\ exists c, declared_choices content !! n = Some c
                       /\ choice_data problemid (Z.of_nat n) c = OK d)
    /\ _choices p = filter is_valid datas ++ filter (fun c => ~ is_valid c) datas
    /\ _choices p ≡ₚ datas
    /\ (forall (i j : nat) ci cj,
          _choices p !! i = Some ci -> _choices p !! j = Some cj ->
          valid ci = true -> valid cj = false -> (i < j)%nat)
    /\ (forall (i j : nat) ci cj,
          _choices p !! i = Some ci -> _choices p !! j = Some cj ->
          valid ci = valid cj -> (i < j)%nat -> index ci < index cj)
    /\ (forall i c, get_choice_with_index p i = Some c -> c ∈ _choices p /\ index c = i).
Proof.
  intros Hp. apply MultipleChoiceProblem_init_OK in Hp
    as (_ & choices & datas & limit & Hc & Hd & Hg & _ & ->).
  unfold declared_choices. rewrite Hc. exists datas.
  assert (Hsorted : StronglySorted index_lt datas).
  { apply (index_lt_sorted datas 0). intros n d Hn.
    by rewrite (declared_data_index _ _ _ _ _ _ Hd Hn). }
  assert (HA : forall (i : nat) c,
    filter is_valid datas !! i = Some c -> valid c = true).
  { intros i c Hi. apply list_elem_of_lookup_2, list_elem_of_filter in Hi.
    by destruct Hi. }
  assert (HB : forall (i : nat) c,
    filter (fun c => ~ is_valid c) datas !! i = Some c -> valid c = false).
  { intros i c Hi. apply list_elem_of_lookup_2, list_elem_of_filter in Hi as [Hi _].
    unfold is_valid in Hi. by destruct (valid c). }
  split; [done|]. split; [by eapply declared_data_length|]. split.
  { intros n d Hn. split.
    - by rewrite (declared_data_index _ _ _ _ _ _ Hd Hn).
    - destruct (declared_data_lookup _ _ _ _ _ _ Hd Hn) as (c & ? & ?). by exists c. }
  split; [done|]. split; [apply filter_app_complement|]. simpl. split; [|split].
  - intros i j ci cj Hi Hj Hvi Hvj.
    apply lookup_app_Some in Hi as [Hi|[_ Hi]];
      [|apply HB in Hi; congruence].
    apply lookup_app_Some in Hj as [Hj|[Hj _]];
      [apply HA in Hj; congruence|].
    apply lookup_lt_Some in Hi. lia.
  - intros i j ci cj Hi Hj Hv Hij.
    apply lookup_app_Some in Hi as [Hi|[Hli Hi]];
      apply lookup_app_Some in Hj as [Hj|[Hlj Hj]].
    + apply (StronglySorted_lookup_lt (filter is_valid datas) i j ci cj);
        [by apply StronglySorted_filter_index|done..].
    + apply HA in Hi. apply HB in Hj. congruence.
    + apply HB in Hi. apply HA in Hj. congruence.
    + apply (StronglySorted_lookup_lt (filter (fun c => ~ is_valid c) datas)
               (i - length (filter is_valid datas))
               (j - length (filter is_valid datas)) ci cj);
        [by apply StronglySorted_filter_index|done..|lia].
  - intros i c. apply find_choice_Some.
Qed.

Lemma is_OK_true {A} (r : result A) : is_OK r = true <-> exists a, r = OK a.
Proof. destruct r; simpl; split; eauto; try done. by intros [? ?]. Qed.

Lemma limit_ok_spec multiple limit n :
  limit_ok multiple limit n = true <->
  py_isinstance_int limit = true /\ 0 <= int_value limit
  /\ (py_truthy multiple = true -> int_value limit = 0 \/ n <= int_value limit).
Proof.
  unfold limit_ok. rewrite !andb_true_iff, !orb_true_iff, negb_true_iff.
  rewrite Z.leb_le, Z.leb_le, Z.eqb_eq.
  destruct (py_truthy multiple); split.
  - intros [[Hi H0] [[?|?]|?]]; repeat split; auto; done.
  - intros (Hi & H0 & [?|?]); auto.
  - intros [[Hi H0] _]. repeat split; auto. done.
  - intros (Hi & H0 & _). auto.
Qed.

Lemma n_valid_choices_data problemid content choices datas :
  dict_lookup "choices" content = Some (PList choices) ->
  declared_data problemid 0 choices = OK datas ->
  Z.of_nat (length (filter is_valid datas)) = n_valid_choices content.
Proof.
  intros Hc Hd. unfold n_valid_choices, declared_choices. rewrite Hc.
  by rewrite (declared_data_n_valid _ _ _ _ Hd).
Qed.

(** C4. For a descriptor that declares a limit and is constructible once
    the limit is left out, construction succeeds exactly when the limit is
    an [int] instance (a [bool] is one) that is zero or positive and, when
    the problem is multi-select, zero or at least the number of valid
    choices. A multi-select limit strictly between 0 and the number of
    valid choices fails; a positive integer limit on a single-select
    problem succeeds. The accepted limit is the one stored. *)
Theorem MultipleChoiceProblem_init_limit
    (task : Task) (problemid : string) (content : list (string * pyval))
    (translations : option (gmap string (gmap string string))) (limit : pyval) :
  dict_lookup "limit" content = Some limit ->
  (is_OK (MultipleChoiceProblem_init task problemid content translations) = true
   <-> is_OK (MultipleChoiceProblem_init task problemid
                (dict_remove "limit" content) translations) = true
       /\ py_isinstance_int limit = true
       /\ 0 <= int_value limit
       /\ (py_truthy (dict_get "multiple" content (PBool false)) = true ->
           int_value limit = 0 \/ n_valid_choices content <= int_value limit))
  /\ (py_truthy (dict_get "multiple" content (PBool false)) = true ->
      0 < int_value limit < n_valid_choices content ->
      is_OK (MultipleChoiceProblem_init task problemid content translations) = false)
  /\ (py_truthy (dict_get "multiple" content (PBool false)) = false ->
      py_isinstance_int limit = true -> 0 < int_value limit ->
      is_OK (MultipleChoiceProblem_init task problemid
               (dict_remove "limit" content) translations) = true ->
      is_OK (MultipleChoiceProblem_init task problemid content translations) = true)
  /\ (forall p,
        MultipleChoiceProblem_init task problemid content translations = OK p ->
        _limit p = limit).
Proof.
  intros Hl.
  assert (Hiff :
    is_OK (MultipleChoiceProblem_init task problemid content translations) = true
    <-> is_OK (MultipleChoiceProblem_init task problemid
                 (dict_remove "limit" content) translations) = true
        /\ py_isinstance_int limit = true
        /\ 0 <= int_value limit
        /\ (py_truthy (dict_get "multiple" content (PBool false)) = true ->
            int_value limit = 0 \/ n_valid_choices content <= int_value limit)).
  { rewrite !is_OK_true. split.
    - intros [p Hp]. apply MultipleChoiceProblem_init_OK in Hp
        as (Hid & choices & datas & lim & Hc & Hd & Hg & Hlim & ->).
      unfold limit_stored in Hlim. rewrite Hl in Hlim. destruct Hlim as [Hok ->].
      rewrite (n_valid_choices_data _ _ _ _ Hc Hd) in Hok.
      apply limit_ok_spec in Hok. split; [|done].
      eexists. apply MultipleChoiceProblem_init_OK. split; [done|].
      exists choices, datas, (PInt 0). repeat split; try done.
      + by rewrite dict_lookup_remove_ne.
      + unfold limit_stored. by rewrite dict_lookup_remove_eq.
    - intros [[p Hp] Hok]. apply MultipleChoiceProblem_init_OK in Hp
        as (Hid & choices & datas & lim & Hc & Hd & Hg & _ & _).
      rewrite dict_lookup_remove_ne in Hc by done.
      eexists. apply MultipleChoiceProblem_init_OK. split; [done|].
      exists choices, datas, limit. repeat split; try done.
      unfold limit_stored. rewrite Hl. split; [|done].
      rewrite (n_valid_choices_data _ _ _ _ Hc Hd). by apply limit_ok_spec. }
  split; [exact Hiff|]. split; [|split].
  - intros Hm Hlt. apply not_true_is_false. intros H%Hiff.
    destruct H as (_ & _ & _ & H). destruct (H Hm); lia.
  - intros Hm Hint Hpos Hrest. apply Hiff. repeat split; try done; [lia|congruence].
  - intros p Hp. apply MultipleChoiceProblem_init_OK in Hp
      as (_ & choices & datas & lim & _ & _ & _ & Hlim & ->).
    unfold limit_stored in Hlim. rewrite Hl in Hlim. by destruct Hlim as [_ ->].
Qed.

(** ** Code problems: boxes *)

Lemma is_prefix_refl s : is_prefix s s = true.
Proof. induction s as [|c s IH]; simpl; [done|]. by rewrite Ascii.eqb_refl. Qed.

Lemma str_contains_prefix sub s : is_prefix sub s = true -> str_contains sub s = true.
Proof. intros H. destruct s; simpl; by rewrite H. Qed.

Lemma str_contains_app_r sub x y :
  str_contains sub y = true -> str_contains sub (x +:+ y) = true.
Proof.
  intros H. induction x as [|c x IH]; [done|].
  rewrite append_cons. simpl. rewrite IH. apply orb_true_r.
Qed.

Lemma str_contains_suffix sub x : str_contains sub (x +:+ sub) = true.
Proof. apply str_contains_app_r, str_contains_prefix, is_prefix_refl. Qed.

Lemma _create_box_invalid_id self boxid box_content :
  id_checker boxid = false -> boxid <> "" ->
  _create_box self boxid box_content = Raise (Exception ("Invalid box _id " +:+ boxid)).
Proof.
  intros Hid Hne. unfold _create_box. rewrite Hid.
  by rewrite (proj2 (String.eqb_neq boxid "") Hne).
Qed.

Lemma _create_box_unknown_type self boxid d t :
  dict_lookup "type" d = Some (PStr t) -> _box_types t = None ->
  _create_box self boxid (PDict d)
  = if negb (id_checker boxid) && negb (String.eqb boxid "")
    then Raise (Exception ("Invalid box _id " +:+ boxid))
    else Raise (Exception ("Unknown box type " +:+ t +:+ "for box _id " +:+ boxid)).
Proof.
  intros Ht Hty. unfold _create_box.
  destruct (negb (id_checker boxid) && negb (String.eqb boxid "")); [done|].
  simpl. unfold dict_has, dict_item. rewrite Ht. simpl. by rewrite Hty.
Qed.

(** A box descriptor on which [_create_box] raises for the box id. *)
Definition bad_box (boxid : string) (box_content : pyval) : Prop :=
  (id_checker boxid = false /\ boxid <> "")
  \/ exists d t, box_content = PDict d /\ dict_lookup "type" d = Some (PStr t)
                 /\ _box_types t = None.

Lemma _create_box_bad self boxid box_content :
  bad_box boxid box_content ->
  exists msg, _create_box self boxid box_content = Raise (Exception msg)
              /\ str_contains boxid msg = true.
Proof.
  intros [[Hid Hne]|(d & t & -> & Ht & Hty)].
  - rewrite _create_box_invalid_id by done. eexists. split; [done|].
    apply str_contains_suffix.
  - rewrite (_create_box_unknown_type _ _ _ _ Ht Hty).
    destruct (negb (id_checker boxid) && negb (String.eqb boxid ""));
      (eexists; split; [done|]); repeat apply str_contains_app_r;
      apply str_contains_prefix, is_prefix_refl.
Qed.

Lemma CodeProblem_boxes_loop_raises items : forall self,
  (exists boxid box_content,
      (boxid, box_content) ∈ items /\ (boxid = "" \/ bad_box boxid box_content)) ->
  exists e, CodeProblem_boxes_loop self items = Raise e.
Proof.
  induction items as [|[k v] items IH]; intros self (boxid & bc & Hin & Hbad).
  - by apply elem_of_nil in Hin.
  - simpl. destruct (String.eqb_spec k "") as [->|Hk]; [by eexists|].
    destruct (_create_box self k v) as [box|e] eqn:Hbox; simpl; [|by eexists].
    apply IH. exists boxid, bc. split; [|done].
    apply elem_of_cons in Hin as [[= -> ->]|Hin]; [|done].
    destruct Hbad as [->|Hbad]; [done|].
    destruct (_create_box_bad self _ _ Hbad) as (msg & Hmsg & _). congruence.
Qed.

Lemma CodeProblem_init_raises task problemid content translations boxes :
  dict_lookup "boxes" content = Some (PDict boxes) ->
  (exists boxid box_content,
      (boxid, box_content) ∈ boxes /\ (boxid = "" \/ bad_box boxid box_content)) ->
  exists e, CodeProblem_init task problemid content translations = Raise e.
Proof.
  intros Hb Hbad. unfold CodeProblem_init.
  destruct (BasicCodeProblem_init task problemid content translations) as [self|e];
    simpl; [|by eexists].
  unfold dict_has, dict_item. rewrite Hb. simpl.
  by apply CodeProblem_boxes_loop_raises.
Qed.

(** C7. A [CodeProblem] descriptor whose [boxes] mapping has the empty
    string as a box id cannot be constructed. [_create_box] raises an
    exception whose message names the box id when the id is neither a
    restricted identifier nor empty, and when the descriptor's type is a
    string that names no box class; a [CodeProblem] enumerating such a box
    cannot be constructed either. *)
Theorem CodeProblem_box_errors :
  (forall task problemid content translations boxes,
      dict_lookup "boxes" content = Some (PDict boxes) ->
      "" ∈ map fst boxes ->
      exists e, CodeProblem_init task problemid content translations = Raise e)
  /\ (forall self boxid box_content,
        id_checker boxid = false -> boxid <> "" ->
        _create_box self boxid box_content
        = Raise (Exception ("Invalid box _id " +:+ boxid)))
  /\ (forall self boxid d t,
        id_checker boxid = true \/ boxid = "" ->
        dict_lookup "type" d = Some (PStr t) -> _box_types t = None ->
        _create_box self boxid (PDict d)
        = Raise (Exception ("Unknown box type " +:+ t +:+ "for box _id " +:+ boxid)))
  /\ (forall self boxid box_content,
        bad_box boxid box_content ->
        exists msg, _create_box self boxid box_content = Raise (Exception msg)
                    /\ str_contains boxid msg = true)
  /\ (forall task problemid content translations boxes boxid box_content,
        dict_lookup "boxes" content = Some (PDict boxes) ->
        (boxid, box_content) ∈ boxes ->
        bad_box boxid box_content ->
        exists e, CodeProblem_init task problemid content translations = Raise e).
Proof.
  split; [|split; [|split; [|split]]].
  - intros task problemid content translations boxes Hb Hin.
    apply (CodeProblem_init_raises _ _ _ _ boxes Hb).
    apply list_elem_of_fmap in Hin as ([k v] & Hk & Hin). simpl in Hk. subst k.
    exists "", v. auto.
  - apply _create_box_invalid_id.
  - intros self boxid d t Hid Ht Hty.
    rewrite (_create_box_unknown_type _ _ _ _ Ht Hty).
    destruct Hid as [->| ->]; [done|]. simpl. by rewrite andb_false_r.
  - apply _create_box_bad.
  - intros task problemid content translations boxes boxid bc Hb Hin Hbad.
    apply (CodeProblem_init_raises _ _ _ _ boxes Hb). exists boxid, bc. auto.
Qed.

(** ** Round trip of the descriptor *)

Lemma BasicProblem_init_content task problemid content translations b :
  BasicProblem_init task problemid content translations = OK b ->
  get_original_content b = content.
Proof.
  unfold BasicProblem_init. destruct (id_checker problemid); simpl; [|done].
  by intros [= <-].
Qed.

Lemma BasicCodeProblem_init_content task problemid content translations self :
  BasicCodeProblem_init task problemid content translations = OK self ->
  get_original_content (code_base self) = content.
Proof.
  unfold BasicCodeProblem_init.
  destruct (BasicProblem_init task problemid content translations) as [b|] eqn:Hb;
    simpl; [|done].
  destruct (get_environment task); [|done]. intros [= <-]. simpl.
  by eapply BasicProblem_init_content.
Qed.

Lemma CodeProblem_boxes_loop_base items : forall self p,
  CodeProblem_boxes_loop self items = OK p -> code_base p = code_base self.
Proof.
  induction items as [|[k v] items IH]; intros self p; simpl.
  - by intros [= <-].
  - destruct (String.eqb k ""); [done|].
    destruct (_create_box self k v) as [box|]; simpl; [|done].
    intros Hp. by rewrite (IH _ _ Hp).
Qed.

(** C8. Whatever the variant, a problem constructed from a descriptor
    returns, through [get_original_content], a mapping with the items of
    that descriptor. *)
Theorem get_original_content_round_trip
    (task : Task) (problemid : string) (content : list (string * pyval))
    (translations : option (gmap string (gmap string string))) :
  (forall p, MatchProblem_init task problemid content translations = OK p ->
             get_original_content (match_base p) = content)
  /\ (forall p, MultipleChoiceProblem_init task problemid content translations = OK p ->
                get_original_content (mcq_base p) = content)
  /\ (forall p, CodeSingleLineProblem_init task problemid content translations = OK p ->
                get_original_content (code_base p) = content)
  /\ (forall p, CodeFileProblem_init task problemid content translations = OK p ->
                get_original_content (code_base p) = content)
  /\ (forall p, CodeProblem_init task problemid content translations = OK p ->
                get_original_content (code_base p) = content).
Proof.
  split; [|split; [|split; [|split]]]; intros p.
  - unfold MatchProblem_init.
    destruct (BasicProblem_init task problemid content translations) as [b|] eqn:Hb;
      simpl; [|done].
    destruct (dict_has "answer" content); simpl; [|done].
    destruct (dict_item "answer" content) as [a|]; simpl; [|done].
    destruct (py_str a); simpl; [|done].
    intros [= <-]. simpl. by eapply BasicProblem_init_content.
  - intros Hp. by apply MultipleChoiceProblem_init_OK in Hp
      as (_ & choices & datas & limit & _ & _ & _ & _ & ->).
  - unfold CodeSingleLineProblem_init.
    destruct (BasicCodeProblem_init task problemid content translations)
      as [self|] eqn:Hs; simpl; [|done].
    destruct (_create_box self "" _); simpl; [|done].
    intros [= <-]. simpl. by eapply BasicCodeProblem_init_content.
  - unfold CodeFileProblem_init.
    destruct (BasicCodeProblem_init task problemid content translations)
      as [self|] eqn:Hs; simpl; [|done].
    destruct (_create_box self "" _); simpl; [|done].
    intros [= <-]. simpl. by eapply BasicCodeProblem_init_content.
  - unfold CodeProblem_init.
    destruct (BasicCodeProblem_init task problemid content translations)
      as [self|] eqn:Hs; simpl; [|done].
    apply BasicCodeProblem_init_content in Hs.
    destruct (dict_has "boxes" content).
    + destruct (dict_item "boxes" content) as [boxes|]; simpl; [|done].
      destruct (py_items boxes) as [items|]; simpl; [|done].
      intros Hp%CodeProblem_boxes_loop_base. by rewrite Hp.
    + destruct (dict_has "language" content).
      * destruct (dict_item "language" content); simpl; [|done].
        destruct (_create_box self "" _); simpl; [|done]. by intros [= <-].
      * destruct (_create_box self "" _); simpl; [|done]. by intros [= <-].
Qed.

(** ** MultipleChoiceProblem: grading *)

(** The submitted entry is the index of a stored choice, as an integer or
    as the string [str] gives for it. *)
Definition is_choice_index (p : MultipleChoiceProblem) (entry : pyval) : Prop :=
  exists c, c ∈ _choices p
            /\ (entry = PInt (index c) \/ entry = PStr (str_of_int (index c))).




(** The texts the grading may hand to [gettext]. *)
Definition texts (p : MultipleChoiceProblem) : list pyval :=
  _error_message p :: _success_message p :: map feedback (_choices p).

Definition gettext_ok (p : MultipleChoiceProblem) (language : string) : Prop :=
  forall m, m ∈ texts p -> m <> PNone ->
            exists m', gettext (mcq_base p) language m = OK m'.

(** The membership tests of the grading loop, as the code computes them. *)
Definition selectedb (i : Z) (entries : list pyval) : bool :=
  existsb (py_eq_int i) entries || existsb (py_eq_str (str_of_int i)) entries.

Fixpoint mismatches (entries : list pyval) (choices : list Choice) : Z :=
  match choices with
  | [] => 0
  | c :: cs =>
      (if Bool.eqb (valid c) (selectedb (index c) entries) then 0 else 1)
      + mismatches entries cs
  end.

Lemma mismatches_nonneg entries choices : 0 <= mismatches entries choices.
Proof. induction choices as [|c cs IH]; simpl; [done|]. destruct (Bool.eqb _ _); lia. Qed.








Lemma grade_choice_spec p task_input (l : list pyval) c st :
  task_input !! get_id (mcq_base p) = Some (PList l) ->
  grade_choice p task_input c st
  = OK (if Bool.eqb (valid c) (selectedb (index c) l) then st
        else (false, snd st + 1)).
Proof.
  intros Hl. unfold grade_choice, input_item, selectedb. rewrite Hl. simpl.
  destruct (valid c), (existsb (py_eq_int (index c)) l),
    (existsb (py_eq_str (str_of_int (index c))) l); done.
Qed.

Lemma grade_choices_spec p task_input (l : list pyval) choices : forall st,
  task_input !! get_id (mcq_base p) = Some (PList l) ->
  grade_choices p task_input choices st
  = OK (fst st && (mismatches l choices =? 0), snd st + mismatches l choices).
Proof.
  induction choices as [|c cs IH]; intros [b n] Hl; simpl.
  - by rewrite andb_true_r, Z.add_0_r.
  - rewrite (grade_choice_spec _ _ l) by done. simpl.
    pose proof (mismatches_nonneg l cs) as Hn.
    destruct (Bool.eqb (valid c) (selectedb (index c) l)); rewrite IH by done; simpl.
    + done.
    + assert (H1 : (1 + mismatches l cs =? 0) = false) by (apply Z.eqb_neq; lia).
      rewrite H1, andb_false_r. do 2 f_equal. lia.
Qed.


Lemma is_choice_index_int p e :
  is_choice_index p e ->
  exists c, c ∈ _choices p /\ py_int e = OK (index c).
Proof.
  intros (c & Hc & [->| ->]); exists c; (split; [done|]); [done|].
  apply py_int_str_of_int.
Qed.

Lemma get_choice_with_index_elem p c :
  c ∈ _choices p ->
  exists c', get_choice_with_index p (index c) = Some c' /\ c' ∈ _choices p.
Proof.
  intros Hc. destruct (find_choice_elem (index c) _ c Hc eq_refl) as [c' Hc'].
  exists c'. split; [done|]. by apply find_choice_Some in Hc' as [? _].
Qed.

Lemma entries_known_choice_indices p (l : list pyval) :
  Forall (is_choice_index p) l -> entries_known p l = OK true.
Proof.
  induction 1 as [|e l He _ IH]; simpl; [done|].
  destruct (is_choice_index_int p e He) as (c & Hc & ->). simpl.
  by destruct (get_choice_with_index_elem p c Hc) as (c' & -> & _).
Qed.

Lemma collect_feedback_OK p language (l : list pyval) : forall msgs,
  Forall (is_choice_index p) l -> gettext_ok p language ->
  exists msgs', collect_feedback p language l msgs = OK msgs'.
Proof.
  induction l as [|e l IH]; intros msgs Hl Hg; simpl; [by eexists|].
  apply Forall_cons in Hl as [He Hl].
  destruct (is_choice_index_int p e He) as (c & Hc & ->). simpl.
  destruct (get_choice_with_index_elem p c Hc) as (c' & -> & Hc'). simpl.
  assert (Hfb : feedback c' <> PNone ->
                exists m', gettext (mcq_base p) language (feedback c') = OK m').
  { apply Hg. unfold texts. do 2 right. apply list_elem_of_fmap. by exists c'. }
  destruct (feedback c'); try apply IH; try done;
    (destruct Hfb as [m' ->]; [done|]; simpl; by apply IH).
Qed.

Lemma compose_answer_OK p language (is_valid : bool) invalid_count msgs :
  gettext_ok p language ->
  exists msgs',
    compose_answer p language is_valid invalid_count msgs
    = OK (Some is_valid, None, msgs', if is_valid then 0 else invalid_count).
Proof.
  intros Hg. unfold compose_answer.
  assert (He : _error_message p <> PNone ->
               exists m', gettext (mcq_base p) language (_error_message p) = OK m').
  { apply Hg. left. }
  assert (Hs : _success_message p <> PNone ->
               exists m', gettext (mcq_base p) language (_success_message p) = OK m').
  { apply Hg. right. left. }
  destruct is_valid; simpl.
  - destruct (_success_message p); try (by eexists);
      (destruct Hs as [m' ->]; [done|]; by eexists).
  - destruct (_error_message p);
      try (destruct He as [m' ->]; [done|]; by eexists).
    destruct (negb (py_truthy (_centralize p))); by eexists.
Qed.

Lemma compose_answer_shape p language (is_valid : bool) invalid_count msgs r :
  compose_answer p language is_valid invalid_count msgs = OK r ->
  exists msgs', r = (Some is_valid, None, msgs', if is_valid then 0 else invalid_count).
Proof.
  unfold compose_answer. destruct is_valid; simpl.
  - destruct (_success_message p);
      try (destruct (gettext _ _ _); simpl; [|done]);
      intros [= <-]; by eexists.
  - destruct (_error_message p);
      try (destruct (gettext _ _ _); simpl; [|done]);
      try destruct (negb (py_truthy (_centralize p)));
      intros [= <-]; by eexists.
Qed.

Lemma check_answer_choice_indices p task_input language (entries : list pyval) :
  py_truthy (_multiple p) = true ->
  task_input !! get_id (mcq_base p) = Some (PList entries) ->
  Forall (is_choice_index p) entries ->
  let n := mismatches entries (_choices p) in
  (forall r,
      MultipleChoiceProblem_check_answer p task_input language = OK r ->
      exists msgs, r = (Some (n =? 0), None, msgs, n))
  /\ (gettext_ok p language ->
      exists msgs,
        MultipleChoiceProblem_check_answer p task_input language
        = OK (Some (n =? 0), None, msgs, n)).
Proof.
  intros Hm Hin Hl n.
  assert (Hn : (if n =? 0 then 0 else n) = n)
    by (destruct (Z.eqb_spec n 0) as [->|]; done).
  unfold MultipleChoiceProblem_check_answer, check_multiple. rewrite Hm.
  rewrite (grade_choices_spec _ _ entries) by done. simpl.
  unfold input_item. rewrite Hin. simpl. rewrite Z.add_0_l. fold n. split.
  - intros r. destruct (collect_feedback p language entries []) as [msgs|]; simpl;
      [|done].
    intros (msgs' & ->)%compose_answer_shape. exists msgs'. by rewrite Hn.
  - intros Hg.
    destruct (collect_feedback_OK p language entries [] Hl Hg) as [msgs ->]. simpl.
    destruct (compose_answer_OK p language (n =? 0) n msgs Hg) as [msgs' ->].
    exists msgs'. by rewrite Hn.
Qed.


(** ** MultipleChoiceProblem: what consistency and grading read *)

(** Two problems with the same id, translations, mode, messages and
    choices; their limits and descriptors may differ. *)
Definition same_grading (p1 p2 : MultipleChoiceProblem) : Prop :=
  _id (mcq_base p1) = _id (mcq_base p2)
  /\ _translations (mcq_base p1) = _translations (mcq_base p2)
  /\ _multiple p1 = _multiple p2
  /\ _centralize p1 = _centralize p2
  /\ _error_message p1 = _error_message p2
  /\ _success_message p1 = _success_message p2
  /\ _choices p1 = _choices p2.

Section SameGrading.

Variables p1 p2 : MultipleChoiceProblem.
Hypothesis Hsame : same_grading p1 p2.

Lemma same_input_item task_input :
  input_item (mcq_base p1) task_input = input_item (mcq_base p2) task_input.
Proof using Hsame. destruct Hsame as (Hid & _). unfold input_item, get_id. by rewrite Hid. Qed.

Lemma same_gettext language m :
  gettext (mcq_base p1) language m = gettext (mcq_base p2) language m.
Proof using Hsame. destruct Hsame as (_ & Htr & _). unfold gettext. by rewrite Htr. Qed.

Lemma same_get_choice_with_index i :
  get_choice_with_index p1 i = get_choice_with_index p2 i.
Proof using Hsame.
  destruct Hsame as (_ & _ & _ & _ & _ & _ & Hch).
  unfold get_choice_with_index. by rewrite Hch.
Qed.

Lemma same_entries_known (l : list pyval) : entries_known p1 l = entries_known p2 l.
Proof using Hsame.
  induction l as [|e l IH]; simpl; [done|].
  destruct (py_int e); simpl; [|done].
  rewrite same_get_choice_with_index. by rewrite IH.
Qed.

Lemma same_grade_choice task_input c st :
  grade_choice p1 task_input c st = grade_choice p2 task_input c st.
Proof using Hsame. unfold grade_choice. by rewrite same_input_item. Qed.

Lemma same_grade_choices task_input choices : forall st,
  grade_choices p1 task_input choices st = grade_choices p2 task_input choices st.
Proof using Hsame.
  induction choices as [|c cs IH]; intros st; simpl; [done|].
  rewrite same_grade_choice.
  destruct (grade_choice p2 task_input c st); simpl; [apply IH|done].
Qed.

Lemma same_collect_feedback language (l : list pyval) : forall msgs,
  collect_feedback p1 language l msgs = collect_feedback p2 language l msgs.
Proof using Hsame.
  induction l as [|e l IH]; intros msgs; simpl; [done|].
  destruct (py_int e); simpl; [|done].
  rewrite same_get_choice_with_index.
  destruct (choice_item feedback _) as [fb|]; simpl; [|done].
  destruct fb; rewrite ?same_gettext; try apply IH;
    (destruct (gettext _ _ _); simpl; [apply IH|done]).
Qed.

Lemma same_input_is_consistent task_input :
  MultipleChoiceProblem_input_is_consistent p1 task_input
  = MultipleChoiceProblem_input_is_consistent p2 task_input.
Proof using Hsame.
  unfold MultipleChoiceProblem_input_is_consistent.
  rewrite same_input_item.
  destruct Hsame as (Hid & _ & Hm & _). unfold get_id. rewrite Hid, Hm.
  destruct (negb _); [done|].
  destruct (py_truthy (_multiple p2)).
  - destruct (input_item _ _) as [v|]; simpl; [|done].
    destruct (negb (py_is_list v)); [done|].
    destruct (py_iter v); simpl; [|done]. by rewrite same_entries_known.
  - destruct (input_item _ _) as [v|]; simpl; [|done].
    destruct (py_int v); simpl; [|done]. by rewrite same_get_choice_with_index.
Qed.

Lemma same_check_answer task_input language :
  MultipleChoiceProblem_check_answer p1 task_input language
  = MultipleChoiceProblem_check_answer p2 task_input language.
Proof using Hsame.
  unfold MultipleChoiceProblem_check_answer, check_multiple, check_single.
  rewrite same_grade_choices, same_input_item.
  assert (Hc : forall b n msgs,
    compose_answer p1 language b n msgs = compose_answer p2 language b n msgs).
  { intros b n msgs. unfold compose_answer.
    destruct Hsame as (_ & _ & Hm & Hce & He & Hs & _).
    rewrite Hm, Hce, He, Hs.
    destruct b; simpl.
    - destruct (_success_message p2); by rewrite ?same_gettext.
    - destruct (_error_message p2); by rewrite ?same_gettext. }
  destruct Hsame as (_ & _ & Hm & _ & _ & _ & Hch). rewrite Hm, Hch.
  destruct (py_truthy (_multiple p2)).
  - destruct (grade_choices _ _ _ _); simpl; [|done].
    destruct (input_item _ _) as [v|]; simpl; [|done].
    destruct (py_iter v); simpl; [|done].
    rewrite same_collect_feedback.
    destruct (collect_feedback _ _ _ _); simpl; [apply Hc|done].
  - destruct (input_item _ _) as [v|]; simpl; [|done].
    destruct (py_int v); simpl; [|done].
    rewrite same_get_choice_with_index.
    destruct (choice_item valid _); simpl; [|done].
    destruct (choice_item feedback _) as [fb|]; simpl; [|done].
    destruct fb; rewrite ?same_gettext; try apply Hc;
      (destruct (gettext _ _ _); simpl; [apply Hc|done]).
Qed.

End SameGrading.

Lemma dict_get_ext k (c1 c2 : list (string * pyval)) dflt :
  dict_lookup k c1 = dict_lookup k c2 -> dict_get k c1 dflt = dict_get k c2 dflt.
Proof. unfold dict_get. by intros ->. Qed.

Lemma input_is_consistent_choice_indices p task_input (entries : list pyval) :
  py_truthy (_multiple p) = true ->
  task_input !! get_id (mcq_base p) = Some (PList entries) ->
  Forall (is_choice_index p) entries ->
  MultipleChoiceProblem_input_is_consistent p task_input = OK true.
Proof.
  intros Hm Hin Hl. unfold MultipleChoiceProblem_input_is_consistent, input_item.
  rewrite Hin, Hm. rewrite bool_decide_eq_true_2 by (by eexists). simpl.
  by rewrite entries_known_choice_indices.
Qed.

(** C9. Two problems constructed from descriptors that agree on every key
    but [limit] give the same result, or raise the same exception, in
    [input_is_consistent] and in [check_answer] on every submitted input:
    neither reads the limit. A multi-select list of choice indices is
    consistent and graded however many entries it has. *)
Theorem MultipleChoiceProblem_limit_irrelevant
    (task : Task) (problemid : string) (content1 content2 : list (string * pyval))
    (translations : option (gmap string (gmap string string)))
    (p1 p2 : MultipleChoiceProblem) :
  (forall k, k <> "limit" -> dict_lookup k content1 = dict_lookup k content2) ->
  MultipleChoiceProblem_init task problemid content1 translations = OK p1 ->
  MultipleChoiceProblem_init task problemid content2 translations = OK p2 ->
  (forall task_input,
      MultipleChoiceProblem_input_is_consistent p1 task_input
      = MultipleChoiceProblem_input_is_consistent p2 task_input)
  /\ (forall task_input language,
        MultipleChoiceProblem_check_answer p1 task_input language
        = MultipleChoiceProblem_check_answer p2 task_input language)
  /\ (forall task_input (entries : list pyval),
        py_truthy (_multiple p1) = true ->
        task_input !! problemid = Some (PList entries) ->
        Forall (is_choice_index p1) entries ->
        MultipleChoiceProblem_input_is_consistent p1 task_input = OK true
        /\ forall language, gettext_ok p1 language ->
             is_OK (MultipleChoiceProblem_check_answer p1 task_input language) = true).
Proof.
  intros Hext Hp1 Hp2.
  apply MultipleChoiceProblem_init_OK in Hp1
    as (_ & choices1 & datas1 & lim1 & Hc1 & Hd1 & _ & _ & ->).
  apply MultipleChoiceProblem_init_OK in Hp2
    as (_ & choices2 & datas2 & lim2 & Hc2 & Hd2 & _ & _ & ->).
  rewrite (Hext "choices") in Hc1 by done. rewrite Hc1 in Hc2.
  injection Hc2 as <-. rewrite Hd1 in Hd2. injection Hd2 as <-.
  assert (Hsame : same_grading
            (mcq_of task problemid content1 translations datas1 lim1)
            (mcq_of task problemid content2 translations datas1 lim2)).
  { unfold same_grading. simpl. repeat split; try done;
      apply dict_get_ext, Hext; done. }
  split; [|split].
  - intros task_input. by apply same_input_is_consistent.
  - intros task_input language. by apply same_check_answer.
  - intros task_input entries Hm Hin Hl. split.
    + by apply (input_is_consistent_choice_indices _ _ entries).
    + intros language Hg.
      destruct (check_answer_choice_indices _ task_input language entries Hm Hin Hl)
        as [_ Hret].
      by destruct (Hret Hg) as (msgs & ->).
Qed.

(** ** Consistency of a multiple-choice input of another type *)

(** C3. [MultipleChoiceProblem.input_is_consistent] guards the conversion
    of the submitted value with [except ValueError] only: when [int()]
    raises another exception on the value of a single-select problem, or
    on the first entry of the list of a multi-select one, the exception
    leaves [input_is_consistent]; [None], a list and a dict make [int()]
    raise [TypeError]. *)
Theorem MultipleChoiceProblem_input_is_consistent_raises
    (p : MultipleChoiceProblem) (task_input : gmap string pyval) :
  (forall v e,
      py_truthy (_multiple p) = false ->
      task_input !! get_id (mcq_base p) = Some v ->
      py_int v = Raise e -> e <> ValueError ->
      MultipleChoiceProblem_input_is_consistent p task_input = Raise e)
  /\ (forall v (entries : list pyval) e,
        py_truthy (_multiple p) = true ->
        task_input !! get_id (mcq_base p) = Some (PList (v :: entries)) ->
        py_int v = Raise e -> e <> ValueError ->
        MultipleChoiceProblem_input_is_consistent p task_input = Raise e)
  /\ (forall v,
        v = PNone \/ (exists l, v = PList l) \/ (exists d, v = PDict d) ->
        py_int v = Raise TypeError).
Proof.
  split; [|split].
  - intros v e Hm Hin Hv He. unfold MultipleChoiceProblem_input_is_consistent, input_item.
    rewrite Hin, Hm. rewrite bool_decide_eq_true_2 by (by eexists). simpl.
    rewrite Hv. simpl. by destruct e.
  - intros v entries e Hm Hin Hv He.
    unfold MultipleChoiceProblem_input_is_consistent, input_item.
    rewrite Hin, Hm. rewrite bool_decide_eq_true_2 by (by eexists). simpl.
    rewrite Hv. simpl. by destruct e.
  - intros v [->|[[l ->]|[d ->]]]; done.
Qed.

(** On a string, and for a multi-select problem on a list of strings, the
    check returns a boolean. *)
Lemma MultipleChoiceProblem_input_is_consistent_str
    (p : MultipleChoiceProblem) (task_input : gmap string pyval) v :
  task_input !! get_id (mcq_base p) = Some v ->
  (exists s, v = PStr s)
  \/ (py_truthy (_multiple p) = true
      /\ exists l, v = PList l /\ Forall (fun e => exists s, e = PStr s) l) ->
  exists b, MultipleChoiceProblem_input_is_consistent p task_input = OK b.
Proof.
  intros Hin Hv. unfold MultipleChoiceProblem_input_is_consistent, input_item.
  rewrite Hin. rewrite bool_decide_eq_true_2 by (by eexists). simpl. clear Hin.
  destruct Hv as [[s ->]|(-> & l & -> & Hl)]; simpl.
  - destruct (py_truthy (_multiple p)); simpl; [by eexists|].
    destruct (int_of_string s); simpl; [|by eexists].
    destruct (get_choice_with_index p z); by eexists.
  - induction Hl as [|e l [s ->] _ IH]; simpl; [by eexists|].
    destruct (int_of_string s); simpl; [|by eexists].
    destruct (get_choice_with_index p z); [exact IH|by eexists].
Qed.

End Problems.

(** ** Instances and examples *)

(** Collaborators for the examples: an identifier check accepting the
    non-empty strings of letters, digits, [_] and [-]; boxes that carry no
    data and are always constructible; a constant for [str()] of a float
    or a container. *)
Definition id_char (c : ascii) : bool :=
  let n := N_of_ascii c in
  ((48 <=? n) && (n <=? 57) || (65 <=? n) && (n <=? 90) || (97 <=? n) && (n <=? 122)
   || (n =? 95) || (n =? 45))%N.

Fixpoint all_id_chars (s : string) : bool :=
  match s with
  | "" => true
  | String c s' => id_char c && all_id_chars s'
  end.

Definition sample_id_checker (s : string) : bool :=
  negb (String.eqb s "") && all_id_chars s.

Definition sample_box_new (cls : box_class) (problemid : string) (task : Task)
    (boxid : string) (box_content : pyval) : result unit := OK tt.

Definition sample_repr (v : pyval) : result string := OK "<object>".

Definition sample_task : Task := {| get_environment := Some "default" |}.

Definition no_translations : option (gmap string (gmap string string)) := Some ∅.

Definition choice_descr (t : string) (v : bool) : pyval :=
  PDict [("text", PStr t); ("valid", PBool v)].

(** The multi-select problem of the specification: choices 0 and 1 valid,
    choice 2 invalid, limit 0. *)
Definition spec_content : list (string * pyval) :=
  [("choices", PList [choice_descr "a" true; choice_descr "b" true;
                      PDict [("text", PStr "c"); ("valid", PBool false);
                             ("feedback", PStr "c is wrong")]]);
   ("multiple", PBool true);
   ("limit", PInt 0)].

Definition spec_choices : list Choice :=
  [ {| index := 0; text := PStr "a"; feedback := PNone; valid := true |};
    {| index := 1; text := PStr "b"; feedback := PNone; valid := true |};
    {| index := 2; text := PStr "c"; feedback := PStr "c is wrong"; valid := false |} ].

Definition spec_problem : MultipleChoiceProblem :=
  mcq_of sample_task "q1" spec_content no_translations spec_choices (PInt 0).

Definition submit (v : pyval) : gmap string pyval := {["q1" := v]}.

Example spec_problem_init :
  MultipleChoiceProblem_init sample_id_checker sample_task "q1" spec_content
    no_translations = OK spec_problem.
Proof. vm_compute. reflexivity. Qed.

Example spec_problem_all_valid :
  MultipleChoiceProblem_check_answer spec_problem (submit (PList [PInt 0; PInt 1])) "en"
  = OK (Some true, None, None, 0).
Proof. vm_compute. reflexivity. Qed.

Example spec_problem_one_missing :
  MultipleChoiceProblem_check_answer spec_problem (submit (PList [PInt 0])) "en"
  = OK (Some false, None, Some [PStr "_wrong_answer_multiple"], 1).
Proof. vm_compute. reflexivity. Qed.

Example spec_problem_one_extra :
  MultipleChoiceProblem_check_answer spec_problem
    (submit (PList [PInt 0; PInt 1; PInt 2])) "en"
  = OK (Some false, None, Some [PStr "_wrong_answer_multiple"; PStr "c is wrong"], 1).
Proof. vm_compute. reflexivity. Qed.

Example spec_problem_strings :
  MultipleChoiceProblem_check_answer spec_problem
    (submit (PList [PStr "1"; PStr "0"])) "en"
  = OK (Some true, None, None, 0).
Proof. vm_compute. reflexivity. Qed.

(** Without a translations dict, the localisation of a feedback text
    raises. *)
Example no_translations_dict_raises :
  MultipleChoiceProblem_check_answer
    (mcq_of sample_task "q1" spec_content None spec_choices (PInt 0))
    (submit (PList [PInt 2])) "en"
  = Raise AttributeError.
Proof. vm_compute. reflexivity. Qed.

Lemma spec_problem_gettext_ok : gettext_ok spec_problem "en".
Proof. intros m _ _. exists m. by destruct m. Qed.

Lemma spec_problem_entries :
  Forall (is_choice_index spec_problem) [PInt 0; PStr "1"; PInt 2].
Proof.
  repeat apply Forall_cons_2; [| | |apply Forall_nil_2].
  - exists {| index := 0; text := PStr "a"; feedback := PNone; valid := true |}.
    split; [by left|by left].
  - exists {| index := 1; text := PStr "b"; feedback := PNone; valid := true |}.
    split; [right; by left|by right].
  - exists {| index := 2; text := PStr "c"; feedback := PStr "c is wrong";
              valid := false |}.
    split; [do 2 right; by left|by left].
Qed.





(** A match problem whose descriptor gives the integer 42 as answer. *)
Definition match_content : list (string * pyval) := [("answer", PInt 42)].

Definition match_problem : MatchProblem :=
  {| match_base :=
       {| _translations := no_translations; _id := "q1"; _task := sample_task;
          _name := PStr ""; _header := PStr ""; _original_content := match_content |};
     _answer := "42" |}.

Example match_problem_init :
  MatchProblem_init sample_id_checker sample_repr sample_task "q1" match_content
    no_translations = OK match_problem.
Proof. vm_compute. reflexivity. Qed.

Example match_problem_case_sensitive :
  MatchProblem_check_answer
    {| match_base := match_base match_problem; _answer := "Yes" |}
    (submit (PStr "yes")) "en"
  = OK (Some false, None, Some [PStr "_wrong_answer"], 0).
Proof. vm_compute. reflexivity. Qed.

Lemma MatchProblem_check_answer_exact_witness :
  (exists correct : bool,
      MatchProblem_check_answer match_problem (submit (PStr "  42 ")) "en"
      = OK (Some correct, None,
            Some [PStr (if correct then "_correct_answer" else "_wrong_answer")], 0)
      /\ (correct = true <-> strip "  42 " = _answer match_problem)
      /\ trimmed "  42 " (strip "  42 ")
      /\ (forall t, trimmed "  42 " t -> (correct = true <-> t = _answer match_problem)))
  /\ MatchProblem_check_answer match_problem (submit (PStr "  42 ")) "en"
     = OK (Some true, None, Some [PStr "_correct_answer"], 0).
Proof.
  split.
  - apply MatchProblem_check_answer_exact. reflexivity.
  - vm_compute. reflexivity.
Defined.

Lemma MatchProblem_input_is_consistent_key_only_witness :
  MatchProblem_input_is_consistent match_problem (submit (PInt 42)) = OK true
  /\ MatchProblem_check_answer match_problem (submit (PInt 42)) "en"
     = Raise AttributeError.
Proof.
  apply (proj2 (proj2 (MatchProblem_input_is_consistent_key_only match_problem
                         (submit (PInt 42)))) (PInt 42) "en").
  - reflexivity.
  - intros s. discriminate.
Defined.

(** A single-select problem with one valid and one invalid choice. *)
Definition single_content : list (string * pyval) :=
  [("choices", PList [choice_descr "a" true; choice_descr "b" false])].

Definition single_problem : MultipleChoiceProblem :=
  mcq_of sample_task "q1" single_content no_translations
    [ {| index := 0; text := PStr "a"; feedback := PNone; valid := true |};
      {| index := 1; text := PStr "b"; feedback := PNone; valid := false |} ]
    (PInt 0).

Example single_problem_init :
  MultipleChoiceProblem_init sample_id_checker sample_task "q1" single_content
    no_translations = OK single_problem.
Proof. vm_compute. reflexivity. Qed.

Example single_problem_text_is_inconsistent :
  MultipleChoiceProblem_input_is_consistent single_problem (submit (PStr "one"))
  = OK false.
Proof. vm_compute. reflexivity. Qed.

Lemma MultipleChoiceProblem_input_is_consistent_raises_witness :
  MultipleChoiceProblem_input_is_consistent single_problem (submit (PList [PStr "0"]))
  = Raise TypeError
  /\ MultipleChoiceProblem_input_is_consistent single_problem (submit PNone)
     = Raise TypeError
  /\ MultipleChoiceProblem_input_is_consistent spec_problem
       (submit (PList [PNone; PStr "0"]))
     = Raise TypeError.
Proof.
  split; [|split].
  - apply (proj1 (MultipleChoiceProblem_input_is_consistent_raises single_problem
                    (submit (PList [PStr "0"]))) (PList [PStr "0"]) TypeError);
      [reflexivity|reflexivity|reflexivity|discriminate].
  - apply (proj1 (MultipleChoiceProblem_input_is_consistent_raises single_problem
                    (submit PNone)) PNone TypeError);
      [reflexivity|reflexivity|reflexivity|discriminate].
  - apply (proj1 (proj2 (MultipleChoiceProblem_input_is_consistent_raises spec_problem
                           (submit (PList [PNone; PStr "0"]))))
             PNone [PStr "0"] TypeError);
      [reflexivity|reflexivity|reflexivity|discriminate].
Defined.

(** The descriptor of the specification with another limit, and its
    single-select variant. *)
Definition with_limit (limit : pyval) (multiple : bool) : list (string * pyval) :=
  [("choices", PList [choice_descr "a" true; choice_descr "b" true;
                      PDict [("text", PStr "c"); ("valid", PBool false);
                             ("feedback", PStr "c is wrong")]]);
   ("multiple", PBool multiple);
   ("limit", limit)].

Lemma MultipleChoiceProblem_init_limit_witness :
  is_OK (MultipleChoiceProblem_init sample_id_checker sample_task "q1"
           (with_limit (PInt 1) true) no_translations) = false
  /\ is_OK (MultipleChoiceProblem_init sample_id_checker sample_task "q1"
              (with_limit (PInt 1) false) no_translations) = true.
Proof.
  split.
  - apply (proj1 (proj2 (MultipleChoiceProblem_init_limit sample_id_checker sample_task
                           "q1" (with_limit (PInt 1) true) no_translations (PInt 1)
                           eq_refl))).
    + reflexivity.
    + vm_compute. split; reflexivity.
  - apply (proj1 (proj2 (proj2 (MultipleChoiceProblem_init_limit sample_id_checker
                                  sample_task "q1" (with_limit (PInt 1) false)
                                  no_translations (PInt 1) eq_refl)))).
    + reflexivity.
    + reflexivity.
    + reflexivity.
    + vm_compute. reflexivity.
Defined.

Example limit_True_is_accepted :
  is_OK (MultipleChoiceProblem_init sample_id_checker sample_task "q1"
           [("choices", PList [choice_descr "a" true]); ("multiple", PBool true);
            ("limit", PBool true)] no_translations) = true.
Proof. vm_compute. reflexivity. Qed.

Example limit_float_is_rejected :
  MultipleChoiceProblem_init sample_id_checker sample_task "q1"
    (with_limit (PFloat 2%float) true) no_translations
  = Raise (Exception "Invalid limit in problem q1").
Proof. vm_compute. reflexivity. Qed.

(** A descriptor whose choices are all invalid. *)
Definition no_valid_content : list (string * pyval) :=
  [("choices", PList [choice_descr "a" false; PDict [("text", PStr "b")]])].

Lemma MultipleChoiceProblem_init_needs_valid_choice_witness :
  n_valid_choices no_valid_content = 0
  /\ exists e,
       MultipleChoiceProblem_init sample_id_checker sample_task "q1" no_valid_content
         no_translations = Raise e.
Proof.
  split; [reflexivity|].
  apply (proj1 (MultipleChoiceProblem_init_needs_valid_choice sample_id_checker
                  sample_task "q1" no_valid_content no_translations)).
  reflexivity.
Defined.

(** A descriptor declaring an invalid choice before the valid ones. *)
Definition mixed_content : list (string * pyval) :=
  [("choices", PList [choice_descr "x" false; choice_descr "y" true;
                      choice_descr "z" false; choice_descr "w" true])].

Example mixed_content_choices :
  (fun r => match r with OK p => map index (_choices p) | Raise _ => [] end)
    (MultipleChoiceProblem_init sample_id_checker sample_task "q1" mixed_content
       no_translations)
  = [1; 3; 0; 2].
Proof. vm_compute. reflexivity. Qed.

Lemma MultipleChoiceProblem_choices_partition_witness :
  exists datas,
    declared_data "q1" 0 (declared_choices spec_content) = OK datas
    /\ length datas = length (declared_choices spec_content)
    /\ (forall (n : nat) d, datas !! n = Some d ->
          index d = Z.of_nat n
          /\ exists c, declared_choices spec_content !! n = Some c
                       /\ choice_data "q1" (Z.of_nat n) c = OK d)
    /\ _choices spec_problem
       = filter is_valid datas ++ filter (fun c => ~ is_valid c) datas
    /\ _choices spec_problem ≡ₚ datas
    /\ (forall (i j : nat) ci cj,
          _choices spec_problem !! i = Some ci -> _choices spec_problem !! j = Some cj ->
          valid ci = true -> valid cj = false -> (i < j)%nat)
    /\ (forall (i j : nat) ci cj,
          _choices spec_problem !! i = Some ci -> _choices spec_problem !! j = Some cj ->
          valid ci = valid cj -> (i < j)%nat -> index ci < index cj)
    /\ (forall i c, get_choice_with_index spec_problem i = Some c ->
                    c ∈ _choices spec_problem /\ index c = i).
Proof.
  apply (MultipleChoiceProblem_choices_partition sample_id_checker sample_task "q1"
           spec_content no_translations spec_problem).
  exact spec_problem_init.
Defined.

(** A code problem enumerating a box whose id is the empty string, and
    one enumerating a box of an unknown type. *)
Definition empty_box_content : list (string * pyval) :=
  [("boxes", PDict [("first", PDict [("type", PStr "text")]);
                    ("", PDict [("type", PStr "multiline")])])].

Definition unknown_box_content : list (string * pyval) :=
  [("boxes", PDict [("first", PDict [("type", PStr "slider")])])].

Example empty_box_content_error :
  CodeProblem_init sample_id_checker unit sample_box_new sample_task "q1"
    empty_box_content no_translations
  = Raise (Exception "Empty box ids are not allowed").
Proof. vm_compute. reflexivity. Qed.

Example unknown_box_content_error :
  CodeProblem_init sample_id_checker unit sample_box_new sample_task "q1"
    unknown_box_content no_translations
  = Raise (Exception "Unknown box type sliderfor box _id first").
Proof. vm_compute. reflexivity. Qed.

Example implicit_box_is_accepted :
  is_OK (CodeProblem_init sample_id_checker unit sample_box_new sample_task "q1"
           [("language", PStr "python")] no_translations) = true.
Proof. vm_compute. reflexivity. Qed.

Lemma CodeProblem_box_errors_witness :
  (exists e,
      CodeProblem_init sample_id_checker unit sample_box_new sample_task "q1"
        empty_box_content no_translations = Raise e)
  /\ (exists e,
        CodeProblem_init sample_id_checker unit sample_box_new sample_task "q1"
          unknown_box_content no_translations = Raise e).
Proof.
  pose proof (CodeProblem_box_errors sample_id_checker unit sample_box_new)
    as (Hempty & _ & _ & _ & Hbad).
  split.
  - apply (Hempty sample_task "q1" empty_box_content no_translations
             [("first", PDict [("type", PStr "text")]);
              ("", PDict [("type", PStr "multiline")])]).
    + reflexivity.
    + right. left.
  - apply (Hbad sample_task "q1" unknown_box_content no_translations
             [("first", PDict [("type", PStr "slider")])]
             "first" (PDict [("type", PStr "slider")])).
    + reflexivity.
    + left.
    + right. exists [("type", PStr "slider")], "slider". repeat split; reflexivity.
Defined.

Lemma get_original_content_round_trip_witness :
  get_original_content (match_base match_problem) = match_content
  /\ get_original_content (mcq_base spec_problem) = spec_content.
Proof.
  pose proof (get_original_content_round_trip sample_id_checker unit sample_box_new
                sample_repr sample_task "q1" match_content no_translations)
    as (Hmatch & _).
  pose proof (get_original_content_round_trip sample_id_checker unit sample_box_new
                sample_repr sample_task "q1" spec_content no_translations)
    as (_ & Hmcq & _).
  split.
  - apply Hmatch. exact match_problem_init.
  - apply Hmcq. exact spec_problem_init.
Defined.

(** The problem of the specification with limit 2 instead of 0. *)
Definition limit2_problem : MultipleChoiceProblem :=
  mcq_of sample_task "q1" (with_limit (PInt 2) true) no_translations spec_choices (PInt 2).

Example limit2_problem_init :
  MultipleChoiceProblem_init sample_id_checker sample_task "q1"
    (with_limit (PInt 2) true) no_translations = OK limit2_problem.
Proof. vm_compute. reflexivity. Qed.

Lemma limit_only_difference k :
  k <> "limit" ->
  dict_lookup k (with_limit (PInt 2) true) = dict_lookup k spec_content.
Proof.
  intros Hk. unfold with_limit, spec_content. simpl.
  destruct (String.eqb k "choices"); [done|].
  destruct (String.eqb k "multiple"); [done|].
  by rewrite (proj2 (String.eqb_neq k "limit") Hk).
Qed.

Lemma limit2_problem_entries :
  Forall (is_choice_index limit2_problem) [PInt 0; PStr "1"; PInt 2].
Proof. exact spec_problem_entries. Qed.

Lemma MultipleChoiceProblem_limit_irrelevant_witness :
  (forall task_input,
      MultipleChoiceProblem_input_is_consistent limit2_problem task_input
      = MultipleChoiceProblem_input_is_consistent spec_problem task_input)
  /\ (forall task_input language,
        MultipleChoiceProblem_check_answer limit2_problem task_input language
        = MultipleChoiceProblem_check_answer spec_problem task_input language)
  /\ MultipleChoiceProblem_input_is_consistent limit2_problem
       (submit (PList [PInt 0; PStr "1"; PInt 2])) = OK true
  /\ is_OK (MultipleChoiceProblem_check_answer limit2_problem
              (submit (PList [PInt 0; PStr "1"; PInt 2])) "en") = true.
Proof.
  pose proof (MultipleChoiceProblem_limit_irrelevant sample_id_checker sample_task "q1"
                (with_limit (PInt 2) true) spec_content no_translations
                limit2_problem spec_problem limit_only_difference
                limit2_problem_init spec_problem_init)
    as (Hcons & Hcheck & Hover).
  split; [exact Hcons|]. split; [exact Hcheck|].
  destruct (Hover (submit (PList [PInt 0; PStr "1"; PInt 2]))
              [PInt 0; PStr "1"; PInt 2] eq_refl eq_refl limit2_problem_entries)
    as [Hc Hg].
  split; [exact Hc|]. apply Hg. intros m _ _. exists m. by destruct m.
Defined.

(** * Further properties of the problems *)

(** ** Single-select grading *)

Lemma compose_answer_msgs p language (is_valid : bool) invalid_count msgs r :
  compose_answer p language is_valid invalid_count msgs = OK r ->
  exists pre, r = (Some is_valid, None, msgs_or_None (pre ++ msgs),
                   if is_valid then 0 else invalid_count).
Proof.
  unfold compose_answer. destruct is_valid; simpl.
  - destruct (_success_message p);
      try (destruct (gettext _ _ _) as [m|]; simpl; [|done]);
      intros [= <-]; first [by exists [] | by exists [m]].
  - destruct (_error_message p);
      try (destruct (gettext _ _ _) as [m|]; simpl; [|done]);
      try destruct (negb (py_truthy (_centralize p)));
      intros [= <-]; first [by exists [] | by exists [m] | by eexists [_]].
Qed.

Lemma msgs_or_None_elem (pre msgs : list pyval) m :
  m ∈ msgs -> exists l, msgs_or_None (pre ++ msgs) = Some l /\ m ∈ l.
Proof.
  intros Hm. exists (pre ++ msgs). split.
  - destruct (pre ++ msgs) eqn:E; [|done].
    apply app_eq_nil in E as [_ ->]. by apply elem_of_nil in Hm.
  - apply elem_of_app. by right.
Qed.

(** X1. On a single-select problem, when the submitted value converts to
    the index of a stored choice, every result of [check_answer] has the
    validity flag of that choice as correctness and an error count of 0
    when it is valid, 1 otherwise. When the localisation does not raise,
    [check_answer] returns, and the translated feedback of the choice, if
    it has one, is among the messages. *)
Theorem MultipleChoiceProblem_check_answer_single
    (p : MultipleChoiceProblem) (task_input : gmap string pyval) (language : string)
    (v : pyval) (i : Z) (c : Choice) :
  py_truthy (_multiple p) = false ->
  task_input !! get_id (mcq_base p) = Some v ->
  py_int v = OK i ->
  get_choice_with_index p i = Some c ->
  (forall r,
      MultipleChoiceProblem_check_answer p task_input language = OK r ->
      exists msgs, r = (Some (valid c), None, msgs, if valid c then 0 else 1))
  /\ (gettext_ok p language ->
      exists msgs,
        MultipleChoiceProblem_check_answer p task_input language
        = OK (Some (valid c), None, msgs, if valid c then 0 else 1)
        /\ (forall m,
              feedback c <> PNone ->
              gettext (mcq_base p) language (feedback c) = OK m ->
              exists l, msgs = Some l /\ m ∈ l)).
Proof.
  intros Hm Hin Hv Hc.
  unfold MultipleChoiceProblem_check_answer, check_single, input_item.
  rewrite Hm, Hin. simpl. rewrite Hv. simpl. rewrite Hc. simpl.
  assert (Hcnt : forall b : bool,
             (if b then 0 else if negb b then 1 else 0) = if b then 0 else 1)
    by (by intros []).
  split.
  - intros r.
    destruct (feedback c) eqn:Hfb; simpl;
      try (destruct (gettext _ _ _) as [m|]; simpl; [|done]);
      intros (pre & ->)%compose_answer_msgs; rewrite Hcnt; by eexists.
  - intros Hg.
    assert (Hfb : feedback c <> PNone ->
                  exists m, gettext (mcq_base p) language (feedback c) = OK m).
    { apply Hg. unfold texts. do 2 right. apply list_elem_of_fmap. exists c.
      split; [done|]. by apply find_choice_Some in Hc as [? _]. }
    destruct (feedback c) eqn:Efb; simpl.
    1:{ destruct (compose_answer_OK p language (valid c)
                    (if negb (valid c) then 1 else 0) [] Hg) as [msgs ->].
        exists msgs. rewrite Hcnt. split; [done|]. by intros m Hne. }
    all: destruct Hfb as [m Hm']; [done|]; rewrite Hm'; simpl;
      destruct (compose_answer p language (valid c)
                  (if negb (valid c) then 1 else 0) [m]) as [r|] eqn:Hr;
      [|destruct (compose_answer_OK p language (valid c)
                    (if negb (valid c) then 1 else 0) [m] Hg) as [? Hr'];
        congruence];
      apply compose_answer_msgs in Hr as (pre & ->); rewrite Hcnt;
      eexists; (split; [done|]); intros m' _ [= <-];
      apply msgs_or_None_elem; by left.
Qed.

(** ** Consistency before grading *)

(** The submitted entry converts to the index of a stored choice. *)
Definition known_entry (p : MultipleChoiceProblem) (entry : pyval) : Prop :=
  exists i c, py_int entry = OK i /\ get_choice_with_index p i = Some c.

Lemma entries_known_true p (l : list pyval) :
  entries_known p l = OK true <-> Forall (known_entry p) l.
Proof.
  induction l as [|e l IH]; simpl; [by split|].
  destruct (py_int e) as [i|] eqn:Hi; simpl.
  - destruct (get_choice_with_index p i) as [c|] eqn:Hc.
    + rewrite IH. split.
      * intros Hl. constructor; [by exists i, c|done].
      * by intros [_ Hl]%Forall_cons.
    + split; [done|]. intros [(i' & c' & Hi' & Hc') _]%Forall_cons.
      simplify_eq. congruence.
  - split; [done|]. intros [(i' & c' & Hi' & _) _]%Forall_cons. congruence.
Qed.

Lemma collect_feedback_known p language (l : list pyval) : forall msgs,
  Forall (known_entry p) l -> gettext_ok p language ->
  exists msgs', collect_feedback p language l msgs = OK msgs'.
Proof.
  induction l as [|e l IH]; intros msgs Hl Hg; simpl; [by eexists|].
  apply Forall_cons in Hl as [(i & c & -> & Hc) Hl]. simpl. rewrite Hc. simpl.
  assert (Hfb : feedback c <> PNone ->
                exists m', gettext (mcq_base p) language (feedback c) = OK m').
  { apply Hg. unfold texts. do 2 right. apply list_elem_of_fmap. exists c.
    split; [done|]. by apply find_choice_Some in Hc as [? _]. }
  destruct (feedback c); try apply IH; try done;
    (destruct Hfb as [m' ->]; [done|]; simpl; by apply IH).
Qed.

Lemma except_ValueError_true (body : result bool) :
  except_ValueError body (OK false) = OK true -> body = OK true.
Proof. destruct body as [b|e]; simpl; [done|]. by destruct e. Qed.

(** What [input_is_consistent] accepts: the key is present and, for a
    multi-select problem, the value is a list of known entries, for a
    single-select one, the value is a known entry. *)
Lemma input_is_consistent_true p task_input :
  MultipleChoiceProblem_input_is_consistent p task_input = OK true <->
  exists v,
    task_input !! get_id (mcq_base p) = Some v
    /\ if py_truthy (_multiple p)
       then exists l, v = PList l /\ Forall (known_entry p) l
       else known_entry p v.
Proof.
  unfold MultipleChoiceProblem_input_is_consistent, input_item.
  destruct (task_input !! get_id (mcq_base p)) as [v|] eqn:Hin.
  2:{ rewrite bool_decide_eq_false_2 by (by intros [? ?]). simpl.
      split; [done|]. by intros (v & ? & _). }
  rewrite bool_decide_eq_true_2 by (by eexists). simpl.
  destruct (py_truthy (_multiple p)).
  - destruct v; simpl;
      try (split; [done|]; intros (v' & [= <-] & l' & ? & _); done).
    split.
    + intros H%except_ValueError_true%entries_known_true. exists (PList l).
      split; [done|]. by exists l.
    + intros (v' & [= <-] & l' & [= <-] & Hl).
      by rewrite (proj2 (entries_known_true p l) Hl).
  - split.
    + intros H%except_ValueError_true. exists v. split; [done|].
      destruct (py_int v) as [i|] eqn:Hi; simpl in H; [|done].
      destruct (get_choice_with_index p i) as [c|] eqn:Hc; [|done].
      by exists i, c.
    + intros (v' & [= <-] & i & c & Hi & Hc). by rewrite Hi; simpl; rewrite Hc.
Qed.

(** X2. An input that [input_is_consistent] accepts is graded:
    [check_answer] returns a result on it, for a single-select and for a
    multi-select problem alike, as long as the localisation of the texts
    does not raise. *)
Theorem consistent_input_is_graded
    (p : MultipleChoiceProblem) (task_input : gmap string pyval) (language : string) :
  MultipleChoiceProblem_input_is_consistent p task_input = OK true ->
  gettext_ok p language ->
  exists correct msgs n,
    MultipleChoiceProblem_check_answer p task_input language
    = OK (Some correct, None, msgs, n)
    /\ (correct = true <-> n = 0) /\ 0 <= n.
Proof.
  intros (v & Hin & Hv)%input_is_consistent_true Hg.
  unfold MultipleChoiceProblem_check_answer, check_multiple, check_single, input_item.
  destruct (py_truthy (_multiple p)) eqn:Hm.
  - destruct Hv as (l & -> & Hl).
    rewrite (grade_choices_spec _ _ l) by done. simpl. rewrite Hin. simpl.
    destruct (collect_feedback_known p language l [] Hl Hg) as [msgs ->]. simpl.
    rewrite Z.add_0_l.
    pose proof (mismatches_nonneg l (_choices p)) as Hn.
    destruct (compose_answer_OK p language (mismatches l (_choices p) =? 0)
                (mismatches l (_choices p)) msgs Hg) as [msgs' ->].
    eexists _, msgs', _. split; [done|].
    destruct (Z.eqb_spec (mismatches l (_choices p)) 0) as [H0|H0]; split; done.
  - destruct Hv as (i & c & Hi & Hc). rewrite Hin. simpl. rewrite Hi. simpl.
    rewrite Hc. simpl.
    assert (Hfb : feedback c <> PNone ->
                  exists m, gettext (mcq_base p) language (feedback c) = OK m).
    { apply Hg. unfold texts. do 2 right. apply list_elem_of_fmap. exists c.
      split; [done|]. by apply find_choice_Some in Hc as [? _]. }
    assert (Hend : forall msgs,
      exists correct msgs' n,
        compose_answer p language (valid c) (if negb (valid c) then 1 else 0) msgs
        = OK (Some correct, None, msgs', n) /\ (correct = true <-> n = 0) /\ 0 <= n).
    { intros msgs.
      destruct (compose_answer_OK p language (valid c)
                  (if negb (valid c) then 1 else 0) msgs Hg) as [msgs' ->].
      eexists _, msgs', _. split; [done|]. by destruct (valid c). }
    destruct (feedback c); simpl; try apply Hend;
      (destruct Hfb as [m ->]; [done|]; simpl; apply Hend).
Qed.

(** X3. A value that converts to an integer no stored choice has as index
    is reported as inconsistent by [input_is_consistent], and makes
    [check_answer] raise [TypeError] on a single-select problem: the
    grading subscripts the missing choice. *)
Theorem unknown_index_is_not_graded
    (p : MultipleChoiceProblem) (task_input : gmap string pyval) (language : string)
    (v : pyval) (i : Z) :
  py_truthy (_multiple p) = false ->
  task_input !! get_id (mcq_base p) = Some v ->
  py_int v = OK i ->
  get_choice_with_index p i = None ->
  MultipleChoiceProblem_input_is_consistent p task_input = OK false
  /\ MultipleChoiceProblem_check_answer p task_input language = Raise TypeError.
Proof.
  intros Hm Hin Hi Hc. split.
  - unfold MultipleChoiceProblem_input_is_consistent, input_item.
    rewrite Hin, Hm. rewrite bool_decide_eq_true_2 by (by eexists). simpl.
    rewrite Hi. simpl. by rewrite Hc.
  - unfold MultipleChoiceProblem_check_answer, check_single, input_item.
    rewrite Hm, Hin. simpl. rewrite Hi. simpl. by rewrite Hc.
Qed.

(** ** Indices of the stored choices *)

Lemma find_choice_NoDup (l : list Choice) c :
  NoDup (index <$> l) -> c ∈ l -> find_choice (index c) l = Some c.
Proof.
  induction l as [|x l IH]; intros Hnd Hc; [by apply elem_of_nil in Hc|].
  rewrite fmap_cons in Hnd. apply NoDup_cons in Hnd as [Hx Hnd]. simpl.
  apply elem_of_cons in Hc as [->|Hc]; [by rewrite Z.eqb_refl|].
  destruct (Z.eqb_spec (index x) (index c)) as [E|_]; [|by apply IH].
  destruct Hx. rewrite E. apply list_elem_of_fmap. by exists c.
Qed.

Lemma declared_data_lookup_inv problemid choices i datas (n : nat) d c :
  declared_data problemid i choices = OK datas ->
  choices !! n = Some d ->
  choice_data problemid (i + Z.of_nat n) d = OK c ->
  datas !! n = Some c.
Proof.
  intros Hd Hn Hc.
  assert (Hlt : (n < length datas)%nat).
  { rewrite (declared_data_length _ _ _ _ Hd). by eapply lookup_lt_Some. }
  apply lookup_lt_is_Some_2 in Hlt as [c' Hc'].
  destruct (declared_data_lookup _ _ _ _ _ _ Hd Hc') as (d' & Hd' & Hcd).
  congruence.
Qed.

Section ChoiceIndices.

Set Default Proof Using "Type".

Variable id_checker : string -> bool.

(** X4. The stored choices of a constructed problem carry the indices 0 to
    n-1, n being the number of declared choices, each once. So
    [get_choice_with_index] finds a choice exactly for an index in that
    range, and the choice found for [i] is the one built from the [i]-th
    declared choice. *)
Theorem get_choice_with_index_range
    (task : Task) (problemid : string) (content : list (string * pyval))
    (translations : option (gmap string (gmap string string)))
    (p : MultipleChoiceProblem) :
  MultipleChoiceProblem_init id_checker task problemid content translations = OK p ->
  NoDup (index <$> _choices p)
  /\ length (_choices p) = length (declared_choices content)
  /\ (forall i, is_Some (get_choice_with_index p i)
                <-> 0 <= i < Z.of_nat (length (declared_choices content)))
  /\ (forall i c,
        get_choice_with_index p i = Some c <->
        0 <= i /\ exists d, declared_choices content !! Z.to_nat i = Some d
                            /\ choice_data problemid i d = OK c).
Proof.
  intros Hp. apply MultipleChoiceProblem_init_OK in Hp
    as (_ & choices & datas & limit & Hc & Hd & _ & _ & ->).
  unfold declared_choices, get_choice_with_index. rewrite Hc. simpl.
  set (stored := filter is_valid datas ++ filter (fun c => ~ is_valid c) datas).
  assert (Hperm : stored ≡ₚ datas) by apply filter_app_complement.
  assert (Hidx : forall (n : nat) c, datas !! n = Some c -> index c = Z.of_nat n).
  { intros n c Hn. by rewrite (declared_data_index _ _ _ _ _ _ Hd Hn). }
  assert (Hnd : NoDup (index <$> stored)).
  { rewrite Hperm. apply NoDup_alt. intros a b x Ha Hb.
    rewrite list_lookup_fmap in Ha, Hb.
    destruct (datas !! a) as [ca|] eqn:Ea; [|done].
    destruct (datas !! b) as [cb|] eqn:Eb; [|done].
    simpl in Ha, Hb. apply Hidx in Ea, Eb. simplify_eq. lia. }
  assert (Hfind : forall i c,
    find_choice i stored = Some c <->
    0 <= i /\ exists d, choices !! Z.to_nat i = Some d
                        /\ choice_data problemid i d = OK c).
  { intros i c. split.
    - intros [Hin <-]%find_choice_Some. rewrite Hperm in Hin.
      apply list_elem_of_lookup in Hin as [n Hn].
      destruct (declared_data_lookup _ _ _ _ _ _ Hd Hn) as (d & Hdn & Hcd).
      rewrite (Hidx n c Hn). split; [lia|]. exists d.
      by rewrite Nat2Z.id.
    - intros (Hi & d & Hdn & Hcd).
      assert (Hn : datas !! Z.to_nat i = Some c).
      { apply (declared_data_lookup_inv problemid choices 0 datas _ d); [done..|].
        by rewrite Z.add_0_l, Z2Nat.id. }
      assert (Hic : index c = i) by (rewrite (Hidx _ _ Hn); lia).
      rewrite <- Hic. apply find_choice_NoDup; [done|].
      rewrite Hperm. by eapply list_elem_of_lookup_2. }
  split; [done|]. split.
  { rewrite Hperm. by eapply declared_data_length. }
  split; [|done].
  intros i. split.
  - intros [c (Hi & d & Hdn & _)%Hfind]. apply lookup_lt_Some in Hdn. lia.
  - intros [Hi Hlt].
    assert (Hn : (Z.to_nat i < length datas)%nat).
    { rewrite (declared_data_length _ _ _ _ Hd). lia. }
    apply lookup_lt_is_Some_2 in Hn as [c Hn]. exists c.
    destruct (declared_data_lookup _ _ _ _ _ _ Hd Hn) as (d & Hdn & Hcd).
    apply Hfind. split; [done|]. exists d. split; [done|].
    by rewrite Z.add_0_l, Z2Nat.id in Hcd.
Qed.

End ChoiceIndices.

Lemma get_choice_with_index_range_witness :
  NoDup (index <$> _choices spec_problem)
  /\ length (_choices spec_problem) = length (declared_choices spec_content)
  /\ (forall i, is_Some (get_choice_with_index spec_problem i)
                <-> 0 <= i < Z.of_nat (length (declared_choices spec_content)))
  /\ (forall i c,
        get_choice_with_index spec_problem i = Some c <->
        0 <= i /\ exists d, declared_choices spec_content !! Z.to_nat i = Some d
                            /\ choice_data "q1" i d = OK c).
Proof.
  apply (get_choice_with_index_range sample_id_checker sample_task "q1" spec_content
           no_translations spec_problem).
  exact spec_problem_init.
Defined.

Definition choice_b : Choice :=
  {| index := 1; text := PStr "b"; feedback := PNone; valid := false |}.

Lemma MultipleChoiceProblem_check_answer_single_witness :
  (forall r,
      MultipleChoiceProblem_check_answer single_problem (submit (PStr "1")) "en" = OK r ->
      exists msgs, r = (Some (valid choice_b), None, msgs,
                        if valid choice_b then 0 else 1))
  /\ (gettext_ok single_problem "en" ->
      exists msgs,
        MultipleChoiceProblem_check_answer single_problem (submit (PStr "1")) "en"
        = OK (Some (valid choice_b), None, msgs, if valid choice_b then 0 else 1)
        /\ (forall m,
              feedback choice_b <> PNone ->
              gettext (mcq_base single_problem) "en" (feedback choice_b) = OK m ->
              exists l, msgs = Some l /\ m ∈ l)).
Proof.
  apply (MultipleChoiceProblem_check_answer_single single_problem
           (submit (PStr "1")) "en" (PStr "1") 1 choice_b);
    reflexivity.
Defined.

Example single_problem_wrong_choice :
  MultipleChoiceProblem_check_answer single_problem (submit (PStr "1")) "en"
  = OK (Some false, None, Some [PStr "_wrong_answer"], 1).
Proof. vm_compute. reflexivity. Qed.

Lemma consistent_input_is_graded_witness :
  MultipleChoiceProblem_input_is_consistent spec_problem
    (submit (PList [PStr " 2"; PInt 0])) = OK true
  /\ exists correct msgs n,
       MultipleChoiceProblem_check_answer spec_problem
         (submit (PList [PStr " 2"; PInt 0])) "en"
       = OK (Some correct, None, msgs, n)
       /\ (correct = true <-> n = 0) /\ 0 <= n.
Proof.
  split; [reflexivity|].
  apply consistent_input_is_graded; [reflexivity|].
  exact spec_problem_gettext_ok.
Defined.

Lemma unknown_index_is_not_graded_witness :
  MultipleChoiceProblem_input_is_consistent single_problem (submit (PStr "7")) = OK false
  /\ MultipleChoiceProblem_check_answer single_problem (submit (PStr "7")) "en"
     = Raise TypeError.
Proof.
  apply (unknown_index_is_not_graded single_problem (submit (PStr "7")) "en"
           (PStr "7") 7);
    reflexivity.
Defined.

(** ** When a multiple-choice descriptor is constructible *)

(** A declared choice the constructor accepts: a dict with a [text] key. *)
Definition well_formed_choice (choice : pyval) : bool :=
  match choice with
  | PDict d => dict_has "text" d
  | _ => false
  end.

Lemma choice_data_OK problemid i choice :
  (exists data, choice_data problemid i choice = OK data)
  <-> well_formed_choice choice = true.
Proof.
  unfold choice_data. destruct choice as [| | | |s|l|d]; simpl;
    try (split; [by intros [? ?]|done]).
  - destruct (str_contains "text" s); simpl; (split; [by intros [? ?]|done]).
  - destruct (existsb (py_eq_str "text") l); simpl; (split; [by intros [? ?]|done]).
  - unfold dict_has, dict_item. destruct (dict_lookup "text" d); simpl.
    + split; [done|]. intros _. by eexists.
    + split; [by intros [? ?]|done].
Qed.

Lemma choice_data_no_text problemid i d :
  dict_has "text" d = false ->
  choice_data problemid i (PDict d)
  = Raise (Exception ("A choice in " +:+ problemid +:+ " does not have text")).
Proof. intros H. unfold choice_data. simpl. by rewrite H. Qed.

Lemma declared_data_OK problemid choices : forall i,
  (exists datas, declared_data problemid i choices = OK datas)
  <-> Forall (fun c => well_formed_choice c = true) choices.
Proof.
  induction choices as [|c cs IH]; intros i; simpl.
  - split; [done|]. by eexists.
  - rewrite Forall_cons, <- (choice_data_OK problemid i c), <- (IH (i + 1)).
    destruct (choice_data problemid i c) as [d|]; simpl.
    + destruct (declared_data problemid (i + 1) cs) as [ds|]; simpl.
      * split; [|by eexists]. intros _. split; by eexists.
      * split; [by intros [? ?]|]. by intros [_ [? ?]].
    + split; [by intros [? ?]|]. by intros [[? ?] _].
Qed.

Lemma declared_data_first_error problemid (good : list pyval) bad rest e : forall i,
  Forall (fun c => well_formed_choice c = true) good ->
  choice_data problemid (i + Z.of_nat (length good)) bad = Raise e ->
  declared_data problemid i (good ++ bad :: rest) = Raise e.
Proof.
  induction good as [|c cs IH]; intros i Hg Hbad; simpl in *.
  - rewrite Z.add_0_r in Hbad. by rewrite Hbad.
  - apply Forall_cons in Hg as [Hc Hg].
    apply (choice_data_OK problemid i) in Hc as [d ->]. simpl.
    rewrite (IH (i + 1)); [done..|].
    by replace (i + 1 + Z.of_nat (length cs)) with (i + Z.pos (Pos.of_succ_nat (length cs)))
      by lia.
Qed.

Section Constructible.

Set Default Proof Using "Type".

Variable id_checker : string -> bool.

(** X5. A multiple-choice descriptor is constructible exactly when the
    problem id passes the identifier check, [choices] is a list of dicts
    that each have a [text] key, at least one of them carries a true
    validity flag, and the limit, if declared, is an [int] instance that is
    zero or positive and, for a multi-select problem, zero or at least the
    number of valid choices. *)
Theorem MultipleChoiceProblem_init_succeeds_iff
    (task : Task) (problemid : string) (content : list (string * pyval))
    (translations : option (gmap string (gmap string string))) :
  is_OK (MultipleChoiceProblem_init id_checker task problemid content translations) = true
  <-> id_checker problemid = true
      /\ (exists choices,
            dict_lookup "choices" content = Some (PList choices)
            /\ Forall (fun c => well_formed_choice c = true) choices)
      /\ 0 < n_valid_choices content
      /\ (forall limit,
            dict_lookup "limit" content = Some limit ->
            py_isinstance_int limit = true /\ 0 <= int_value limit
            /\ (py_truthy (dict_get "multiple" content (PBool false)) = true ->
                int_value limit = 0 \/ n_valid_choices content <= int_value limit)).
Proof.
  rewrite is_OK_true. split.
  - intros [p Hp]. apply MultipleChoiceProblem_init_OK in Hp
      as (Hid & choices & datas & lim & Hc & Hd & Hg & Hlim & _).
    split; [done|]. split.
    { exists choices. split; [done|]. apply (declared_data_OK problemid choices 0).
      by exists datas. }
    rewrite <- (n_valid_choices_data _ _ _ _ Hc Hd). split.
    { destruct (filter is_valid datas); [done|]. simpl. lia. }
    intros limit Hl. unfold limit_stored in Hlim. rewrite Hl in Hlim.
    destruct Hlim as [Hok _]. by apply limit_ok_spec.
  - intros (Hid & (choices & Hc & Hwf) & Hn & Hlim).
    apply (declared_data_OK problemid choices 0) in Hwf as [datas Hd].
    rewrite <- (n_valid_choices_data _ _ _ _ Hc Hd) in Hn, Hlim.
    eexists. apply MultipleChoiceProblem_init_OK. split; [done|].
    exists choices, datas, (dict_get "limit" content (PInt 0)).
    repeat split; try done.
    + intros E. rewrite E in Hn. simpl in Hn. lia.
    + unfold limit_stored, dict_get.
      destruct (dict_lookup "limit" content) as [limit|] eqn:Hl; [|done].
      split; [|done]. apply limit_ok_spec. by apply Hlim.
Qed.

(** X6. The errors of the constructor, in the order it checks: an id that
    fails the identifier check; then a [choices] entry that is absent or
    not a list; then the first declared choice that is a dict without a
    [text] key; then the absence of a valid choice; then a declared limit
    that is not acceptable. Each is an [Exception] whose message names the
    problem id. *)
Theorem MultipleChoiceProblem_init_errors
    (task : Task) (problemid : string) (content : list (string * pyval))
    (translations : option (gmap string (gmap string string))) :
  (id_checker problemid = false ->
   MultipleChoiceProblem_init id_checker task problemid content translations
   = Raise (Exception ("Invalid problem _id: " +:+ problemid)))
  /\ (id_checker problemid = true ->
      (forall choices, dict_lookup "choices" content <> Some (PList choices)) ->
      MultipleChoiceProblem_init id_checker task problemid content translations
      = Raise (Exception ("Multiple choice problem " +:+ problemid
                          +:+ " does not have choices or choices are not an array")))
  /\ (forall good d rest,
        id_checker problemid = true ->
        dict_lookup "choices" content = Some (PList (good ++ PDict d :: rest)) ->
        Forall (fun c => well_formed_choice c = true) good ->
        dict_has "text" d = false ->
        MultipleChoiceProblem_init id_checker task problemid content translations
        = Raise (Exception ("A choice in " +:+ problemid +:+ " does not have text")))
  /\ (forall choices,
        id_checker problemid = true ->
        dict_lookup "choices" content = Some (PList choices) ->
        Forall (fun c => well_formed_choice c = true) choices ->
        n_valid_choices content = 0 ->
        MultipleChoiceProblem_init id_checker task problemid content translations
        = Raise (Exception ("Problem " +:+ problemid
                            +:+ " does not have any valid answer")))
  /\ (forall choices limit,
        id_checker problemid = true ->
        dict_lookup "choices" content = Some (PList choices) ->
        Forall (fun c => well_formed_choice c = true) choices ->
        0 < n_valid_choices content ->
        dict_lookup "limit" content = Some limit ->
        limit_ok (dict_get "multiple" content (PBool false)) limit
          (n_valid_choices content) = false ->
        MultipleChoiceProblem_init id_checker task problemid content translations
        = Raise (Exception ("Invalid limit in problem " +:+ problemid))).
Proof.
  unfold MultipleChoiceProblem_init, BasicProblem_init, dict_has, dict_get.
  split; [|split; [|split; [|split]]].
  - by intros ->.
  - intros -> Hc. simpl.
    destruct (dict_lookup "choices" content) as [[| | | | |choices|]|]; simpl; try done.
    by destruct (Hc choices).
  - intros good d rest -> Hc Hgood Hd. simpl. rewrite Hc. simpl.
    rewrite choices_loop_spec.
    rewrite (declared_data_first_error problemid good (PDict d) rest
               (Exception ("A choice in " +:+ problemid +:+ " does not have text")));
      [done|done|].
    by apply (choice_data_no_text problemid _ d).
  - intros choices -> Hc Hwf Hn. simpl. rewrite Hc. simpl. rewrite choices_loop_spec.
    apply (declared_data_OK problemid choices 0) in Hwf as [datas Hd]. rewrite Hd.
    simpl. rewrite (n_valid_choices_data _ _ _ _ Hc Hd), Hn. done.
  - intros choices limit -> Hc Hwf Hn Hl Hbad. simpl. rewrite Hc. simpl.
    rewrite choices_loop_spec.
    apply (declared_data_OK problemid choices 0) in Hwf as [datas Hd]. rewrite Hd.
    simpl. rewrite (n_valid_choices_data _ _ _ _ Hc Hd).
    destruct (Z.eqb_spec (n_valid_choices content) 0) as [E|_]; [lia|].
    rewrite Hl. simpl. by rewrite Hbad.
Qed.

End Constructible.

(** ** Construction errors shared by the variants; match problems *)

Lemma MatchProblem_check_answer_str (p : MatchProblem) (task_input : gmap string pyval)
    (language s : string) :
  task_input !! get_id (match_base p) = Some (PStr s) ->
  MatchProblem_check_answer p task_input language
  = if String.eqb (strip s) (_answer p)
    then OK (Some true, None, Some [PStr "_correct_answer"], 0)
    else OK (Some false, None, Some [PStr "_wrong_answer"], 0).
Proof.
  intros Hin. unfold MatchProblem_check_answer, input_item. by rewrite Hin.
Qed.

Lemma MatchProblem_correct_iff (p : MatchProblem) (task_input : gmap string pyval)
    (language s : string) :
  task_input !! get_id (match_base p) = Some (PStr s) ->
  MatchProblem_check_answer p task_input language
  = OK (Some true, None, Some [PStr "_correct_answer"], 0)
  <-> strip s = _answer p.
Proof.
  intros Hin. rewrite (MatchProblem_check_answer_str _ _ _ s Hin).
  destruct (String.eqb_spec (strip s) (_answer p)); split; done.
Qed.

Lemma append_nil_r (a : string) : a +:+ "" = a.
Proof. induction a as [|c a IH]; [done|]. by rewrite append_cons, IH. Qed.

(** X9. A match problem can be answered correctly exactly when its stored
    answer neither starts nor ends with whitespace: the submission is
    stripped before the comparison, the stored answer is not. Such an
    answer is accepted with any whitespace around it. *)
Theorem MatchProblem_answerable (p : MatchProblem) :
  ((exists (task_input : gmap string pyval) language s,
       task_input !! get_id (match_base p) = Some (PStr s)
       /\ MatchProblem_check_answer p task_input language
          = OK (Some true, None, Some [PStr "_correct_answer"], 0))
   <-> starts_with_space (_answer p) = false /\ ends_with_space (_answer p) = false)
  /\ (forall (task_input : gmap string pyval) language l r,
        starts_with_space (_answer p) = false ->
        ends_with_space (_answer p) = false ->
        all_space l = true -> all_space r = true ->
        task_input !! get_id (match_base p) = Some (PStr (l +:+ _answer p +:+ r)) ->
        MatchProblem_check_answer p task_input language
        = OK (Some true, None, Some [PStr "_correct_answer"], 0)).
Proof.
  assert (Hpad : forall l r,
    starts_with_space (_answer p) = false -> ends_with_space (_answer p) = false ->
    all_space l = true -> all_space r = true ->
    strip (l +:+ _answer p +:+ r) = _answer p).
  { intros l r Hs He Hl Hr. symmetry. apply trimmed_strip. by exists l, r. }
  split.
  - split.
    + intros (task_input & language & s & Hin & Hok).
      apply (MatchProblem_correct_iff _ _ _ s Hin) in Hok.
      destruct (strip_trimmed s) as (l & r & _ & _ & _ & Hs & He).
      by rewrite Hok in Hs, He.
    + intros [Hs He].
      exists {[get_id (match_base p) := PStr (_answer p)]}, "", (_answer p).
      split; [apply lookup_singleton_eq|].
      apply (MatchProblem_correct_iff _ _ _ (_answer p)); [apply lookup_singleton_eq|].
      specialize (Hpad "" "" Hs He eq_refl eq_refl).
      by rewrite append_nil, append_nil_r in Hpad.
  - intros task_input language l r Hs He Hl Hr Hin.
    apply (MatchProblem_correct_iff _ _ _ _ Hin). by apply Hpad.
Qed.

Section Constructors.

Set Default Proof Using "Type".

Variable id_checker : string -> bool.
Variable Box : Type.
Variable box_new : box_class -> string -> Task -> string -> pyval -> result Box.
Variable py_repr : pyval -> result string.

(** X7. Every constructor checks the problem id first: with an id that
    fails the identifier check the five variants raise the same
    [Exception], whatever the descriptor. With a valid id, the three code
    variants raise when the task has no environment, before looking at
    any box. *)
Theorem constructors_check_id_and_environment
    (task : Task) (problemid : string) (content : list (string * pyval))
    (translations : option (gmap string (gmap string string))) :
  (id_checker problemid = false ->
   let e := Exception ("Invalid problem _id: " +:+ problemid) in
   MatchProblem_init id_checker py_repr task problemid content translations = Raise e
   /\ MultipleChoiceProblem_init id_checker task problemid content translations = Raise e
   /\ CodeSingleLineProblem_init id_checker Box box_new task problemid content translations
      = Raise e
   /\ CodeFileProblem_init id_checker Box box_new task problemid content translations
      = Raise e
   /\ CodeProblem_init id_checker Box box_new task problemid content translations
      = Raise e)
  /\ (id_checker problemid = true -> get_environment task = None ->
      let e := Exception "Environment undefined, but there is a problem with type=code or type=code-single-line" in
      CodeSingleLineProblem_init id_checker Box box_new task problemid content translations
      = Raise e
      /\ CodeFileProblem_init id_checker Box box_new task problemid content translations
         = Raise e
      /\ CodeProblem_init id_checker Box box_new task problemid content translations
         = Raise e).
Proof.
  unfold MatchProblem_init, MultipleChoiceProblem_init, CodeSingleLineProblem_init,
    CodeFileProblem_init, CodeProblem_init, BasicCodeProblem_init, BasicProblem_init.
  split.
  - intros ->. simpl. done.
  - intros -> ->. simpl. done.
Qed.

(** X8. A match descriptor is constructible exactly when the id passes the
    identifier check, the descriptor has an [answer] key and [str()] of
    the answer does not raise. With a valid id, a descriptor without
    answer raises the "no answer" [Exception], and an exception of
    [str()] leaves the constructor: an integer answer of more than
    [int_max_str_digits] digits raises [ValueError]. The constructed
    problem keeps the id and the text of the answer, and grades a
    submitted string as correct exactly when the stripped string is that
    text. *)
Theorem MatchProblem_init_answer
    (task : Task) (problemid : string) (content : list (string * pyval))
    (translations : option (gmap string (gmap string string))) :
  (is_OK (MatchProblem_init id_checker py_repr task problemid content translations) = true
   <-> id_checker problemid = true
       /\ exists a, dict_lookup "answer" content = Some a
                    /\ is_OK (py_str py_repr a) = true)
  /\ (id_checker problemid = true -> dict_has "answer" content = false ->
      MatchProblem_init id_checker py_repr task problemid content translations
      = Raise (Exception "There is no answer in this problem with type==match"))
  /\ (forall a e,
        id_checker problemid = true -> dict_lookup "answer" content = Some a ->
        py_str py_repr a = Raise e ->
        MatchProblem_init id_checker py_repr task problemid content translations = Raise e)
  /\ (forall z,
        id_checker problemid = true -> dict_lookup "answer" content = Some (PInt z) ->
        10 ^ int_max_str_digits <= Z.abs z ->
        MatchProblem_init id_checker py_repr task problemid content translations
        = Raise ValueError)
  /\ (forall p,
        MatchProblem_init id_checker py_repr task problemid content translations = OK p ->
        get_id (match_base p) = problemid
        /\ exists a, dict_lookup "answer" content = Some a
           /\ py_str py_repr a = OK (_answer p)
           /\ forall (task_input : gmap string pyval) language s,
                task_input !! problemid = Some (PStr s) ->
                (MatchProblem_check_answer p task_input language
                 = OK (Some true, None, Some [PStr "_correct_answer"], 0)
                 <-> strip s = _answer p)).
Proof.
  unfold MatchProblem_init, BasicProblem_init, dict_has, dict_item.
  split; [|split; [|split; [|split]]].
  - destruct (id_checker problemid); simpl; [|split; [done|by intros [? _]]].
    destruct (dict_lookup "answer" content) as [a|]; simpl.
    + destruct (py_str py_repr a) as [answer|e] eqn:Hstr; simpl.
      * split; [intros _|done]. split; [done|]. exists a. by rewrite Hstr.
      * split; [done|]. intros (_ & a' & [= <-] & Hok). by rewrite Hstr in Hok.
    + split; [done|]. by intros (_ & a & ? & _).
  - intros -> H. simpl. by destruct (dict_lookup "answer" content).
  - intros a e -> -> Hstr. simpl. by rewrite Hstr.
  - intros z -> -> Hz. simpl.
    destruct (Z.ltb_spec (Z.abs z) (10 ^ int_max_str_digits)); [lia|done].
  - intros p Hp.
    assert (Hinv : get_id (match_base p) = problemid
                   /\ exists a, dict_lookup "answer" content = Some a
                                /\ py_str py_repr a = OK (_answer p)).
    { destruct (id_checker problemid); simpl in Hp; [|done].
      destruct (dict_lookup "answer" content) as [a|]; simpl in Hp; [|done].
      destruct (py_str py_repr a) as [answer|] eqn:Hstr; simpl in Hp; [|done].
      injection Hp as <-. split; [done|]. by exists a. }
    destruct Hinv as (Hid & a & Ha & Hans). split; [done|].
    exists a. split; [done|]. split; [done|].
    intros task_input language s Hin.
    apply MatchProblem_correct_iff. by rewrite Hid.
Qed.

End Constructors.

(** ** Code problems: the boxes built and their consistency *)

Section CodeBoxes.

Set Default Proof Using "Type".

Variable id_checker : string -> bool.
Variable Box : Type.
Variable box_new : box_class -> string -> Task -> string -> pyval -> result Box.
Variable box_input_is_consistent : Box -> gmap string pyval -> pyval -> pyval -> result bool.

(** X10. [BasicCodeProblem.input_is_consistent] is the conjunction of the
    boxes' checks, asked in order: it is [True] exactly when every box
    says [True]; the first box that says [False], or raises, decides the
    result, and the boxes after it are not asked. *)
Theorem BasicCodeProblem_input_is_consistent_all
    (p : BasicCodeProblem Box) (task_input : gmap string pyval)
    (default_allowed_extension default_max_size : pyval) :
  let check box :=
    box_input_is_consistent box task_input default_allowed_extension default_max_size in
  let result :=
    BasicCodeProblem_input_is_consistent Box box_input_is_consistent p task_input
      default_allowed_extension default_max_size in
  (result = OK true <-> Forall (fun box => check box = OK true) (_boxes Box p))
  /\ (forall before box after,
        _boxes Box p = before ++ box :: after ->
        Forall (fun b => check b = OK true) before ->
        check box = OK false -> result = OK false)
  /\ (forall before box after e,
        _boxes Box p = before ++ box :: after ->
        Forall (fun b => check b = OK true) before ->
        check box = Raise e -> result = Raise e).
Proof.
  unfold BasicCodeProblem_input_is_consistent. simpl.
  generalize (_boxes Box p). intros boxes.
  split; [|split].
  - induction boxes as [|b bs IH]; simpl; [by split|].
    rewrite Forall_cons.
    destruct (box_input_is_consistent b task_input default_allowed_extension
                default_max_size) as [[]|]; simpl.
    + rewrite IH. split; [by split|by intros [_ ?]].
    + split; [done|by intros [? _]].
    + split; [done|by intros [? _]].
  - intros before box after -> Hb Hbox.
    induction Hb as [|b bs Hb _ IH]; simpl; [by rewrite Hbox|by rewrite Hb].
  - intros before box after e -> Hb Hbox.
    induction Hb as [|b bs Hb _ IH]; simpl; [by rewrite Hbox|by rewrite Hb].
Qed.

(** The box [_create_box] returns was built by the class that the
    descriptor's [type] names, from the problem's id and task. *)
Definition box_built (problemid : string) (task : Task) (boxid : string)
    (box_content : pyval) (box : Box) : Prop :=
  (id_checker boxid = true \/ boxid = "")
  /\ exists d t cls,
       box_content = PDict d /\ dict_lookup "type" d = Some (PStr t)
       /\ _box_types t = Some cls
       /\ box_new cls problemid task boxid box_content = OK box.

Lemma _create_box_OK self boxid box_content box :
  _create_box id_checker Box box_new self boxid box_content = OK box ->
  box_built (get_id (code_base Box self)) (_task (code_base Box self))
    boxid box_content box.
Proof.
  unfold _create_box, box_built.
  destruct (id_checker boxid) eqn:Hid; simpl.
  2:{ destruct (String.eqb_spec boxid "") as [->|]; simpl; [|done].
      intros H. split; [by right|]. revert H.
      destruct box_content as [| | | |s|l|d]; simpl; try done.
      - by destruct (str_contains "type" s).
      - by destruct (existsb (py_eq_str "type") l).
      - unfold dict_has, dict_item.
        destruct (dict_lookup "type" d) as [[| | | |t| |]|] eqn:Ht; simpl; try done.
        destruct (_box_types t) as [cls|] eqn:Hcls; [|done].
        intros H. by exists d, t, cls. }
  intros H. split; [by left|]. revert H.
  destruct box_content as [| | | |s|l|d]; simpl; try done.
  - by destruct (str_contains "type" s).
  - by destruct (existsb (py_eq_str "type") l).
  - unfold dict_has, dict_item.
    destruct (dict_lookup "type" d) as [[| | | |t| |]|] eqn:Ht; simpl; try done.
    destruct (_box_types t) as [cls|] eqn:Hcls; [|done].
    intros H. by exists d, t, cls.
Qed.

Lemma BasicCodeProblem_init_base task problemid content translations self :
  BasicCodeProblem_init id_checker Box task problemid content translations = OK self ->
  get_id (code_base Box self) = problemid /\ _task (code_base Box self) = task
  /\ _boxes Box self = [].
Proof.
  unfold BasicCodeProblem_init, BasicProblem_init.
  destruct (id_checker problemid); simpl; [|done].
  destruct (get_environment task); [|done]. by intros [= <-].
Qed.

Lemma CodeProblem_boxes_loop_built problemid task items : forall self p,
  get_id (code_base Box self) = problemid -> _task (code_base Box self) = task ->
  CodeProblem_boxes_loop id_checker Box box_new self items = OK p ->
  exists boxes,
    _boxes Box p = _boxes Box self ++ boxes
    /\ Forall2 (fun kv box => fst kv <> "" /\ box_built problemid task (fst kv) (snd kv) box)
         items boxes.
Proof.
  induction items as [|[k v] items IH]; intros self p Hid Htask; simpl.
  - intros [= <-]. exists []. by rewrite app_nil_r.
  - destruct (String.eqb_spec k "") as [|Hk]; [done|].
    destruct (_create_box id_checker Box box_new self k v) as [box|] eqn:Hbox;
      simpl; [|done].
    intros Hp. apply IH in Hp as (boxes & Hb & Hall); [|done..].
    simpl in Hb. exists (box :: boxes). split; [by rewrite Hb, <- app_assoc|].
    constructor; [|done]. split; [done|].
    apply _create_box_OK in Hbox. by rewrite Hid, Htask in Hbox.
Qed.

(** X11. The boxes of a constructed code problem. A single-line problem
    has one [InputBox], a file problem one [FileBox] to which [max_size]
    and [allowed_exts] of the descriptor are handed, a code problem
    without a [boxes] key one [MultilineBox] (with the descriptor's
    [language] when it has one), all three with the empty box id. A code
    problem with a [boxes] mapping has one box per entry, in the order of
    the mapping, built by the class the entry's [type] names under the
    entry's key, which is a non-empty restricted identifier. *)
Theorem code_problem_boxes
    (task : Task) (problemid : string) (content : list (string * pyval))
    (translations : option (gmap string (gmap string string))) :
  (forall p,
      CodeSingleLineProblem_init id_checker Box box_new task problemid content translations
      = OK p ->
      exists box,
        _boxes Box p = [box]
        /\ box_new InputBox problemid task ""
             (PDict [("type", PStr "input-text");
                     ("optional", dict_get "optional" content (PBool false))]) = OK box)
  /\ (forall p,
        CodeFileProblem_init id_checker Box box_new task problemid content translations
        = OK p ->
        exists box,
          _boxes Box p = [box]
          /\ box_new FileBox problemid task ""
               (PDict [("type", PStr "file");
                       ("max_size", dict_get "max_size" content PNone);
                       ("allowed_exts", dict_get "allowed_exts" content PNone)])
             = OK box)
  /\ (forall p,
        CodeProblem_init id_checker Box box_new task problemid content translations
        = OK p ->
        dict_lookup "boxes" content = None ->
        exists box,
          _boxes Box p = [box]
          /\ box_new MultilineBox problemid task ""
               (PDict (match dict_lookup "language" content with
                       | Some language =>
                           [("type", PStr "multiline"); ("language", language);
                            ("optional", dict_get "optional" content (PBool false))]
                       | None =>
                           [("type", PStr "multiline");
                            ("optional", dict_get "optional" content (PBool false))]
                       end)) = OK box)
  /\ (forall p items,
        CodeProblem_init id_checker Box box_new task problemid content translations
        = OK p ->
        dict_lookup "boxes" content = Some (PDict items) ->
        Forall2 (fun kv box =>
                   fst kv <> "" /\ id_checker (fst kv) = true
                   /\ box_built problemid task (fst kv) (snd kv) box)
          items (_boxes Box p)).
Proof.
  split; [|split; [|split]]; intros p.
  - unfold CodeSingleLineProblem_init.
    destruct (BasicCodeProblem_init _ _ _ _ _ _) as [self|] eqn:Hs; simpl; [|done].
    apply BasicCodeProblem_init_base in Hs as (Hid & Htask & _).
    destruct (_create_box _ _ _ self "" _) as [box|] eqn:Hbox; simpl; [|done].
    intros [= <-]. exists box. split; [done|].
    apply _create_box_OK in Hbox as (_ & d & t & cls & [= <-] & [= <-] & [= <-] & Hnew).
    by rewrite Hid, Htask in Hnew.
  - unfold CodeFileProblem_init.
    destruct (BasicCodeProblem_init _ _ _ _ _ _) as [self|] eqn:Hs; simpl; [|done].
    apply BasicCodeProblem_init_base in Hs as (Hid & Htask & _).
    destruct (_create_box _ _ _ self "" _) as [box|] eqn:Hbox; simpl; [|done].
    intros [= <-]. exists box. split; [done|].
    apply _create_box_OK in Hbox as (_ & d & t & cls & [= <-] & [= <-] & [= <-] & Hnew).
    by rewrite Hid, Htask in Hnew.
  - unfold CodeProblem_init.
    destruct (BasicCodeProblem_init _ _ _ _ _ _) as [self|] eqn:Hs; simpl; [|done].
    apply BasicCodeProblem_init_base in Hs as (Hid & Htask & _).
    intros Hp Hnb. revert Hp. unfold dict_has, dict_item. rewrite Hnb.
    destruct (dict_lookup "language" content) as [language|]; simpl;
      (destruct (_create_box _ _ _ self "" _) as [box|] eqn:Hbox; simpl; [|done]);
      intros [= <-]; exists box; (split; [done|]);
      apply _create_box_OK in Hbox
        as (_ & d & t & cls & [= <-] & [= <-] & [= <-] & Hnew);
      by rewrite Hid, Htask in Hnew.
  - intros items. unfold CodeProblem_init.
    destruct (BasicCodeProblem_init _ _ _ _ _ _) as [self|] eqn:Hs; simpl; [|done].
    apply BasicCodeProblem_init_base in Hs as (Hid & Htask & _).
    intros Hp Hb. revert Hp. unfold dict_has, dict_item. rewrite Hb. simpl.
    intros Hp. apply (CodeProblem_boxes_loop_built problemid task) in Hp
      as (boxes & -> & Hall); [|done..].
    simpl. eapply Forall2_impl; [exact Hall|].
    intros [k v] box [Hk Hbuilt]. simpl in *. split; [done|]. split; [|done].
    by destruct Hbuilt as [[?|?] _].
Qed.

End CodeBoxes.

(** ** Multi-select grading: nothing selected *)

Definition n_valid_stored (p : MultipleChoiceProblem) : Z :=
  Z.of_nat (length (filter is_valid (_choices p))).

Lemma mismatches_none_selected (entries : list pyval) (choices : list Choice) :
  (forall c, c ∈ choices -> selectedb (index c) entries = false) ->
  mismatches entries choices = Z.of_nat (length (filter is_valid choices)).
Proof.
  induction choices as [|c cs IH]; intros Hsel; simpl; [done|].
  rewrite (Hsel c) by left. rewrite IH by (intros c' Hc'; apply Hsel; by right).
  destruct (valid c) eqn:Hv; simpl.
  - rewrite filter_cons_True by done. simpl. lia.
  - rewrite filter_cons_False by (unfold is_valid; congruence). done.
Qed.

Lemma no_space_str_of_int z : no_space (str_of_int z) = true.
Proof.
  unfold str_of_int. destruct z as [|p|p]; simpl; [done|..].
  - pose proof (Unsigned.to_uint_nonnil p).
    replace (NilZero.string_of_uint (Pos.to_uint p))
      with (NilEmpty.string_of_uint (Pos.to_uint p))
      by (by destruct (Pos.to_uint p)).
    apply no_space_uint.
  - pose proof (Unsigned.to_uint_nonnil p).
    replace (NilZero.string_of_uint (Pos.to_uint p))
      with (NilEmpty.string_of_uint (Pos.to_uint p))
      by (by destruct (Pos.to_uint p)).
    apply no_space_uint.
Qed.

Lemma filter_is_valid_partition (datas : list Choice) :
  length (filter is_valid (filter is_valid datas ++ filter (fun c => ~ is_valid c) datas))
  = length (filter is_valid datas).
Proof.
  apply Permutation_length. by rewrite filter_app_complement.
Qed.

(** [int()] skips a leading blank. *)
Lemma int_of_string_blank s : int_of_string (String " " s) = int_of_string s.
Proof. reflexivity. Qed.

(** An entry written as a blank followed by the index of a choice. *)
Definition padded_entry (c : Choice) : pyval := PStr (String " " (str_of_int (index c))).

Lemma padded_entry_known p c : c ∈ _choices p -> known_entry p (padded_entry c).
Proof.
  intros Hc. destruct (get_choice_with_index_elem p c Hc) as (c' & Hc' & _).
  exists (index c), c'. split; [|done].
  unfold padded_entry. simpl. rewrite int_of_string_blank.
  by rewrite int_of_string_str_of_int.
Qed.

Lemma padded_entries_not_selected i (sel : list Choice) :
  selectedb i (padded_entry <$> sel) = false.
Proof.
  unfold selectedb. apply orb_false_iff. split.
  - induction sel as [|c sel IH]; [done|].
    rewrite fmap_cons. cbn [existsb]. by rewrite IH.
  - induction sel as [|c sel IH]; [done|].
    rewrite fmap_cons. cbn [existsb]. rewrite IH, orb_false_r.
    unfold padded_entry, py_eq_str. apply String.eqb_neq. intros E.
    pose proof (no_space_str_of_int i) as Hn. rewrite E in Hn. done.
Qed.

Section NothingSelected.

Set Default Proof Using "Type".

Variable id_checker : string -> bool.

Lemma n_valid_stored_init task problemid content translations p :
  MultipleChoiceProblem_init id_checker task problemid content translations = OK p ->
  0 < n_valid_stored p /\ n_valid_stored p = n_valid_choices content
  /\ get_id (mcq_base p) = problemid.
Proof.
  intros Hp. apply MultipleChoiceProblem_init_OK in Hp
    as (_ & choices & datas & lim & Hc & Hd & Hg & _ & ->).
  unfold n_valid_stored. simpl. rewrite filter_is_valid_partition.
  rewrite <- (n_valid_choices_data _ _ _ _ Hc Hd). repeat split.
  destruct (filter is_valid datas); [done|]. simpl. lia.
Qed.

(** X12. The limit a constructed problem stores is an [int] instance, zero
    or positive; it is 0 when the descriptor declares none; on a
    multi-select problem it is 0 or at least the number of valid stored
    choices, so that all valid choices can be selected within it. *)
Theorem stored_limit_invariant
    (task : Task) (problemid : string) (content : list (string * pyval))
    (translations : option (gmap string (gmap string string)))
    (p : MultipleChoiceProblem) :
  MultipleChoiceProblem_init id_checker task problemid content translations = OK p ->
  py_isinstance_int (_limit p) = true
  /\ 0 <= int_value (_limit p)
  /\ (py_truthy (_multiple p) = true ->
      int_value (_limit p) = 0 \/ n_valid_stored p <= int_value (_limit p))
  /\ (dict_lookup "limit" content = None -> _limit p = PInt 0)
  /\ 0 < n_valid_stored p
  /\ n_valid_stored p = n_valid_choices content.
Proof.
  intros Hp. destruct (n_valid_stored_init _ _ _ _ _ Hp) as (Hpos & Hn & _).
  rewrite Hn in *. clear Hn.
  apply MultipleChoiceProblem_init_OK in Hp
    as (_ & choices & datas & lim & Hc & Hd & Hg & Hlim & ->).
  simpl. unfold limit_stored in Hlim.
  destruct (dict_lookup "limit" content) as [v|].
  - destruct Hlim as [Hok ->].
    rewrite (n_valid_choices_data _ _ _ _ Hc Hd) in Hok.
    apply limit_ok_spec in Hok as (? & ? & ?). repeat split; try done.
  - subst lim. repeat split; try done. intros _. by left.
Qed.

(** X13. With no entry in the submitted list, a constructed multi-select
    problem finds the input consistent, and every result of [check_answer]
    is incorrect with an error count equal to the number of valid choices
    of the descriptor. *)
Theorem empty_selection_is_wrong
    (task : Task) (problemid : string) (content : list (string * pyval))
    (translations : option (gmap string (gmap string string)))
    (p : MultipleChoiceProblem) (task_input : gmap string pyval) (language : string) :
  MultipleChoiceProblem_init id_checker task problemid content translations = OK p ->
  py_truthy (_multiple p) = true ->
  task_input !! problemid = Some (PList []) ->
  MultipleChoiceProblem_input_is_consistent p task_input = OK true
  /\ (forall r,
        MultipleChoiceProblem_check_answer p task_input language = OK r ->
        exists msgs, r = (Some false, None, msgs, n_valid_choices content))
  /\ (gettext_ok p language ->
      exists msgs,
        MultipleChoiceProblem_check_answer p task_input language
        = OK (Some false, None, msgs, n_valid_choices content)).
Proof.
  intros Hp Hm Hin.
  destruct (n_valid_stored_init _ _ _ _ _ Hp) as (Hpos & Hn & Hid).
  rewrite <- Hid in Hin.
  assert (Hmis : mismatches [] (_choices p) = n_valid_choices content).
  { rewrite <- Hn. by apply mismatches_none_selected. }
  assert (Hz : (n_valid_choices content =? 0) = false) by (apply Z.eqb_neq; lia).
  destruct (check_answer_choice_indices p task_input language [] Hm Hin (Forall_nil_2 _))
    as [Hres Hret]. rewrite Hmis, Hz in Hres, Hret.
  split; [|by split].
  by apply (input_is_consistent_choice_indices p task_input []).
Qed.

End NothingSelected.

(** X14. Entries written with a leading blank are accepted by
    [input_is_consistent], since [int()] skips the blank, but the grading
    compares each index and its [str] form with the entries as they are:
    whatever choices such a list names, a multi-select problem grades it
    as if nothing were selected, with one error per valid choice. *)
Theorem padded_entries_select_nothing
    (p : MultipleChoiceProblem) (task_input : gmap string pyval) (language : string)
    (sel : list Choice) :
  py_truthy (_multiple p) = true ->
  Forall (fun c => c ∈ _choices p) sel ->
  task_input !! get_id (mcq_base p) = Some (PList (padded_entry <$> sel)) ->
  MultipleChoiceProblem_input_is_consistent p task_input = OK true
  /\ (forall r,
        MultipleChoiceProblem_check_answer p task_input language = OK r ->
        exists msgs, r = (Some (n_valid_stored p =? 0), None, msgs, n_valid_stored p))
  /\ (gettext_ok p language ->
      exists msgs,
        MultipleChoiceProblem_check_answer p task_input language
        = OK (Some (n_valid_stored p =? 0), None, msgs, n_valid_stored p)).
Proof.
  intros Hm Hsel Hin.
  assert (Hknown : Forall (known_entry p) (padded_entry <$> sel)).
  { apply Forall_fmap. eapply Forall_impl; [exact Hsel|].
    intros c Hc. by apply padded_entry_known. }
  assert (Hmis : mismatches (padded_entry <$> sel) (_choices p) = n_valid_stored p).
  { apply mismatches_none_selected. intros c _. apply padded_entries_not_selected. }
  split.
  { apply input_is_consistent_true. exists (PList (padded_entry <$> sel)).
    split; [done|]. rewrite Hm. by eexists. }
  unfold MultipleChoiceProblem_check_answer, check_multiple. rewrite Hm.
  rewrite (grade_choices_spec _ _ (padded_entry <$> sel)) by done. simpl.
  unfold input_item. rewrite Hin. simpl. rewrite Z.add_0_l, Hmis.
  assert (Hn : (if n_valid_stored p =? 0 then 0 else n_valid_stored p) = n_valid_stored p)
    by (destruct (Z.eqb_spec (n_valid_stored p) 0) as [E|E]; [by rewrite E|done]).
  split.
  - intros r. destruct (collect_feedback p language _ []) as [msgs|]; simpl; [|done].
    intros (msgs' & ->)%compose_answer_shape. exists msgs'. by rewrite Hn.
  - intros Hg.
    destruct (collect_feedback_known p language _ [] Hknown Hg) as [msgs ->]. simpl.
    destruct (compose_answer_OK p language (n_valid_stored p =? 0)
                (n_valid_stored p) msgs Hg) as [msgs' ->].
    exists msgs'. by rewrite Hn.
Qed.

(** ** Instances of the further properties *)

Lemma MultipleChoiceProblem_init_succeeds_iff_witness :
  sample_id_checker "q1" = true
  /\ (exists choices,
        dict_lookup "choices" spec_content = Some (PList choices)
        /\ Forall (fun c => well_formed_choice c = true) choices)
  /\ 0 < n_valid_choices spec_content
  /\ (forall limit,
        dict_lookup "limit" spec_content = Some limit ->
        py_isinstance_int limit = true /\ 0 <= int_value limit
        /\ (py_truthy (dict_get "multiple" spec_content (PBool false)) = true ->
            int_value limit = 0 \/ n_valid_choices spec_content <= int_value limit)).
Proof.
  apply (proj1 (MultipleChoiceProblem_init_succeeds_iff sample_id_checker sample_task
                  "q1" spec_content no_translations)).
  vm_compute. reflexivity.
Defined.

(** A descriptor whose second choice has no text. *)
Definition no_text_content : list (string * pyval) :=
  [("choices", PList [choice_descr "a" true; PDict [("valid", PBool true)]])].

Lemma MultipleChoiceProblem_init_errors_witness :
  MultipleChoiceProblem_init sample_id_checker sample_task "q1" no_text_content
    no_translations
  = Raise (Exception "A choice in q1 does not have text").
Proof.
  apply (proj1 (proj2 (proj2 (MultipleChoiceProblem_init_errors sample_id_checker
                                sample_task "q1" no_text_content no_translations)))
           [choice_descr "a" true] [("valid", PBool true)] []).
  - reflexivity.
  - reflexivity.
  - repeat constructor.
  - reflexivity.
Defined.

Lemma constructors_check_id_and_environment_witness :
  let e := Exception "Invalid problem _id: not an id" in
  MatchProblem_init sample_id_checker sample_repr sample_task "not an id" match_content
    no_translations = Raise e
  /\ MultipleChoiceProblem_init sample_id_checker sample_task "not an id" match_content
       no_translations = Raise e
  /\ CodeSingleLineProblem_init sample_id_checker unit sample_box_new sample_task
       "not an id" match_content no_translations = Raise e
  /\ CodeFileProblem_init sample_id_checker unit sample_box_new sample_task
       "not an id" match_content no_translations = Raise e
  /\ CodeProblem_init sample_id_checker unit sample_box_new sample_task
       "not an id" match_content no_translations = Raise e.
Proof.
  apply (proj1 (constructors_check_id_and_environment sample_id_checker unit
                  sample_box_new sample_repr sample_task "not an id" match_content
                  no_translations)).
  reflexivity.
Defined.

Example code_problem_without_environment :
  CodeFileProblem_init sample_id_checker unit sample_box_new
    {| get_environment := None |} "q1" [] no_translations
  = Raise (Exception
      "Environment undefined, but there is a problem with type=code or type=code-single-line").
Proof. vm_compute. reflexivity. Qed.

(** An answer of 4301 digits. *)
Definition long_answer_content : list (string * pyval) :=
  [("answer", PInt (10 ^ 4300))].

Lemma MatchProblem_init_answer_witness :
  MatchProblem_init sample_id_checker sample_repr sample_task "q1" long_answer_content
    no_translations
  = Raise ValueError.
Proof.
  apply (proj1 (proj2 (proj2 (proj2
           (MatchProblem_init_answer sample_id_checker sample_repr sample_task
              "q1" long_answer_content no_translations)))) (10 ^ 4300)).
  - reflexivity.
  - reflexivity.
  - unfold int_max_str_digits. rewrite Z.abs_eq; [reflexivity|].
    apply Z.pow_nonneg. lia.
Defined.

Example match_problem_answer :
  get_id (match_base match_problem) = "q1"
  /\ py_str sample_repr (PInt 42) = OK (_answer match_problem).
Proof. split; reflexivity. Qed.

Lemma MatchProblem_answerable_witness :
  MatchProblem_check_answer match_problem (submit (PStr "  42 ")) "en"
  = OK (Some true, None, Some [PStr "_correct_answer"], 0).
Proof.
  apply (proj2 (MatchProblem_answerable match_problem) (submit (PStr "  42 ")) "en"
           "  " " ");
    reflexivity.
Defined.

(** A stored answer with a trailing blank is never matched. *)
Example padded_answer_is_never_matched :
  MatchProblem_check_answer
    {| match_base := match_base match_problem; _answer := "42 " |}
    (submit (PStr "42 ")) "en"
  = OK (Some false, None, Some [PStr "_wrong_answer"], 0).
Proof. vm_compute. reflexivity. Qed.

(** Boxes that answer their own value, or raise. *)
Definition sample_box_check (box : option bool) (task_input : gmap string pyval)
    (default_allowed_extension default_max_size : pyval) : result bool :=
  match box with
  | Some b => OK b
  | None => Raise TypeError
  end.

Definition three_boxes : BasicCodeProblem (option bool) :=
  {| code_base := match_base match_problem; _boxes := [Some true; Some false; None] |}.

Lemma BasicCodeProblem_input_is_consistent_all_witness :
  BasicCodeProblem_input_is_consistent (option bool) sample_box_check three_boxes
    (submit PNone) PNone PNone
  = OK false.
Proof.
  apply (proj1 (proj2 (BasicCodeProblem_input_is_consistent_all (option bool)
                         sample_box_check three_boxes (submit PNone) PNone PNone))
           [Some true] (Some false) [None]).
  - reflexivity.
  - repeat constructor.
  - reflexivity.
Defined.

Definition file_content : list (string * pyval) :=
  [("max_size", PInt 1024); ("allowed_exts", PList [PStr ".py"])].

Definition file_problem : BasicCodeProblem unit :=
  {| code_base :=
       {| _translations := no_translations; _id := "q1"; _task := sample_task;
          _name := PStr ""; _header := PStr ""; _original_content := file_content |};
     _boxes := [tt] |}.

Example file_problem_init :
  CodeFileProblem_init sample_id_checker unit sample_box_new sample_task "q1"
    file_content no_translations = OK file_problem.
Proof. vm_compute. reflexivity. Qed.

Lemma code_problem_boxes_witness :
  exists box,
    _boxes unit file_problem = [box]
    /\ sample_box_new FileBox "q1" sample_task ""
         (PDict [("type", PStr "file");
                 ("max_size", dict_get "max_size" file_content PNone);
                 ("allowed_exts", dict_get "allowed_exts" file_content PNone)])
       = OK box.
Proof.
  apply (proj1 (proj2 (code_problem_boxes sample_id_checker unit sample_box_new
                         sample_task "q1" file_content no_translations))).
  exact file_problem_init.
Defined.

Lemma stored_limit_invariant_witness :
  py_isinstance_int (_limit limit2_problem) = true
  /\ 0 <= int_value (_limit limit2_problem)
  /\ (py_truthy (_multiple limit2_problem) = true ->
      int_value (_limit limit2_problem) = 0
      \/ n_valid_stored limit2_problem <= int_value (_limit limit2_problem))
  /\ (dict_lookup "limit" (with_limit (PInt 2) true) = None ->
      _limit limit2_problem = PInt 0)
  /\ 0 < n_valid_stored limit2_problem
  /\ n_valid_stored limit2_problem = n_valid_choices (with_limit (PInt 2) true).
Proof.
  apply (stored_limit_invariant sample_id_checker sample_task "q1"
           (with_limit (PInt 2) true) no_translations).
  exact limit2_problem_init.
Defined.

Lemma empty_selection_is_wrong_witness :
  MultipleChoiceProblem_input_is_consistent spec_problem (submit (PList [])) = OK true
  /\ (forall r,
        MultipleChoiceProblem_check_answer spec_problem (submit (PList [])) "en" = OK r ->
        exists msgs, r = (Some false, None, msgs, n_valid_choices spec_content))
  /\ (gettext_ok spec_problem "en" ->
      exists msgs,
        MultipleChoiceProblem_check_answer spec_problem (submit (PList [])) "en"
        = OK (Some false, None, msgs, n_valid_choices spec_content)).
Proof.
  apply (empty_selection_is_wrong sample_id_checker sample_task "q1" spec_content
           no_translations).
  - exact spec_problem_init.
  - reflexivity.
  - reflexivity.
Defined.

Example empty_selection_count :
  MultipleChoiceProblem_check_answer spec_problem (submit (PList [])) "en"
  = OK (Some false, None, Some [PStr "_wrong_answer_multiple"], 2).
Proof. vm_compute. reflexivity. Qed.

Definition choice_a : Choice :=
  {| index := 0; text := PStr "a"; feedback := PNone; valid := true |}.

Lemma padded_entries_select_nothing_witness :
  MultipleChoiceProblem_input_is_consistent spec_problem
    (submit (PList [PStr " 0"])) = OK true
  /\ (forall r,
        MultipleChoiceProblem_check_answer spec_problem (submit (PList [PStr " 0"])) "en"
        = OK r ->
        exists msgs, r = (Some (n_valid_stored spec_problem =? 0), None, msgs,
                          n_valid_stored spec_problem))
  /\ (gettext_ok spec_problem "en" ->
      exists msgs,
        MultipleChoiceProblem_check_answer spec_problem (submit (PList [PStr " 0"])) "en"
        = OK (Some (n_valid_stored spec_problem =? 0), None, msgs,
              n_valid_stored spec_problem)).
Proof.
  apply (padded_entries_select_nothing spec_problem (submit (PList [PStr " 0"])) "en"
           [choice_a]).
  - reflexivity.
  - constructor; [by left|constructor].
  - reflexivity.
Defined.

Example padded_entry_is_not_selected :
  MultipleChoiceProblem_check_answer spec_problem
    (submit (PList [PStr " 0"; PStr " 1"])) "en"
  = OK (Some false, None, Some [PStr "_wrong_answer_multiple"], 2).
Proof. vm_compute. reflexivity. Qed.

(** ** Localisation of the texts *)

(** [BasicProblem.get_name] and [get_header]: the text is localised unless
    it is empty. A [language] of [None] is a language without catalog. *)
Definition get_name (b : BasicProblem) (language : string) : result pyval :=
  if py_truthy (_name b) then gettext b language (_name b) else OK (PStr "").

Definition get_header (b : BasicProblem) (language : string) : result pyval :=
  if py_truthy (_header b) then gettext b language (_header b) else OK (PStr "").

(** A value that may be looked up in a catalog. *)
Definition hashable (v : pyval) : bool :=
  match v with
  | PList _ | PDict _ => false
  | _ => true
  end.

(** The catalog entry for a string in a language, or the string itself. *)
Definition translated (trs : gmap string (gmap string string)) (language s : string)
    : string :=
  match trs !! language with
  | Some cat => default s (cat !! s)
  | None => s
  end.

Lemma gettext_hashable b language trs m :
  _translations b = Some trs -> hashable m = true ->
  exists m', gettext b language m = OK m'.
Proof.
  intros Htr Hm. unfold gettext. rewrite Htr.
  destruct (trs !! language); [|by eexists].
  destruct m; simpl in *; try done; by eexists.
Qed.

Lemma gettext_str b language trs s :
  _translations b = Some trs ->
  gettext b language (PStr s) = OK (PStr (translated trs language s)).
Proof.
  intros Htr. unfold gettext, translated. rewrite Htr. by destruct (trs !! language).
Qed.

(** X15. When a translations dict was passed to the constructor and the
    problem's messages and feedback texts are hashable values (strings,
    [None], numbers), no localisation call of the grading raises; a string
    is localised to the catalog entry of the language, or to itself when
    the language has no catalog or the catalog no entry. Without a
    translations dict every localisation call raises [AttributeError]. *)
Theorem texts_are_localised (p : MultipleChoiceProblem) (language : string) :
  (forall trs,
      _translations (mcq_base p) = Some trs ->
      Forall (fun m => hashable m = true) (texts p) ->
      gettext_ok p language
      /\ forall s, PStr s ∈ texts p ->
           gettext (mcq_base p) language (PStr s)
           = OK (PStr (translated trs language s)))
  /\ (forall trs,
        _translations (mcq_base p) = Some trs -> trs !! language = None ->
        gettext_ok p language)
  /\ (_translations (mcq_base p) = None ->
      forall m, gettext (mcq_base p) language m = Raise AttributeError).
Proof.
  split; [|split].
  - intros trs Htr Hall. split.
    + intros m Hm _. rewrite Forall_forall in Hall.
      by apply (gettext_hashable _ _ trs); [|apply Hall].
    + intros s _. by apply gettext_str.
  - intros trs Htr Hlang m _ _. exists m. unfold gettext. by rewrite Htr, Hlang.
  - intros Htr m. unfold gettext. by rewrite Htr.
Qed.

Section Names.

Set Default Proof Using "Type".

Variable id_checker : string -> bool.

(** X16. The name of a constructed problem: the empty string when the
    descriptor has no [name] or an empty one, whatever the translations
    (none is consulted); for a non-empty [name], its localisation when a
    translations dict was passed, and [AttributeError] when none was. The
    header behaves alike. *)
Theorem get_name_of_constructed
    (task : Task) (problemid : string) (content : list (string * pyval))
    (translations : option (gmap string (gmap string string)))
    (b : BasicProblem) (language : string) :
  BasicProblem_init id_checker task problemid content translations = OK b ->
  (py_truthy (dict_get "name" content (PStr "")) = false ->
   get_name b language = OK (PStr ""))
  /\ (py_truthy (dict_get "header" content (PStr "")) = false ->
      get_header b language = OK (PStr ""))
  /\ (forall s trs,
        dict_lookup "name" content = Some (PStr s) -> s <> "" ->
        translations = Some trs ->
        get_name b language = OK (PStr (translated trs language s)))
  /\ (forall s trs,
        dict_lookup "header" content = Some (PStr s) -> s <> "" ->
        translations = Some trs ->
        get_header b language = OK (PStr (translated trs language s)))
  /\ (forall s,
        dict_lookup "name" content = Some (PStr s) -> s <> "" ->
        translations = None ->
        get_name b language = Raise AttributeError).
Proof.
  unfold BasicProblem_init. destruct (id_checker problemid); simpl; [|done].
  intros [= <-]. unfold get_name, get_header, dict_has, dict_get. simpl.
  split; [|split; [|split; [|split]]].
  - destruct (dict_lookup "name" content); simpl; [|done]. by intros ->.
  - destruct (dict_lookup "header" content); simpl; [|done]. by intros ->.
  - intros s trs -> Hs ->. simpl.
    rewrite (proj2 (String.eqb_neq s "") Hs). simpl. by apply gettext_str.
  - intros s trs -> Hs ->. simpl.
    rewrite (proj2 (String.eqb_neq s "") Hs). simpl. by apply gettext_str.
  - intros s -> Hs ->. simpl. by rewrite (proj2 (String.eqb_neq s "") Hs).
Qed.

End Names.

Definition french : gmap string (gmap string string) :=
  {["fr" := {["c is wrong" := "c est faux"]}]}.

Definition french_problem : MultipleChoiceProblem :=
  mcq_of sample_task "q1" spec_content (Some french) spec_choices (PInt 0).

Example french_feedback :
  MultipleChoiceProblem_check_answer french_problem (submit (PList [PInt 0; PInt 2])) "fr"
  = OK (Some false, None, Some [PStr "_wrong_answer_multiple"; PStr "c est faux"], 2).
Proof. vm_compute. reflexivity. Qed.

Lemma texts_are_localised_witness :
  gettext_ok french_problem "fr"
  /\ forall s, PStr s ∈ texts french_problem ->
       gettext (mcq_base french_problem) "fr" (PStr s)
       = OK (PStr (translated french "fr" s)).
Proof.
  apply (proj1 (texts_are_localised french_problem "fr") french).
  - reflexivity.
  - repeat constructor.
Defined.

Definition named_content : list (string * pyval) :=
  [("name", PStr "Question"); ("header", PStr ""); ("answer", PStr "x")].

Lemma get_name_of_constructed_witness :
  get_name (match_base match_problem) "en" = OK (PStr "")
  /\ get_header
       {| _translations := Some french; _id := "q1"; _task := sample_task;
          _name := PStr "Question"; _header := PStr "";
          _original_content := named_content |} "fr" = OK (PStr "").
Proof.
  split.
  - apply (proj1 (get_name_of_constructed sample_id_checker sample_task "q1"
                    match_content no_translations (match_base match_problem) "en"
                    eq_refl)).
    reflexivity.
  - apply (proj1 (proj2 (get_name_of_constructed sample_id_checker sample_task "q1"
                           named_content (Some french) _ "fr" eq_refl))).
    reflexivity.
Defined.

(** * The submission API: inputs expected as arrays *)

(** [d[k] = v] on a dict: the value of an existing key is replaced in
    place, a new key is added at the end. *)
Fixpoint dict_set (k : string) (v : pyval) (d : list (string * pyval))
    : list (string * pyval) :=
  match d with
  | [] => [(k, v)]
  | (k', v') :: d' =>
      if String.eqb k k' then (k, v) :: d' else (k', v') :: dict_set k v d'
  end.

Lemma dict_lookup_set_eq k v d : dict_lookup k (dict_set k v d) = Some v.
Proof.
  induction d as [|[k' v'] d IH]; simpl; [by rewrite String.eqb_refl|].
  destruct (String.eqb k k') eqn:E; simpl; [by rewrite String.eqb_refl|].
  by rewrite E.
Qed.

Lemma dict_lookup_set_ne k k' v d :
  k <> k' -> dict_lookup k (dict_set k' v d) = dict_lookup k d.
Proof.
  intros Hne. induction d as [|[k'' v''] d IH]; simpl.
  - by rewrite (proj2 (String.eqb_neq k k') Hne).
  - destruct (String.eqb k' k'') eqn:E; simpl.
    + apply String.eqb_eq in E as <-. by rewrite (proj2 (String.eqb_neq k k') Hne).
    + by rewrite IH.
Qed.

(** The problems of a task, by class; the three code variants are
    instances of [BasicCodeProblem]. *)
Inductive Problem (Box : Type) : Type :=
| AMatchProblem (p : MatchProblem)
| AMultipleChoiceProblem (p : MultipleChoiceProblem)
| ACodeProblem (p : BasicCodeProblem Box).
Arguments AMatchProblem {Box} p.
Arguments AMultipleChoiceProblem {Box} p.
Arguments ACodeProblem {Box} p.

Section ArrayInputs.

Set Default Proof Using "Type".

(** Of the box classes: [isinstance(box, FileBox)] and
    [box.get_complete_id()]. *)
Variable Box : Type.
Variable box_is_file : Box -> bool.
Variable get_complete_id : Box -> string.

(** The loop over [problem.get_boxes()]. *)
Fixpoint file_boxes_loop (boxes : list Box) (output : list (string * pyval))
    : list (string * pyval) :=
  match boxes with
  | [] => output
  | box :: rest =>
      file_boxes_loop rest
        (if box_is_file box then dict_set (get_complete_id box) (PDict []) output
         else output)
  end.

(** The loop over [task.get_problems()]. *)
Fixpoint array_inputs_loop (problems : list (Problem Box)) (output : list (string * pyval))
    : list (string * pyval) :=
  match problems with
  | [] => output
  | problem :: rest =>
      array_inputs_loop rest
        match problem with
        | AMultipleChoiceProblem p =>
            if py_truthy (allow_multiple p)
            then dict_set (get_id (mcq_base p)) (PList []) output
            else output
        | ACodeProblem p => file_boxes_loop (_boxes Box p) output
        | AMatchProblem _ => output
        end
  end.

(** [APISubmissions.list_multiple_multiple_choices_and_files] *)
Definition list_multiple_multiple_choices_and_files (problems : list (Problem Box))
    : list (string * pyval) :=
  array_inputs_loop problems [].

(** [k] is the id of a multi-select problem of the list. *)
Definition multiple_choice_id (problems : list (Problem Box)) (k : string) : Prop :=
  exists p, AMultipleChoiceProblem p ∈ problems
            /\ py_truthy (allow_multiple p) = true /\ get_id (mcq_base p) = k.

(** [k] is the complete id of a file box of a code problem of the list. *)
Definition file_box_id (problems : list (Problem Box)) (k : string) : Prop :=
  exists p box, ACodeProblem p ∈ problems /\ box ∈ _boxes Box p
                /\ box_is_file box = true /\ get_complete_id box = k.

Definition empty_default (v : pyval) : Prop := v = PList [] \/ v = PDict [].

Lemma file_boxes_loop_spec boxes : forall output k,
  (dict_has k (file_boxes_loop boxes output) = true
   <-> dict_has k output = true
       \/ exists box, box ∈ boxes /\ box_is_file box = true /\ get_complete_id box = k)
  /\ ((forall k' v, dict_lookup k' output = Some v -> empty_default v) ->
      forall v, dict_lookup k (file_boxes_loop boxes output) = Some v -> empty_default v)
  /\ ((forall box, box ∈ boxes -> box_is_file box = true -> get_complete_id box <> k) ->
      dict_lookup k (file_boxes_loop boxes output) = dict_lookup k output).
Proof.
  induction boxes as [|box rest IH]; intros output k; simpl.
  - split; [|split]; [|by eauto|done].
    split; [by left|]. intros [?|(b & Hb & _)]; [done|]. by apply elem_of_nil in Hb.
  - destruct (IH (if box_is_file box
                  then dict_set (get_complete_id box) (PDict []) output else output) k)
      as (IH1 & IH2 & IH3).
    split; [|split].
    + rewrite IH1. unfold dict_has. destruct (box_is_file box) eqn:Hf.
      * destruct (String.eqb_spec k (get_complete_id box)) as [->|Hne].
        -- rewrite dict_lookup_set_eq. split; [|by left]. intros _. right.
           exists box. split; [left|done].
        -- rewrite dict_lookup_set_ne by done. split.
           ++ intros [?|(b & Hb & ?)]; [by left|]. right. exists b. split; [by right|done].
           ++ intros [?|(b & Hb & Hbf & Hbk)]; [by left|].
              apply elem_of_cons in Hb as [->|Hb]; [by destruct Hne|].
              right. by exists b.
      * split.
        -- intros [?|(b & Hb & ?)]; [by left|]. right. exists b. split; [by right|done].
        -- intros [?|(b & Hb & Hbf & Hbk)]; [by left|].
           apply elem_of_cons in Hb as [->|Hb]; [congruence|].
           right. by exists b.
    + intros Hout. apply IH2. intros k' v. destruct (box_is_file box); [|apply Hout].
      destruct (String.eqb_spec k' (get_complete_id box)) as [->|Hne].
      * rewrite dict_lookup_set_eq. intros [= <-]. by right.
      * rewrite dict_lookup_set_ne by done. apply Hout.
    + intros Hno. rewrite IH3 by (intros b Hb; apply Hno; by right).
      destruct (box_is_file box) eqn:Hf; [|done].
      apply dict_lookup_set_ne. intros ->. by apply (Hno box); [left|..].
Qed.

Lemma array_inputs_loop_spec problems : forall output k,
  (dict_has k (array_inputs_loop problems output) = true
   <-> dict_has k output = true \/ multiple_choice_id problems k \/ file_box_id problems k)
  /\ ((forall k' v, dict_lookup k' output = Some v -> empty_default v) ->
      forall v, dict_lookup k (array_inputs_loop problems output) = Some v ->
                empty_default v)
  /\ (dict_lookup k output = Some (PList []) ->
      ~ file_box_id problems k ->
      dict_lookup k (array_inputs_loop problems output) = Some (PList [])).
Proof.
  induction problems as [|problem rest IH]; intros output k; simpl.
  - split; [|split]; [|by eauto|done].
    split; [by left|].
    intros [?|[(p & Hp & _)|(p & b & Hp & _)]]; [done|..]; by apply elem_of_nil in Hp.
  - set (output' := match problem with
                    | AMultipleChoiceProblem p =>
                        if py_truthy (allow_multiple p)
                        then dict_set (get_id (mcq_base p)) (PList []) output
                        else output
                    | ACodeProblem p => file_boxes_loop (_boxes Box p) output
                    | AMatchProblem _ => output
                    end).
    destruct (IH output' k) as (IH1 & IH2 & IH3).
    assert (Hmc : multiple_choice_id (problem :: rest) k
                  <-> (exists p, problem = AMultipleChoiceProblem p
                                 /\ py_truthy (allow_multiple p) = true
                                 /\ get_id (mcq_base p) = k)
                      \/ multiple_choice_id rest k).
    { unfold multiple_choice_id. split.
      - intros (p & [<-|Hp]%elem_of_cons & ?); [left|right]; by exists p.
      - intros [(p & -> & ?)|(p & Hp & ?)]; exists p; (split; [|done]);
          [left|by right]. }
    assert (Hfb : file_box_id (problem :: rest) k
                  <-> (exists p box, problem = ACodeProblem p /\ box ∈ _boxes Box p
                                     /\ box_is_file box = true /\ get_complete_id box = k)
                      \/ file_box_id rest k).
    { unfold file_box_id. split.
      - intros (p & b & [<-|Hp]%elem_of_cons & ?); [left|right]; by exists p, b.
      - intros [(p & b & -> & ?)|(p & b & Hp & ?)]; exists p, b; (split; [|done]);
          [left|by right]. }
    split; [|split].
    + rewrite IH1, Hmc, Hfb. unfold output'. destruct problem as [p|p|p].
      * split.
        -- intros [?|[?|?]]; auto.
        -- intros [?|[[(q & ? & _)|?]|[(q & b & ? & _)|?]]]; auto; done.
      * destruct (py_truthy (allow_multiple p)) eqn:Hm.
        -- unfold dict_has.
           destruct (String.eqb_spec k (get_id (mcq_base p))) as [->|Hne].
           ++ rewrite dict_lookup_set_eq. split; [|by left]. intros _.
              right. left. left. by exists p.
           ++ rewrite dict_lookup_set_ne by done. split.
              ** intros [?|[?|?]]; auto.
              ** intros [?|[[(q & [= <-] & _ & Hq)|?]|[(q & b & ? & _)|?]]];
                   auto; done.
        -- split.
           ++ intros [?|[?|?]]; auto.
           ++ intros [?|[[(q & [= <-] & Hq & _)|?]|[(q & b & ? & _)|?]]];
                auto; [congruence|done].
      * rewrite (proj1 (file_boxes_loop_spec (_boxes Box p) output k)). split.
        -- intros [[?|(b & Hb & ?)]|[?|?]]; auto.
           right. right. left. by exists p, b.
        -- intros [?|[[(q & ? & _)|?]|[(q & b & [= <-] & ?)|?]]]; auto; [done|].
           left. right. by exists b.
    + intros Hout. apply IH2. intros k' v. unfold output'.
      destruct problem as [p|p|p]; [apply Hout| |].
      * destruct (py_truthy (allow_multiple p)); [|apply Hout].
        destruct (String.eqb_spec k' (get_id (mcq_base p))) as [->|Hne].
        -- rewrite dict_lookup_set_eq. intros [= <-]. by left.
        -- rewrite dict_lookup_set_ne by done. apply Hout.
      * by apply (file_boxes_loop_spec (_boxes Box p) output k').
    + intros Hk Hno. apply IH3; [|intros H; apply Hno, Hfb; by right].
      unfold output'. destruct problem as [p|p|p]; [done| |].
      * destruct (py_truthy (allow_multiple p)); [|done].
        destruct (String.eqb_spec k (get_id (mcq_base p))) as [->|Hne].
        -- apply dict_lookup_set_eq.
        -- by rewrite dict_lookup_set_ne.
      * rewrite (proj2 (proj2 (file_boxes_loop_spec (_boxes Box p) output k))); [done|].
        intros b Hb Hf E. apply Hno, Hfb. left. by exists p, b.
Qed.

(** X17. The keys of the dict that
    [list_multiple_multiple_choices_and_files] builds are the ids of the
    multi-select problems of the task and the complete ids of the file
    boxes of its code problems, and nothing else: a match problem or a
    single-select problem adds no key. Every value is an empty list or an
    empty dict, and the id of a multi-select problem that is not the id of
    a file box maps to the empty list. *)
Theorem array_inputs_keys (problems : list (Problem Box)) (k : string) :
  (dict_has k (list_multiple_multiple_choices_and_files problems) = true
   <-> multiple_choice_id problems k \/ file_box_id problems k)
  /\ (forall v,
        dict_lookup k (list_multiple_multiple_choices_and_files problems) = Some v ->
        v = PList [] \/ v = PDict [])
  /\ (multiple_choice_id problems k -> ~ file_box_id problems k ->
      dict_lookup k (list_multiple_multiple_choices_and_files problems)
      = Some (PList [])).
Proof.
  unfold list_multiple_multiple_choices_and_files.
  destruct (array_inputs_loop_spec problems [] k) as (H1 & H2 & _).
  split; [|split].
  - rewrite H1. split; [|by right]. by intros [?|?].
  - apply H2. by intros k' v.
  - intros (p & Hp & Hm & Hid) Hno.
    apply list_elem_of_split in Hp as (before & after & ->).
    revert Hno. generalize (@nil (string * pyval)). clear H1 H2.
    induction before as [|q before IH]; intros output Hno.
    + simpl. rewrite Hm.
      apply (proj2 (proj2 (array_inputs_loop_spec after _ k))).
      * rewrite <- Hid. apply dict_lookup_set_eq.
      * intros (p' & b & Hp' & ?). apply Hno. exists p', b. split; [by right|done].
    + simpl. apply IH. intros (p' & b & Hp' & ?). apply Hno. exists p', b.
      split; [by right|done].
Qed.

End ArrayInputs.

(** * The course list page *)

Section CourseList.

Set Default Proof Using "Type".

(** Of [inginious.frontend.courses]: the course class, its constructor
    (for the page's task factory and plugin manager) applied to the [_id]
    of a database document and to the document, and its two methods read
    here. *)
Variable Course : Type.
Variable WebAppCourse : string -> pyval -> Course.
Variable is_open_to_non_staff : Course -> bool.
Variable course_name : Course -> string -> string.

(** [d[k] = v] on a dict of courses. *)
Fixpoint courses_set (k : string) (v : Course) (d : list (string * Course))
    : list (string * Course) :=
  match d with
  | [] => [(k, v)]
  | (k', v') :: d' =>
      if String.eqb k k' then (k, v) :: d' else (k', v') :: courses_set k v d'
  end.

(** A dict built from items in order: a comprehension, [OrderedDict(items)]. *)
Definition courses_of_items (items : list (string * Course)) : list (string * Course) :=
  fold_left (fun d kv => courses_set (fst kv) (snd kv) d) items [].

(** [sorted(items, key=...)]: a stable sort on the names. *)
Fixpoint insert_by_name (language : string) (x : string * Course)
    (l : list (string * Course)) : list (string * Course) :=
  match l with
  | [] => [x]
  | y :: l' =>
      if String.leb (course_name (snd x) language) (course_name (snd y) language)
      then x :: l
      else y :: insert_by_name language x l'
  end.

Fixpoint sorted_by_name (language : string) (items : list (string * Course))
    : list (string * Course) :=
  match items with
  | [] => []
  | x :: rest => insert_by_name language x (sorted_by_name language rest)
  end.

(** The dict of every course of the database, by id. A database document
    is given by its [_id] and the document. *)
Definition all_courses (docs : list (string * pyval)) : list (string * Course) :=
  courses_of_items (map (fun doc => (fst doc, WebAppCourse (fst doc) (snd doc))) docs).

(** [CourseListPage.show_page]: the courses handed to the renderer. *)
Definition show_page_courses (docs : list (string * pyval)) (language : string)
    : list (string * Course) :=
  let open_courses :=
    courses_of_items
      (List.filter (fun kc => is_open_to_non_staff (snd kc)) (all_courses docs)) in
  courses_of_items (sorted_by_name language open_courses).

Definition name_le (language : string) (a b : string * Course) : Prop :=
  String.leb (course_name (snd a) language) (course_name (snd b) language) = true.

Lemma courses_set_keys k v d k' :
  k' ∈ (courses_set k v d).*1 <-> k' = k \/ k' ∈ d.*1.
Proof.
  induction d as [|[k0 v0] d IH]; simpl.
  - by rewrite elem_of_cons.
  - destruct (String.eqb_spec k k0) as [->|Hne]; simpl; rewrite !elem_of_cons.
    + split; intros [?|?]; auto.
    + rewrite IH. split; [intros [?|[?|?]]|intros [?|[?|?]]]; auto.
Qed.

Lemma courses_set_NoDup k v d : NoDup d.*1 -> NoDup (courses_set k v d).*1.
Proof.
  induction d as [|[k0 v0] d IH]; simpl; intros Hnd.
  - apply NoDup_singleton.
  - apply NoDup_cons in Hnd as [Hk0 Hnd].
    destruct (String.eqb_spec k k0) as [->|Hne]; simpl.
    + by apply NoDup_cons.
    + apply NoDup_cons. split; [|by apply IH].
      rewrite courses_set_keys. intros [?|?]; [by destruct Hne|done].
Qed.

Lemma courses_set_new k v d : k ∉ d.*1 -> courses_set k v d = d ++ [(k, v)].
Proof.
  induction d as [|[k0 v0] d IH]; simpl; intros Hk; [done|].
  apply not_elem_of_cons in Hk as [Hne Hk].
  destruct (String.eqb_spec k k0) as [?|_]; [done|]. by rewrite IH.
Qed.

Lemma courses_set_elem k v d x :
  x ∈ courses_set k v d -> x = (k, v) \/ x ∈ d.
Proof.
  induction d as [|[k0 v0] d IH]; simpl.
  - intros ->%list_elem_of_singleton. by left.
  - destruct (String.eqb k k0).
    + intros [->|?]%elem_of_cons; [by left|]. right. by right.
    + intros [->|[?|?]%IH]%elem_of_cons; [right; left|by left|right; by right].
Qed.

Lemma fold_courses_set_NoDup items : forall d,
  NoDup d.*1 ->
  NoDup (fold_left (fun d kv => courses_set (fst kv) (snd kv) d) items d).*1.
Proof.
  induction items as [|[k v] items IH]; intros d Hd; simpl; [done|].
  by apply IH, courses_set_NoDup.
Qed.

Lemma fold_courses_set_keys items : forall d k,
  k ∈ (fold_left (fun d kv => courses_set (fst kv) (snd kv) d) items d).*1
  <-> k ∈ d.*1 \/ k ∈ items.*1.
Proof.
  induction items as [|[k0 v0] items IH]; intros d k; simpl.
  - rewrite elem_of_nil. split; [by left|by intros [?|[]]].
  - rewrite IH, courses_set_keys, elem_of_cons.
    split; [intros [[?|?]|?]|intros [?|[?|?]]]; auto.
Qed.

Lemma fold_courses_set_elem items : forall d x,
  x ∈ fold_left (fun d kv => courses_set (fst kv) (snd kv) d) items d ->
  x ∈ d \/ x ∈ items.
Proof.
  induction items as [|[k0 v0] items IH]; intros d x; simpl; [by left|].
  intros [[->|?]%courses_set_elem|?]%IH; [right; left|by left|right; by right].
Qed.

Lemma fold_courses_set_distinct items : forall d,
  NoDup (d.*1 ++ items.*1) ->
  fold_left (fun d kv => courses_set (fst kv) (snd kv) d) items d = d ++ items.
Proof.
  induction items as [|[k v] items IH]; intros d Hnd; simpl.
  - by rewrite app_nil_r.
  - simpl in Hnd.
    assert (Hk : k ∉ d.*1).
    { apply NoDup_app in Hnd as (_ & Hdis & _). intros Hk. apply (Hdis k Hk). left. }
    rewrite courses_set_new by done. rewrite IH.
    + by rewrite <- app_assoc.
    + rewrite fmap_app. simpl. rewrite <- app_assoc. exact Hnd.
Qed.

Lemma courses_of_items_distinct items :
  NoDup items.*1 -> courses_of_items items = items.
Proof. intros Hnd. unfold courses_of_items. by rewrite fold_courses_set_distinct. Qed.

Lemma insert_by_name_Permutation language x l : insert_by_name language x l ≡ₚ x :: l.
Proof.
  induction l as [|y l IH]; simpl; [done|].
  destruct (String.leb _ _); [done|]. rewrite IH. apply Permutation_swap.
Qed.

Lemma sorted_by_name_Permutation language l : sorted_by_name language l ≡ₚ l.
Proof.
  induction l as [|x l IH]; simpl; [done|].
  by rewrite insert_by_name_Permutation, IH.
Qed.

Lemma insert_by_name_Sorted language x l :
  Sorted (name_le language) l -> Sorted (name_le language) (insert_by_name language x l).
Proof.
  induction 1 as [|y l Hl IH Hy]; simpl; [by repeat constructor|].
  destruct (String.leb (course_name (snd x) language) (course_name (snd y) language))
    eqn:E.
  - repeat constructor; done.
  - constructor; [done|].
    assert (Hyx : name_le language y x).
    { unfold name_le. destruct (String.leb_total (course_name (snd x) language)
                                  (course_name (snd y) language)); congruence. }
    destruct Hy as [|z l Hz]; simpl; [by repeat constructor|].
    destruct (String.leb (course_name (snd x) language) (course_name (snd z) language));
      by constructor.
Qed.

Lemma sorted_by_name_Sorted language l :
  Sorted (name_le language) (sorted_by_name language l).
Proof.
  induction l as [|x l IH]; simpl; [constructor|]. by apply insert_by_name_Sorted.
Qed.

(** X18. The courses [show_page] hands to the renderer are the open courses
    of the database and no other, one entry per course id, ordered by
    their name in the session's language. Each is the course built from a
    database document with that id. *)
Theorem show_page_courses_sorted_open (docs : list (string * pyval)) (language : string) :
  Sorted (name_le language) (show_page_courses docs language)
  /\ NoDup (show_page_courses docs language).*1
  /\ show_page_courses docs language
     ≡ₚ List.filter (fun kc => is_open_to_non_staff (snd kc)) (all_courses docs)
  /\ (forall cid c,
        (cid, c) ∈ show_page_courses docs language
        <-> (cid, c) ∈ all_courses docs /\ is_open_to_non_staff c = true)
  /\ (forall cid, cid ∈ (all_courses docs).*1 <-> cid ∈ docs.*1)
  /\ (forall cid c,
        (cid, c) ∈ all_courses docs ->
        exists doc, (cid, doc) ∈ docs /\ c = WebAppCourse cid doc).
Proof.
  unfold show_page_courses.
  set (opened := List.filter (fun kc => is_open_to_non_staff (snd kc)) (all_courses docs)).
  assert (Hall : NoDup (all_courses docs).*1).
  { unfold all_courses, courses_of_items. apply fold_courses_set_NoDup. constructor. }
  assert (Hopen : NoDup opened.*1).
  { unfold opened. clear -Hall. induction (all_courses docs) as [|[k c] l IH]; simpl;
      [constructor|].
    simpl in Hall. apply NoDup_cons in Hall as [Hk Hl].
    destruct (is_open_to_non_staff c); simpl; [|by apply IH].
    apply NoDup_cons. split; [|by apply IH].
    intros Hin. apply Hk. apply list_elem_of_fmap in Hin as ([k' c'] & -> & Hin).
    apply list_elem_of_In, filter_In in Hin as [Hin _].
    apply list_elem_of_fmap. exists (k', c'). split; [done|]. by apply list_elem_of_In. }
  rewrite (courses_of_items_distinct opened Hopen).
  assert (Hsorted : NoDup (sorted_by_name language opened).*1).
  { by rewrite sorted_by_name_Permutation. }
  rewrite (courses_of_items_distinct _ Hsorted).
  split; [apply sorted_by_name_Sorted|]. split; [done|].
  split; [apply sorted_by_name_Permutation|]. split; [|split].
  - intros cid c. rewrite sorted_by_name_Permutation. unfold opened.
    rewrite list_elem_of_In, filter_In, <- list_elem_of_In. done.
  - intros cid. unfold all_courses, courses_of_items.
    rewrite fold_courses_set_keys. simpl. rewrite elem_of_nil.
    rewrite <- list_fmap_compose.
    split; [intros [[]|?]|intros ?; right]; done.
  - intros cid c Hin. unfold all_courses, courses_of_items in Hin.
    apply fold_courses_set_elem in Hin as [[]%elem_of_nil|Hin].
    apply list_elem_of_fmap in Hin as ([k doc] & [= -> ->] & Hin).
    by exists doc.
Qed.

End CourseList.

(** A task with a multi-select problem, a match problem, a file problem
    and a single-select problem; every box is a file box. *)
Definition sample_problems : list (Problem unit) :=
  [AMultipleChoiceProblem spec_problem; AMatchProblem match_problem;
   ACodeProblem file_problem; AMultipleChoiceProblem single_problem].

Definition sample_is_file (box : unit) : bool := true.
Definition sample_complete_id (box : unit) : string := "q1/file".

Example sample_problems_array_inputs :
  list_multiple_multiple_choices_and_files unit sample_is_file sample_complete_id
    sample_problems
  = [("q1", PList []); ("q1/file", PDict [])].
Proof. vm_compute. reflexivity. Qed.

Lemma array_inputs_keys_witness :
  dict_lookup "q1"
    (list_multiple_multiple_choices_and_files unit sample_is_file sample_complete_id
       sample_problems)
  = Some (PList []).
Proof.
  apply (proj2 (proj2 (array_inputs_keys unit sample_is_file sample_complete_id
                         sample_problems "q1"))).
  - exists spec_problem. split; [left|]. split; reflexivity.
  - intros (p & box & _ & _ & _ & E). discriminate E.
Defined.

(** Courses given by a name and whether they are open. *)
Definition sample_course (cid : string) (doc : pyval) : string * bool :=
  match doc with
  | PDict d => (match dict_get "name" d (PStr cid) with PStr s => s | _ => cid end,
                py_truthy (dict_get "open" d (PBool true)))
  | _ => (cid, false)
  end.

Definition sample_docs : list (string * pyval) :=
  [("c3", PDict [("name", PStr "Zoology")]);
   ("c1", PDict [("name", PStr "Botany"); ("open", PBool false)]);
   ("c2", PDict [("name", PStr "Algebra")]);
   ("c3", PDict [("name", PStr "Chemistry")])].

Example sample_docs_page :
  map fst (show_page_courses (string * bool) sample_course snd (fun c _ => fst c)
             sample_docs "en")
  = ["c2"; "c3"].
Proof. vm_compute. reflexivity. Qed.

Lemma show_page_courses_sorted_open_witness :
  Sorted (name_le (string * bool) (fun c _ => fst c) "en")
    (show_page_courses (string * bool) sample_course snd (fun c _ => fst c)
       sample_docs "en").
Proof.
  apply (proj1 (show_page_courses_sorted_open (string * bool) sample_course snd
                  (fun c _ => fst c) sample_docs "en")).
Defined.

(** * The pages of the web application *)

(** [str(v)] in Python 2, the language of the web application: an integer
    of any size has a text. The text of a float, a container or another
    object is taken from [py_repr]. *)
Definition py2_str (py_repr : pyval -> string) (v : pyval) : string :=
  match v with
  | PStr s => s
  | PInt z => str_of_int z
  | PBool true => "True"
  | PBool false => "False"
  | PNone => "None"
  | _ => py_repr v
  end.

Definition sample_py2_repr (v : pyval) : string := "<object>".

(** * The submission API: reading submissions *)

(** The exceptions an API page ends with: the three API errors, or any
    other exception, which nothing here catches. *)
Inductive api_exn : Type :=
| APINotFound (msg : string)
| APIForbidden (msg : string)
| APIInvalidArguments
| Uncaught (e : exn).

Inductive response (A : Type) : Type :=
| Done (a : A)
| Fail (e : api_exn).
Arguments Done {A} a.
Arguments Fail {A} e.

#[global] Instance response_ret : MRet response := fun A a => Done a.
#[global] Instance response_bind : MBind response := fun A B f m =>
  match m with
  | Done a => f a
  | Fail e => Fail e
  end.

(** A call outside [try]: its exception leaves the page. *)
Definition uncaught {A} (r : result A) : response A :=
  match r with
  | OK a => Done a
  | Raise e => Fail (Uncaught e)
  end.

(** [try: call except: raise error]: a bare [except] catches everything. *)
Definition try_or {A} (r : result A) (error : api_exn) : response A :=
  match r with
  | OK a => Done a
  | Raise _ => Fail error
  end.

Section GetSubmissions.

Set Default Proof Using "Type".

(** The collaborators: the course factory, the course and task objects,
    the user manager (asked about the session's user) and the submission
    manager; [str()] of a value that is neither a string nor a number. *)
Variable CourseT TaskT : Type.
Variable get_course : string -> result CourseT.
Variable course_get_id : CourseT -> string.
Variable course_get_task : CourseT -> string -> result TaskT.
Variable task_get_id : TaskT -> string.
Variable course_is_open_to_user : CourseT -> bool.
Variable get_user_submissions : TaskT -> list pyval.
Variable get_submission : string -> result pyval.
Variable get_input_from_submission : pyval -> pyval.
Variable py_repr : pyval -> string.

(** The [data] dict of one submission. *)
Definition submission_data (submission : pyval) : result (list (string * pyval)) :=
  id ← py_item_str "_id" submission;
  submitted_on ← py_item_str "submitted_on" submission;
  status ← py_item_str "status" submission;
  grade ← py_item_str "grade" submission;
  let data :=
    [("id", PStr (py2_str py_repr id));
     ("submitted_on", PStr (py2_str py_repr submitted_on));
     ("status", status);
     ("input", get_input_from_submission submission);
     ("grade", grade)] in
  status' ← py_item_str "status" submission;
  if py_eq_str "done" status' then
    match submission with
    | PDict d =>
        OK (dict_set "problems_feedback" (dict_get "problems" d (PDict []))
              (dict_set "feedback" (dict_get "text" d (PStr ""))
                 (dict_set "result" (dict_get "result" d (PStr "crash")) data)))
    | _ => Raise AttributeError
    end
  else OK data.

(** The loop filling [output]. *)
Fixpoint submissions_loop (submissions : list pyval)
    (output : list (list (string * pyval))) : result (list (list (string * pyval))) :=
  match submissions with
  | [] => OK output
  | submission :: rest =>
      data ← submission_data submission;
      submissions_loop rest (output ++ [data])
  end.

Definition _get_submissions (courseid taskid : string) (submissionid : option string)
    : response (Z * list (list (string * pyval))) :=
  course ← try_or (get_course courseid) (APINotFound "Course not found");
  if negb (course_is_open_to_user course) then
    Fail (APIForbidden "You are not registered to this course")
  else
    task ← try_or (course_get_task course taskid) (APINotFound "Task not found");
    submissions ←
      match submissionid with
      | None => Done (get_user_submissions task)
      | Some sid =>
          submission ← try_or (get_submission sid) (APINotFound "Submission not found");
          of_task ← uncaught (py_item_str "taskid" submission);
          if negb (py_eq_str (task_get_id task) of_task) then
            Fail (APINotFound "Submission not found")
          else
            of_course ← uncaught (py_item_str "courseid" submission);
            if negb (py_eq_str (course_get_id course) of_course) then
              Fail (APINotFound "Submission not found")
            else Done [submission]
      end;
    output ← uncaught (submissions_loop submissions []);
    Done (200, output).

Lemma py_eq_str_true s v : py_eq_str s v = true <-> v = PStr s.
Proof.
  destruct v; simpl; try (split; done). rewrite String.eqb_eq.
  split; [by intros ->|by intros [= ->]].
Qed.

Lemma submissions_loop_spec submissions : forall output output',
  submissions_loop submissions output = OK output' ->
  exists datas,
    output' = output ++ datas
    /\ Forall2 (fun s data => submission_data s = OK data) submissions datas.
Proof.
  induction submissions as [|s rest IH]; intros output output'; simpl.
  - intros [= <-]. exists []. by rewrite app_nil_r.
  - destruct (submission_data s) as [data|] eqn:Hs; simpl; [|done].
    intros (datas & -> & Hall)%IH. exists (data :: datas).
    split; [by rewrite <- app_assoc|]. by constructor.
Qed.

(** X19. What [_get_submissions] answers with: a course that cannot be
    found gives [APINotFound]; a course the user is not registered to
    gives [APIForbidden], whether or not the task or the submission
    exists. A successful answer has status 200 and one entry per
    submission, in order. When a submission id is given, a successful
    answer holds that one submission, and its [taskid] and [courseid] are
    those of the task and course of the request: a submission of another
    task or course is answered with [APINotFound]. *)
Theorem _get_submissions_access (courseid taskid : string) (submissionid : option string) :
  (forall e, get_course courseid = Raise e ->
             _get_submissions courseid taskid submissionid
             = Fail (APINotFound "Course not found"))
  /\ (forall course,
        get_course courseid = OK course -> course_is_open_to_user course = false ->
        _get_submissions courseid taskid submissionid
        = Fail (APIForbidden "You are not registered to this course"))
  /\ (forall code output,
        _get_submissions courseid taskid submissionid = Done (code, output) ->
        code = 200
        /\ exists course task submissions,
             get_course courseid = OK course
             /\ course_is_open_to_user course = true
             /\ course_get_task course taskid = OK task
             /\ Forall2 (fun s data => submission_data s = OK data) submissions output
             /\ match submissionid with
                | None => submissions = get_user_submissions task
                | Some sid =>
                    exists d,
                      submissions = [PDict d]
                      /\ get_submission sid = OK (PDict d)
                      /\ dict_lookup "taskid" d = Some (PStr (task_get_id task))
                      /\ dict_lookup "courseid" d = Some (PStr (course_get_id course))
                end)
  /\ (forall course task sid d,
        get_course courseid = OK course -> course_is_open_to_user course = true ->
        course_get_task course taskid = OK task ->
        submissionid = Some sid -> get_submission sid = OK (PDict d) ->
        dict_lookup "taskid" d <> Some (PStr (task_get_id task))
        \/ dict_lookup "courseid" d <> Some (PStr (course_get_id course)) ->
        exists e, _get_submissions courseid taskid submissionid = Fail e
                  /\ (e = APINotFound "Submission not found"
                      \/ exists k, e = Uncaught (KeyError k))).
Proof.
  unfold _get_submissions. split; [|split; [|split]].
  - by intros e ->.
  - intros course -> Hopen. simpl. by rewrite Hopen.
  - intros code output. remember submissions_loop as loop eqn:Hloop.
    destruct (get_course courseid) as [course|] eqn:Hcourse; simpl; [|done].
    destruct (course_is_open_to_user course) eqn:Hopen; simpl; [|done].
    destruct (course_get_task course taskid) as [task|] eqn:Htask; simpl; [|done].
    destruct submissionid as [sid|]; simpl.
    + destruct (get_submission sid) as [s|] eqn:Hsub; simpl; [|done].
      destruct (py_item_str "taskid" s) as [of_task|] eqn:Ht; simpl; [|done].
      destruct (py_eq_str (task_get_id task) of_task) eqn:Et; simpl; [|done].
      destruct (py_item_str "courseid" s) as [of_course|] eqn:Hc; simpl; [|done].
      destruct (py_eq_str (course_get_id course) of_course) eqn:Ec; simpl; [|done].
      subst loop. destruct (submissions_loop [s] []) as [out|] eqn:Hout; simpl; [|done].
      intros [= <- <-]. split; [done|].
      apply submissions_loop_spec in Hout as (datas & -> & Hall).
      apply py_eq_str_true in Et, Ec. subst of_task of_course.
      destruct s as [| | | | | |d]; try done.
      unfold py_item_str, dict_item in Ht, Hc.
      destruct (dict_lookup "taskid" d) as [t|] eqn:Lt; [|done].
      destruct (dict_lookup "courseid" d) as [c|] eqn:Lc; [|done].
      injection Ht as ->. injection Hc as ->.
      exists course, task, [PDict d].
      split; [done|]. split; [done|]. split; [done|].
      split; [done|].
      by exists d.
    + subst loop.
      destruct (submissions_loop (get_user_submissions task) []) as [out|] eqn:Hout;
        simpl; [|done].
      intros [= <- <-]. split; [done|].
      apply submissions_loop_spec in Hout as (datas & -> & Hall).
      by exists course, task, (get_user_submissions task).
  - intros course task sid d -> Hopen Ht -> Hs Hbad. simpl. rewrite Hopen. simpl.
    rewrite Ht. simpl. rewrite Hs. simpl. clear Ht.
    unfold dict_item.
    destruct (dict_lookup "taskid" d) as [of_task|] eqn:Ht; simpl;
      [|eexists; split; [done|]; right; by eexists].
    destruct (py_eq_str (task_get_id task) of_task) eqn:Et; simpl;
      [|eexists; split; [done|]; by left].
    apply py_eq_str_true in Et as ->.
    destruct Hbad as [Hbad|Hbad]; [done|].
    destruct (dict_lookup "courseid" d) as [of_course|] eqn:Hc; simpl;
      [|eexists; split; [done|]; right; by eexists].
    destruct (py_eq_str (course_get_id course) of_course) eqn:Ec; simpl;
      [|eexists; split; [done|]; by left].
    apply py_eq_str_true in Ec as ->. done.
Qed.


End GetSubmissions.

(** A store with one course, one task and two submissions, the second one
    of another task. *)
Definition sample_submission (sid taskid status : string) : pyval :=
  PDict [("_id", PStr sid); ("submitted_on", PStr "2017-01-01 10:00:00");
         ("status", PStr status); ("grade", PFloat 100%float);
         ("taskid", PStr taskid); ("courseid", PStr "c1"); ("text", PStr "Well done")].

Definition sample_get_course (courseid : string) : result (string * bool) :=
  if String.eqb courseid "c1" then OK ("c1", true)
  else if String.eqb courseid "c2" then OK ("c2", false)
  else Raise (Exception "Course not found").

Definition sample_get_task (course : string * bool) (taskid : string) : result string :=
  if String.eqb taskid "t1" then OK taskid else Raise (Exception "Task not found").

Definition sample_get_submission (sid : string) : result pyval :=
  if String.eqb sid "s1" then OK (sample_submission "s1" "t1" "done")
  else if String.eqb sid "s2" then OK (sample_submission "s2" "t2" "done")
  else Raise (Exception "Invalid ObjectId").

Definition sample_get_submissions : string -> string -> option string ->
    response (Z * list (list (string * pyval))) :=
  _get_submissions (string * bool) string sample_get_course fst sample_get_task
    (fun t => t) snd
    (fun t => [sample_submission "s1" "t1" "done"; sample_submission "s3" "t1" "waiting"])
    sample_get_submission (fun s => PDict []) sample_py2_repr.

Example get_submissions_all :
  sample_get_submissions "c1" "t1" None
  = Done (200,
          [[("id", PStr "s1"); ("submitted_on", PStr "2017-01-01 10:00:00");
            ("status", PStr "done"); ("input", PDict []); ("grade", PFloat 100%float);
            ("result", PStr "crash"); ("feedback", PStr "Well done");
            ("problems_feedback", PDict [])];
           [("id", PStr "s3"); ("submitted_on", PStr "2017-01-01 10:00:00");
            ("status", PStr "waiting"); ("input", PDict []);
            ("grade", PFloat 100%float)]]).
Proof. vm_compute. reflexivity. Qed.

Example get_submissions_not_registered :
  sample_get_submissions "c2" "t1" (Some "s1")
  = Fail (APIForbidden "You are not registered to this course").
Proof. vm_compute. reflexivity. Qed.

Lemma _get_submissions_access_witness :
  exists e, sample_get_submissions "c1" "t1" (Some "s2") = Fail e
            /\ (e = APINotFound "Submission not found"
                \/ exists k, e = Uncaught (KeyError k)).
Proof.
  apply (proj2 (proj2 (proj2
           (_get_submissions_access (string * bool) string sample_get_course fst
              sample_get_task (fun t => t) snd
              (fun t => [sample_submission "s1" "t1" "done";
                         sample_submission "s3" "t1" "waiting"])
              sample_get_submission (fun s => PDict []) sample_py2_repr
              "c1" "t1" (Some "s2"))))
         ("c1", true) "t1" "s2"
         [("_id", PStr "s2"); ("submitted_on", PStr "2017-01-01 10:00:00");
          ("status", PStr "done"); ("grade", PFloat 100%float);
          ("taskid", PStr "t2"); ("courseid", PStr "c1"); ("text", PStr "Well done")]);
    try reflexivity.
  left. simpl. discriminate.
Defined.


(** * The submission API: creating a submission *)

(** What [API_POST] does to its collaborators, in order. *)
Inductive event (TaskT InputT : Type) : Type :=
| user_saw_task (username courseid taskid : string)
| add_job_call (task : TaskT) (user_input : InputT) (debug : bool).
Arguments user_saw_task {TaskT InputT} username courseid taskid.
Arguments add_job_call {TaskT InputT} task user_input debug.

(** A page handler: the events so far are threaded through, an exception
    keeps the events that came before it. *)
Definition api (E A : Type) : Type := list E -> list E * response A.

Definition api_ret {E A} (a : A) : api E A := fun log => (log, Done a).

Definition api_bind {E A B} (m : api E A) (f : A -> api E B) : api E B :=
  fun log =>
    match m log with
    | (log', Done a) => f a log'
    | (log', Fail e) => (log', Fail e)
    end.

Definition api_raise {E A} (e : api_exn) : api E A := fun log => (log, Fail e).

Definition api_do {E} (ev : E) : api E unit := fun log => (log ++ [ev], Done tt).

Definition api_of {E A} (r : response A) : api E A := fun log => (log, r).

Notation "x <~ m ;; k" := (api_bind m (fun x => k))
  (at level 100, m at next level, right associativity).
Notation "m ;;; k" := (api_bind m (fun _ => k))
  (at level 100, right associativity).

Section PostSubmission.

Set Default Proof Using "Type".

Variable Box : Type.
Variable box_is_file : Box -> bool.
Variable get_complete_id : Box -> string.

(** The collaborators: course factory, course, task, user manager, the
    request ([web.input]), the problems' own input adaptation, and the
    submission manager, whose [add_job] returns the id of the new
    submission. *)
Variable CourseT TaskT InputT : Type.
Variable get_course : string -> result CourseT.
Variable course_get_task : CourseT -> string -> result TaskT.
Variable get_problems : TaskT -> list (Problem Box).
Variable session_username : string.
Variable course_is_open_to_user : CourseT -> string -> bool.
Variable task_can_user_submit : TaskT -> string -> bool.
Variable has_admin_rights_on_course : CourseT -> string -> bool.
Variable web_input : list (string * pyval) -> InputT.
Variable problem_adapt_input_for_backend : Problem Box -> InputT -> InputT.
Variable task_input_is_consistent : TaskT -> InputT -> result bool.
Variable add_job : TaskT -> InputT -> bool -> result pyval.
Variable py_repr : pyval -> string.

(** [FrontendTask.adapt_input_for_backend] *)
Definition adapt_input_for_backend (task : TaskT) (input_data : InputT) : InputT :=
  fold_left (fun input_data problem => problem_adapt_input_for_backend problem input_data)
    (get_problems task) input_data.

(** [APISubmissions.API_POST] *)
Definition API_POST (courseid taskid : string)
    : api (event TaskT InputT) (Z * list (string * pyval)) :=
  course <~ api_of (try_or (get_course courseid) (APINotFound "Course not found"));;
  let username := session_username in
  if negb (course_is_open_to_user course username) then
    api_raise (APIForbidden "You are not registered to this course")
  else
    task <~ api_of (try_or (course_get_task course taskid) (APINotFound "Task not found"));;
    api_do (user_saw_task username courseid taskid);;;
    if negb (task_can_user_submit task username) then
      api_raise (APIForbidden "Deadline reached")
    else
      let init_var :=
        list_multiple_multiple_choices_and_files Box box_is_file get_complete_id
          (get_problems task) in
      let user_input := adapt_input_for_backend task (web_input init_var) in
      consistent <~ api_of (uncaught (task_input_is_consistent task user_input));;
      if negb consistent then api_raise APIInvalidArguments
      else
        let debug := has_admin_rights_on_course course username in
        api_do (add_job_call task user_input debug);;;
        submissionid <~ api_of (uncaught (add_job task user_input debug));;
        api_ret (200, [("submissionid", PStr (py2_str py_repr submissionid))]).

(** The input a request is graded on. *)
Definition request_input (task : TaskT) : InputT :=
  adapt_input_for_backend task
    (web_input (list_multiple_multiple_choices_and_files Box box_is_file get_complete_id
                  (get_problems task))).

(** An event that starts a job. *)
Definition is_add_job (ev : event TaskT InputT) : bool :=
  match ev with add_job_call _ _ _ => true | user_saw_task _ _ _ => false end.

(** The request reaches the task: the course exists, is open to the user
    and has the task. *)
Definition task_reached (courseid taskid : string) (course : CourseT) (task : TaskT) : Prop :=
  get_course courseid = OK course
  /\ course_is_open_to_user course session_username = true
  /\ course_get_task course taskid = OK task.

(** X21. What [API_POST] does, whatever the collaborators are. It leaves
    the earlier events as they are and adds none, the visit of the task
    alone, or the visit followed by one job, and nothing else on any
    path. The visit is recorded exactly when the request reaches the
    task. A job is started exactly when moreover the user may still
    submit and the task says that the input of the request is consistent;
    it is started on that task and input. When the page ends with an API
    error no job was started; when the user may not submit any more, the
    visit is recorded all the same. A successful answer has status 200
    and started a job. *)
Theorem API_POST_starts_job_after_checks (courseid taskid : string)
    (log : list (event TaskT InputT)) :
  exists added,
    fst (API_POST courseid taskid log) = log ++ added
    /\ (added = []
        \/ added = [user_saw_task session_username courseid taskid]
        \/ exists course task,
             task_reached courseid taskid course task
             /\ added = [user_saw_task session_username courseid taskid;
                         add_job_call task (request_input task)
                           (has_admin_rights_on_course course session_username)])
    /\ (added <> [] <-> exists course task, task_reached courseid taskid course task)
    /\ (existsb is_add_job added = true <->
        exists course task,
          task_reached courseid taskid course task
          /\ task_can_user_submit task session_username = true
          /\ task_input_is_consistent task (request_input task) = OK true)
    /\ (forall e, snd (API_POST courseid taskid log) = Fail e ->
                  (forall e', e <> Uncaught e') -> existsb is_add_job added = false)
    /\ (snd (API_POST courseid taskid log) = Fail (APIForbidden "Deadline reached") ->
        added = [user_saw_task session_username courseid taskid])
    /\ (forall code output,
          snd (API_POST courseid taskid log) = Done (code, output) ->
          code = 200 /\ existsb is_add_job added = true
          /\ exists submissionid,
               output = [("submissionid", PStr (py2_str py_repr submissionid))]).
Proof.
  unfold API_POST, api_bind, api_of, api_raise, api_do, api_ret, task_reached,
    request_input.
  destruct (get_course courseid) as [course|] eqn:Hcourse; simpl.
  2: { exists []. rewrite app_nil_r. split; [done|]. split; [by left|].
       split; [split; [done|by intros (? & ? & [=] & _)]|].
       split; [split; [done|by intros (? & ? & ([=] & _) & _)]|]. done. }
  destruct (course_is_open_to_user course session_username) eqn:Hopen; simpl.
  2: { exists []. rewrite app_nil_r. split; [done|]. split; [by left|].
       split; [split; [done|intros (? & ? & [= <-] & Ho & _); congruence]|].
       split; [split; [done|intros (? & ? & ([= <-] & Ho & _) & _); congruence]|]. done. }
  destruct (course_get_task course taskid) as [task|] eqn:Htask; simpl.
  2: { exists []. rewrite app_nil_r. split; [done|]. split; [by left|].
       split; [split; [done|intros (? & ? & [= <-] & _ & Ht); congruence]|].
       split; [split; [done|intros (? & ? & ([= <-] & _ & Ht) & _); congruence]|]. done. }
  assert (Hreached : exists course' task',
             OK course = OK course'
             /\ course_is_open_to_user course' session_username = true
             /\ course_get_task course' taskid = OK task') by (by exists course, task).
  destruct (task_can_user_submit task session_username) eqn:Hsubmit; simpl.
  2: { eexists. split; [reflexivity|]. split; [right; by left|].
       split; [done|].
       split; [split; [done|]|done].
       intros (? & ? & ([= <-] & _ & Ht) & Hs & _). congruence. }
  destruct (task_input_is_consistent task _) as [consistent|err] eqn:Hcons; simpl.
  2: { eexists. split; [reflexivity|]. split; [right; by left|].
       split; [done|].
       split; [split; [done|]|].
       - intros (? & ? & ([= <-] & _ & Ht) & _ & Hc). congruence.
       - split; [|done]. intros e [= <-] Hne. by destruct (Hne err). }
  destruct consistent; simpl.
  2: { eexists. split; [reflexivity|]. split; [right; by left|].
       split; [done|].
       split; [split; [done|]|done].
       intros (? & ? & ([= <-] & _ & Ht) & _ & Hc). congruence. }
  assert (Hshape : forall added,
             added = [user_saw_task session_username courseid taskid;
                      add_job_call task
                        (adapt_input_for_backend task
                           (web_input
                              (list_multiple_multiple_choices_and_files Box box_is_file
                                 get_complete_id (get_problems task))))
                        (has_admin_rights_on_course course session_username)] ->
             (added = []
              \/ added = [user_saw_task session_username courseid taskid]
              \/ exists course' task',
                   (OK course = OK course'
                    /\ course_is_open_to_user course' session_username = true
                    /\ course_get_task course' taskid = OK task')
                   /\ added = [user_saw_task session_username courseid taskid;
                               add_job_call task'
                                 (adapt_input_for_backend task'
                                    (web_input
                                       (list_multiple_multiple_choices_and_files Box
                                          box_is_file get_complete_id
                                          (get_problems task'))))
                                 (has_admin_rights_on_course course' session_username)])
             /\ (added <> [] <-> exists course' task',
                    OK course = OK course'
                    /\ course_is_open_to_user course' session_username = true
                    /\ course_get_task course' taskid = OK task')
             /\ (existsb is_add_job added = true <->
                 exists course' task',
                   (OK course = OK course'
                    /\ course_is_open_to_user course' session_username = true
                    /\ course_get_task course' taskid = OK task')
                   /\ task_can_user_submit task' session_username = true
                   /\ task_input_is_consistent task'
                        (adapt_input_for_backend task'
                           (web_input
                              (list_multiple_multiple_choices_and_files Box box_is_file
                                 get_complete_id (get_problems task')))) = OK true)).
  { intros added ->. split; [do 2 right; by exists course, task|].
    split; [done|]. split; [intros _|done]. by exists course, task. }
  destruct (add_job task _ _) as [sid|err] eqn:Hid; simpl;
    (eexists; split; [by rewrite <- app_assoc|]);
    destruct (Hshape _ eq_refl) as (H1 & H2 & H3);
    (split; [exact H1|]); (split; [exact H2|]); (split; [exact H3|]).
  - split; [done|]. split; [done|].
    intros code output [= <- <-]. split; [done|]. split; [done|]. by exists sid.
  - split; [intros e [= <-] Hne; by destruct (Hne err)|]. done.
Qed.

End PostSubmission.

(** * The tasks of the web application *)

(** [isinstance(v, basestring)] *)
Definition py_isinstance_basestring (v : pyval) : bool :=
  match v with PStr _ => true | _ => false end.

Section FrontendTasks.

Set Default Proof Using "Type".

(** The collaborators: the id checker, the course, the constructor of the
    parent class, which answers with the descriptor it stored in
    [self._data], and the constructors [ParsableText], [float],
    [AccessibleTime] and [int]. *)
Variable id_checker : string -> bool.
Variable CourseT ParsableTextT AccessibleTimeT : Type.
Variable course_get_id : CourseT -> string.
Variable Task_init : CourseT -> string -> list (string * pyval) -> result (list (string * pyval)).
Variable ParsableText : pyval -> string -> ParsableTextT.
Variable py_float : pyval -> result pyval.
Variable AccessibleTime : pyval -> result AccessibleTimeT.
Variable py2_int : pyval -> result Z.

Record FrontendTask : Type := {
  _data : list (string * pyval);
  _task_name : pyval;
  _context : ParsableTextT;
  _author : list pyval;
  _weight : pyval;
  _accessible : AccessibleTimeT;
  _order : Z
}.

(** The loop over the authors of a list. *)
Fixpoint authors_loop (authors : list pyval) : result unit :=
  match authors with
  | [] => OK tt
  | author :: rest =>
      if negb (py_isinstance_basestring author)
      then Raise (Exception "This task has an invalid author")
      else authors_loop rest
  end.

(** [FrontendTask.__init__] *)
Definition FrontendTask_init (course : CourseT) (taskid : string)
    (content : list (string * pyval)) : result FrontendTask :=
  if negb (id_checker taskid) then
    Raise (Exception ("Task with invalid id: " +:+ course_get_id course +:+ "/" +:+ taskid))
  else
    data ← Task_init course taskid content;
    let name := dict_get "name" data (PStr ("Task " +:+ taskid)) in
    let context := ParsableText (dict_get "context" data (PStr "")) "rst" in
    author ←
      (if py_isinstance_basestring (dict_get "author" data PNone) then
         OK [dict_get "author" data PNone]
       else
         match dict_get "author" data PNone with
         | PList authors => _ ← authors_loop authors; OK authors
         | _ => OK []
         end);
    weight ← py_float (dict_get "weight" data (PFloat 1%float));
    accessible ← AccessibleTime (dict_get "accessible" data PNone);
    order ← py2_int (dict_get "order" data (PInt (-1)));
    OK {| _data := data; _task_name := name; _context := context; _author := author;
          _weight := weight; _accessible := accessible; _order := order |}.

Definition get_authors (t : FrontendTask) : list pyval := _author t.

Lemma authors_loop_OK authors :
  authors_loop authors = OK tt <-> Forall (fun a => exists s, a = PStr s) authors.
Proof.
  induction authors as [|a rest IH]; simpl; [by split|].
  destruct a; simpl; try (split; [done|by intros [[? [=]] _]%Forall_cons]).
  rewrite IH. split; [intros; constructor; [by eexists|done]|by intros [_ ?]%Forall_cons].
Qed.

Lemma authors_loop_Raise authors e :
  authors_loop authors = Raise e -> e = Exception "This task has an invalid author".
Proof.
  induction authors as [|a rest IH]; simpl; [done|].
  destruct (py_isinstance_basestring a); simpl; [done|by intros [= <-]].
Qed.

(** X22. The authors of a task of the web application. A task that was
    constructed has a list of strings as its authors: the one author if
    the descriptor gives a string, the list of the descriptor if it gives
    a list, and no author if it gives anything else or nothing. When the
    descriptor gives a list with an element that is not a string, the
    constructor raises "This task has an invalid author", whatever the
    weight, the accessibility and the order of the descriptor are. *)
Theorem FrontendTask_authors (course : CourseT) (taskid : string)
    (content : list (string * pyval)) :
  (forall t,
      FrontendTask_init course taskid content = OK t ->
      Forall (fun a => exists s, a = PStr s) (get_authors t)
      /\ get_authors t
         = match dict_lookup "author" (_data t) with
           | Some (PStr s) => [PStr s]
           | Some (PList authors) => authors
           | _ => []
           end)
  /\ (forall data authors,
        id_checker taskid = true -> Task_init course taskid content = OK data ->
        dict_lookup "author" data = Some (PList authors) ->
        ~ Forall (fun a => exists s, a = PStr s) authors ->
        FrontendTask_init course taskid content
        = Raise (Exception "This task has an invalid author")).
Proof.
  unfold FrontendTask_init, get_authors, dict_get. split.
  - intros t. destruct (id_checker taskid); simpl; [|done].
    destruct (Task_init course taskid content) as [data|]; simpl; [|done].
    destruct (dict_lookup "author" data) as [a|] eqn:Ha; simpl.
    + destruct a as [| | | |s|authors|]; simpl;
        try (destruct (py_float _); simpl; [|done];
             destruct (AccessibleTime _); simpl; [|done];
             destruct (py2_int _); simpl; [|done];
             intros [= <-]; simpl; rewrite Ha; split; [|done];
             repeat constructor; by eexists).
      destruct (authors_loop authors) as [[]|] eqn:Hloop; simpl; [|done].
      destruct (py_float _); simpl; [|done].
      destruct (AccessibleTime _); simpl; [|done].
      destruct (py2_int _); simpl; [|done].
      intros [= <-]. simpl. rewrite Ha. split; [|done]. by apply authors_loop_OK.
    + destruct (py_float _); simpl; [|done].
      destruct (AccessibleTime _); simpl; [|done].
      destruct (py2_int _); simpl; [|done].
      intros [= <-]. simpl. rewrite Ha. split; [constructor|done].
  - intros data authors -> -> Ha Hbad. simpl. rewrite Ha. simpl.
    destruct (authors_loop authors) as [[]|e] eqn:Hloop; simpl.
    + by apply authors_loop_OK in Hloop.
    + by apply authors_loop_Raise in Hloop as ->.
Qed.

End FrontendTasks.

(** A request on the sample store: the task has the problems of
    [sample_problems], the input sent is the one of the defaults, and
    the grader numbers its jobs. *)
Definition sample_post : string -> string ->
    api (event string (list (string * pyval))) (Z * list (string * pyval)) :=
  API_POST unit sample_is_file sample_complete_id (string * bool) string
    (list (string * pyval)) sample_get_course sample_get_task (fun t => sample_problems)
    "alice" (fun c u => snd c) (fun t u => negb (String.eqb t "closed"))
    (fun c u => false) (fun init_var => init_var) (fun p i => i)
    (fun t i => OK (dict_has "q1" i)) (fun t i debug => OK (PInt 7)) sample_py2_repr.

Example post_submission :
  sample_post "c1" "t1" []
  = ([user_saw_task "alice" "c1" "t1";
      add_job_call "t1" [("q1", PList []); ("q1/file", PDict [])] false],
     Done (200, [("submissionid", PStr "7")])).
Proof. vm_compute. reflexivity. Qed.

Example post_submission_not_registered :
  sample_post "c2" "t1" [] = ([], Fail (APIForbidden "You are not registered to this course")).
Proof. vm_compute. reflexivity. Qed.

Example post_submission_unknown_task :
  sample_post "c1" "t9" [] = ([], Fail (APINotFound "Task not found")).
Proof. vm_compute. reflexivity. Qed.

Lemma API_POST_starts_job_after_checks_witness :
  existsb (is_add_job string (list (string * pyval))) (fst (sample_post "c1" "t1" [])) = true.
Proof.
  destruct (API_POST_starts_job_after_checks unit sample_is_file sample_complete_id
              (string * bool) string (list (string * pyval)) sample_get_course
              sample_get_task (fun t => sample_problems) "alice" (fun c u => snd c)
              (fun t u => negb (String.eqb t "closed")) (fun c u => false)
              (fun init_var => init_var) (fun p i => i)
              (fun t i => OK (dict_has "q1" i)) (fun t i debug => OK (PInt 7))
              sample_py2_repr "c1" "t1" []) as (added & Hadded & _ & _ & Hjob & _).
  unfold sample_post. rewrite Hadded. simpl. apply Hjob.
  exists ("c1", true), "t1". repeat split; reflexivity.
Defined.

(** A task constructor whose parent keeps the descriptor, with numbers as
    weights and orders. *)
Definition sample_FrontendTask_init : list (string * pyval) -> result (FrontendTask unit unit) :=
  FrontendTask_init sample_id_checker string unit unit (fun c => c)
    (fun course taskid content => OK content) (fun text mode => tt)
    (fun v => match v with PFloat _ | PInt _ => OK v | _ => Raise TypeError end)
    (fun v => OK tt)
    (fun v => match v with PInt z => OK z | _ => Raise TypeError end)
    "c1" "t1".

Example one_author :
  (t ← sample_FrontendTask_init [("author", PStr "Ada")]; OK (get_authors unit unit t))
  = OK [PStr "Ada"].
Proof. vm_compute. reflexivity. Qed.

Example no_author :
  (t ← sample_FrontendTask_init [("author", PInt 3)]; OK (get_authors unit unit t))
  = OK [].
Proof. vm_compute. reflexivity. Qed.

Lemma FrontendTask_authors_witness :
  sample_FrontendTask_init
    [("author", PList [PStr "Ada"; PInt 3]); ("weight", PStr "heavy")]
  = Raise (Exception "This task has an invalid author").
Proof.
  apply (proj2 (FrontendTask_authors sample_id_checker string unit unit (fun c => c)
                  (fun course taskid content => OK content) (fun text mode => tt)
                  (fun v => match v with PFloat _ | PInt _ => OK v | _ => Raise TypeError end)
                  (fun v => OK tt)
                  (fun v => match v with PInt z => OK z | _ => Raise TypeError end)
                  "c1" "t1"
                  [("author", PList [PStr "Ada"; PInt 3]); ("weight", PStr "heavy")])
         [("author", PList [PStr "Ada"; PInt 3]); ("weight", PStr "heavy")]
         [PStr "Ada"; PInt 3]); try reflexivity.
  intros H. apply Forall_cons in H as [_ H]. apply Forall_cons in H as [[s E] _].
  discriminate E.
Defined.
